(** * PDF_Triage: a shallow embedding of [pdf_triage_main.py]

    The program splits every PDF of a directory into single-page PDFs,
    counts the drawing instructions and images of every page, extracts the
    largest embedded image of a page in a chosen format and gathers one
    statistics row per page in a CSV report.

    The embedding follows the source function by function.  Everything the
    program obtains from PyMuPDF, Pillow, [glob] and the file system is
    input data ([Env], [Document], [Page]); everything it does to the
    outside is recorded in a [World]: the files of the output directory and
    the sequence of observable events. *)

From Stdlib Require Import ZArith QArith Ascii DecimalString.
From stdpp Require Import gmap strings list.

Open Scope Z_scope.

(** ** Python strings and [os.path] *)

Module PyStr.

(** [c in s] for a one-character [c]. *)
Fixpoint contains_char (c : ascii) (s : string) : bool :=
  match s with
  | EmptyString => false
  | String a s' => if Ascii.eqb a c then true else contains_char c s'
  end.

(** [str.lower()] on the ASCII range. *)
Definition lower_char (a : ascii) : ascii :=
  let n := nat_of_ascii a in
  if (Nat.leb 65 n && Nat.leb n 90)%bool then ascii_of_nat (n + 32) else a.

Fixpoint lower (s : string) : string :=
  match s with
  | EmptyString => EmptyString
  | String a s' => String (lower_char a) (lower s')
  end.

(** [s.rfind(c)]: the index of the last [c] in [s]; [None] stands for
    Python's [-1]. *)
Fixpoint rfind (c : ascii) (s : string) : option nat :=
  match s with
  | EmptyString => None
  | String a s' =>
      match rfind c s' with
      | Some i => Some (S i)
      | None => if Ascii.eqb a c then Some O else None
      end
  end.

Definition index_Z (o : option nat) : Z :=
  match o with Some i => Z.of_nat i | None => -1 end.

(** Slices [s[:n]] and [s[n:]]. *)
Fixpoint take (n : nat) (s : string) : string :=
  match n, s with
  | S n', String a s' => String a (take n' s')
  | _, _ => EmptyString
  end.

Fixpoint drop (n : nat) (s : string) : string :=
  match n, s with
  | S n', String _ s' => drop n' s'
  | _, _ => s
  end.

Definition endswith_char (c : ascii) (s : string) : bool :=
  match String.rev s with
  | String a _ => Ascii.eqb a c
  | EmptyString => false
  end.

(** [str(n)] for a non-negative integer. *)
Definition of_nat (n : nat) : string :=
  NilEmpty.string_of_uint (Nat.to_uint n).

(** [sep.join(l)]. *)
Fixpoint join (sep : string) (l : list string) : string :=
  match l with
  | [] => ""
  | [x] => x
  | x :: l' => x +:+ sep +:+ join sep l'
  end.

End PyStr.

Module OsPath.
Import PyStr.

Definition sep : ascii := "/"%char.
Definition extsep : ascii := "."%char.

(** [os.path.basename(p)]: what follows the last separator. *)
Definition basename (p : string) : string :=
  drop (Z.to_nat (index_Z (rfind sep p) + 1)) p.

(** The loop of [genericpath._splitext] that skips the leading dots of
    the last component: [fuel] is [dotIndex - filenameIndex]. *)
Fixpoint skip_dots (fuel : nat) (p : string) (filenameIndex dotIndex : nat)
  : string * string :=
  match fuel with
  | O => (p, "")
  | S fuel' =>
      match drop filenameIndex p with
      | String a _ =>
          if Ascii.eqb a extsep
          then skip_dots fuel' p (S filenameIndex) dotIndex
          else (take dotIndex p, drop dotIndex p)
      | EmptyString => (take dotIndex p, drop dotIndex p)
      end
  end.

(** [os.path.splitext(p)]. *)
Definition splitext (p : string) : string * string :=
  let sepIndex := index_Z (rfind sep p) in
  let dotIndex := index_Z (rfind extsep p) in
  if sepIndex <? dotIndex then
    let filenameIndex := Z.to_nat (sepIndex + 1) in
    skip_dots (Z.to_nat dotIndex - filenameIndex) p filenameIndex
              (Z.to_nat dotIndex)
  else (p, "").

(** [os.path.join(a, b)]. *)
Definition join (a b : string) : string :=
  match b with
  | String c _ =>
      if Ascii.eqb c sep then b
      else if (String.eqb a "" || endswith_char sep a)%bool then a +:+ b
      else a +:+ "/" +:+ b
  | EmptyString =>
      if (String.eqb a "" || endswith_char sep a)%bool then a
      else a +:+ "/"
  end.

End OsPath.

(** ** Values, exceptions and the collaborating libraries *)

Abbreviation bytes := (list Byte.byte).

(** A Python exception, reduced to what the program reads of it: [str(e)]. *)
Inductive Exn := Exception (msg : string).

Definition str_exn (e : Exn) : string := let 'Exception m := e in m.

Inductive Result (A : Type) :=
| Ok (a : A)
| Raise (e : Exn).
Arguments Ok {A} a.
Arguments Raise {A} e.

Definition rbind {A B} (r : Result A) (k : A -> Result B) : Result B :=
  match r with Ok a => k a | Raise e => Raise e end.

(** A value stored in a statistics dictionary. *)
Inductive PyVal :=
| VInt (n : Z)
| VFloat (q : Q)
| VStr (s : string)
| VList (l : list string).

(** The [color] entry of a drawing path: [None] or a tuple of floats. *)
Inductive PyColor :=
| ColorNone
| ColorTuple (components : list Q).

(** One drawing instruction [item]; the program reads only [item[0]]. *)
Record DrawItem := { item_kind : string }.

(** One dictionary of [page.get_drawings()]; a field is [None] when the key
    is not in the dictionary. *)
Record DrawPath := {
  path_items : option (list DrawItem);
  path_color : option PyColor;
}.

(** One tuple of [page.get_images(full=True)]; [img[0]] is the xref. *)
Record ImageInfo := { img_xref : Z; img_width : Z; img_height : Z }.

(** The dictionary [extract_image] returns; [None] when it has no
    ["image"] key. *)
Record BaseImage := { base_image_image : option bytes }.

Record Page := {
  (** [pdf_document.xref_object(page.xref)] *)
  page_xref_object : Result string;
  (** [page.get_drawings()] *)
  page_get_drawings : Result (list DrawPath);
  (** [page.get_images(full=True)] *)
  page_get_images : Result (list ImageInfo);
  (** [page.parent.extract_image(xref)] *)
  page_extract_image : Z -> Result BaseImage;
  (** the bytes [insert_pdf] and [save] produce for this page alone *)
  page_single_pdf : Result bytes;
}.

Record Document := { doc_pages : list Page }.

(** A decoded Pillow image: one list of 8-bit samples per band. *)
Record Image := {
  im_mode : string;
  im_size : nat * nat;
  im_bands : list (list Z);
}.

Inductive SaveFormat :=
| SaveJPEG (quality : Z)
| SavePNG
| SaveTIFF (compression : string).

(** What the program is given by [glob], PyMuPDF and Pillow's codecs. *)
Record Env := {
  glob_glob : string -> list string;
  fitz_open : string -> Result Document;
  Image_open : bytes -> Result Image;
  Image_convert : string -> Image -> Result Image;
  (** the encoder behind [img.save(path, format, ...)] *)
  Image_encode : SaveFormat -> Image -> string -> Result bytes;
  (** [repr] of a float *)
  float_repr : Q -> string;
}.

(** ** The outside world *)

Inductive FileData :=
| Raw (data : bytes)
| Table (rows : list (gmap string PyVal)).

Inductive Event :=
| EvPrint (msg : string)
| EvDocOpen (path : string)
| EvDocClose (path : string)
| EvImageOpen
| EvImageSave (fmt : SaveFormat) (path : string)
| EvFileWrite (path : string).

Record World := {
  files : gmap string FileData;
  events : list Event;
}.

Definition M (A : Type) : Type := World -> World * Result A.

Definition ret {A} (a : A) : M A := fun w => (w, Ok a).
Definition raise {A} (e : Exn) : M A := fun w => (w, Raise e).
Definition bind {A B} (m : M A) (k : A -> M B) : M B :=
  fun w => match m w with
           | (w', Ok a) => k a w'
           | (w', Raise e) => (w', Raise e)
           end.
(** [try: m  except Exception as e: h e] *)
Definition try_except {A} (m : M A) (h : Exn -> M A) : M A :=
  fun w => match m w with
           | (w', Ok a) => (w', Ok a)
           | (w', Raise e) => h e w'
           end.
Definition lift {A} (r : Result A) : M A := fun w => (w, r).
Definition emit (e : Event) : M unit :=
  fun w => ({| files := files w; events := events w ++ [e] |}, Ok tt).
Definition print (msg : string) : M unit := emit (EvPrint msg).
Definition write_file (path : string) (d : FileData) : M unit :=
  fun w => ({| files := <[path := d]> (files w);
               events := events w ++ [EvFileWrite path] |}, Ok tt).
(** [os.path.getsize(path)] *)
Definition getsize (path : string) : M Z :=
  fun w => match files w !! path with
           | Some (Raw d) => (w, Ok (Z.of_nat (length d)))
           | Some (Table _) => (w, Raise (Exception "not a byte file"))
           | None => (w, Raise (Exception "No such file or directory"))
           end.

Global Instance M_ret : MRet M := @ret.
Global Instance M_bind : MBind M := fun A B k m => bind m k.

Definition empty_world : World := {| files := ∅; events := [] |}.

Global Instance Result_ret : MRet Result := @Ok.
Global Instance Result_bind : MBind Result := fun A B k r => rbind r k.

(** ** [get_page_statistics] *)

Abbreviation Dict := (gmap string PyVal).

(** [stats[k] += 1] *)
Definition dict_incr (k : string) (stats : Dict) : Dict :=
  match stats !! k with
  | Some (VInt n) => <[k := VInt (n + 1)]> stats
  | _ => stats
  end.

(** The [if]/[elif] chain over [item[0]]. *)
Definition count_item (stats : Dict) (item : DrawItem) : Dict :=
  let k := item_kind item in
  if String.eqb k "l" then dict_incr "Line Count" stats
  else if String.eqb k "re" then dict_incr "Polygon Count" stats
  else if (String.eqb k "c" || String.eqb k "v" || String.eqb k "y")%bool
       then dict_incr "Polygon Count" stats
  else if String.eqb k "m" then dict_incr "Point Count" stats
  else stats.

(** Truth value of [path["color"]]: [None] and the empty tuple are false. *)
Definition color_truthy (c : PyColor) : bool :=
  match c with
  | ColorNone => false
  | ColorTuple [] => false
  | ColorTuple (_ :: _) => true
  end.

(** [str(path["color"])] *)
Definition str_color (env : Env) (c : PyColor) : string :=
  match c with
  | ColorNone => "None"
  | ColorTuple [x] => "(" +:+ float_repr env x +:+ ",)"
  | ColorTuple l => "(" +:+ PyStr.join ", " (float_repr env <$> l) +:+ ")"
  end.

(** [if color_str not in stats["Vector Colors"]: ....append(color_str)] *)
Definition add_color (color_str : string) (stats : Dict) : Dict :=
  match stats !! "Vector Colors" with
  | Some (VList l) =>
      if bool_decide (color_str ∈ l) then stats
      else <["Vector Colors" := VList (l ++ [color_str])]> stats
  | _ => stats
  end.

(** The body of [for path in paths]. *)
Definition visit_path (env : Env) (stats : Dict) (path : DrawPath) : Dict :=
  let stats :=
    match path_items path with
    | Some items => foldl count_item stats items
    | None => stats
    end in
  match path_color path with
  | Some c =>
      if color_truthy c then add_color (str_color env c) stats else stats
  | None => stats
  end.

Definition initial_stats : Dict :=
  <["Vector Colors" := VList []]>
  (<["Raster Count" := VInt 0]>
  (<["Polygon Count" := VInt 0]>
  (<["Line Count" := VInt 0]>
  (<["Point Count" := VInt 0]> ∅)))).

(** The dictionary when the loop over the paths ends (line 96). *)
Definition visit_paths (env : Env) (paths : list DrawPath) : Dict :=
  foldl (visit_path env) initial_stats paths.

(** [", ".join(l) if l else "None"] *)
Definition colors_to_string (v : option PyVal) : string :=
  match v with
  | Some (VList (c :: l)) => PyStr.join ", " (c :: l)
  | _ => "None"
  end.

Definition get_page_statistics (env : Env) (page : Page) : Result Dict :=
  _ ← page_xref_object page;
  paths ← page_get_drawings page;
  let stats := visit_paths env paths in
  images ← page_get_images page;
  let stats := <["Raster Count" := VInt (Z.of_nat (length images))]> stats in
  let stats :=
    <["Vector Colors" := VStr (colors_to_string (stats !! "Vector Colors"))]>
      stats in
  Ok stats.

(** ** Pillow operations used by the JPEG branch *)

Module Pil.

(** [Image.new(mode, size, color)] for an [n]-band mode. *)
Definition new (mode : string) (size : nat * nat) (color : list Z) : Image :=
  {| im_mode := mode; im_size := size;
     im_bands := (fun c => replicate (fst size * snd size)%nat c) <$> color |}.

(** [img.split()]: one single-band image per band. *)
Definition split (img : Image) : list Image :=
  (fun b => {| im_mode := "L"; im_size := im_size img; im_bands := [b] |})
    <$> im_bands img.

(** [t[i]] on a tuple. *)
Definition tuple_get {A} (t : list A) (i : nat) : Result A :=
  match t !! i with
  | Some x => Ok x
  | None => Raise (Exception "tuple index out of range")
  end.

(** Pillow's [DIV255] and [BLEND8] on 8-bit samples. *)
Definition div255 (a : Z) : Z :=
  let tmp := a + 128 in Z.shiftr (Z.shiftr tmp 8 + tmp) 8.

Definition blend8 (mask out inp : Z) : Z :=
  div255 (out * (255 - mask) + inp * mask).

(** The three colour bytes of the 4-byte pixel storage of a source that
    [paste] accepts into an RGB image without conversion. *)
Definition rgb_storage (src : Image) : list (list Z) :=
  if String.eqb (im_mode src) "LA" then
    match im_bands src with
    | l :: _ => [l; l; l]
    | [] => []
    end
  else take 3 (im_bands src).

Definition paste_band (mask : option (list Z)) (out inp : list Z) : list Z :=
  match mask with
  | Some m => zip_with (fun a oi => blend8 a (fst oi) (snd oi)) m (zip out inp)
  | None => inp
  end.

(** [background.paste(src, mask=mask)] at the default box (0, 0), for an
    RGB [background] and an RGBA or LA [src]. *)
Definition paste (background src : Image) (mask : option Image)
  : Result Image :=
  if negb (bool_decide (im_size src = im_size background)) then
    Raise (Exception "images do not match")
  else
    match mask with
    | Some m =>
        if negb (bool_decide (im_size m = im_size src)) then
          Raise (Exception "images do not match")
        else
          Ok {| im_mode := im_mode background;
                im_size := im_size background;
                im_bands := zip_with (paste_band (head (im_bands m)))
                              (im_bands background) (rgb_storage src) |}
    | None =>
        Ok {| im_mode := im_mode background;
              im_size := im_size background;
              im_bands := rgb_storage src |}
    end.

End Pil.

(** Lines 131-143: the image handed to the JPEG encoder. *)
Definition jpeg_rgb (env : Env) (img : Image) : Result Image :=
  if bool_decide (im_mode img ∈ ["RGBA"; "LA"]) then
    let background := Pil.new "RGB" (im_size img) [255; 255; 255] in
    if PyStr.contains_char "A" (im_mode img) then
      alpha ← Pil.tuple_get (Pil.split img) 3;
      Pil.paste background img (Some alpha)
    else
      Pil.paste background img None
  else if negb (String.eqb (im_mode img) "RGB") then
    Image_convert env "RGB" img
  else Ok img.

(** ** [extract_largest_image] *)

(** A loop that threads a state through its body. *)
Fixpoint fold_m {A S} (body : S -> A -> M S) (l : list A) (s : S) : M S :=
  match l with
  | [] => ret s
  | x :: l' => s' ← body s x; fold_m body l' s'
  end.

(** [base_image["image"]] *)
Definition base_image_get_image (b : BaseImage) : Result bytes :=
  match base_image_image b with
  | Some d => Ok d
  | None => Raise (Exception "'image'")
  end.

(** Lines 112-123: the body of the loop over the image directory; the state
    is [(largest_img, max_size)]. *)
Definition scan_image (page : Page) (st : option bytes * Z) (img : ImageInfo)
  : M (option bytes * Z) :=
  let xref := img_xref img in
  try_except
    (base_image ← lift (page_extract_image page xref);
     image_bytes ← lift (base_image_get_image base_image);
     let img_size := Z.of_nat (length image_bytes) in
     if snd st <? img_size then ret (Some image_bytes, img_size) else ret st)
    (fun e =>
       print ("Warning: Failed to extract image: " +:+ str_exn e);; ret st).

(** Lines 108-123: [largest_img] when the loop ends. *)
Definition scan_images (page : Page) : M (option bytes) :=
  images ← lift (page_get_images page);
  st ← fold_m (scan_image page) images (None, 0);
  ret (fst st).

Definition open_image (env : Env) (data : bytes) : M Image :=
  emit EvImageOpen;; lift (Image_open env data).

(** [img.save(path, format, ...)]: the encoder is called, and when it
    succeeds its bytes become the file at [path].  A save that raises is
    taken to leave the files as they were: this is what happens when the
    target did not exist, since Pillow removes a file it created; that
    Pillow empties a target that existed before is left out. *)
Definition save_image (env : Env) (img : Image) (path : string)
    (fmt : SaveFormat) : M unit :=
  emit (EvImageSave fmt path);;
  data ← lift (Image_encode env fmt img path);
  write_file path (Raw data).

(** Lines 127-155: the body of the outer [try]. *)
Definition save_requested (env : Env) (largest_img : bytes)
    (output_path image_format : string) : M unit :=
  img ← open_image env largest_img;
  (if String.eqb (PyStr.lower image_format) "jpeg" then
     img ← lift (jpeg_rgb env img);
     save_image env img output_path (SaveJPEG 90)
   else if String.eqb (PyStr.lower image_format) "png" then
     save_image env img output_path SavePNG
   else
     save_image env img output_path (SaveTIFF "tiff_lzw"));;
  print ("Saved image to " +:+ output_path).

(** Line 161 *)
Definition tiff_path_of (output_path : string) : string :=
  fst (OsPath.splitext output_path) +:+ ".tiff".

(** Lines 161-164: the body of the inner [try]. *)
Definition save_tiff_fallback (env : Env) (largest_img : bytes)
    (output_path : string) : M unit :=
  let tiff_path := tiff_path_of output_path in
  img ← open_image env largest_img;
  save_image env img tiff_path (SaveTIFF "tiff_lzw");;
  print ("Saved image as TIFF instead: " +:+ tiff_path).

(** Lines 125-166 for a truthy [largest_img]. *)
Definition save_largest (env : Env) (largest_img : bytes)
    (output_path image_format : string) : M unit :=
  try_except
    (save_requested env largest_img output_path image_format)
    (fun e =>
       print ("Warning: Failed to save image as " +:+ image_format +:+ ": "
              +:+ str_exn e);;
       try_except
         (save_tiff_fallback env largest_img output_path)
         (fun e2 =>
            print ("Error: Could not save image in any format: "
                   +:+ str_exn e2))).

Definition extract_largest_image (env : Env) (page : Page)
    (output_path image_format : string) : M unit :=
  largest_img ← scan_images page;
  match largest_img with
  | Some (b :: data) => save_largest env (b :: data) output_path image_format
  | _ => ret tt
  end.

(** ** [extract_pdf_statistics] *)

(** [format_extensions.get(image_format.lower(), '.tiff')] *)
Definition format_extension (image_format : string) : string :=
  let f := PyStr.lower image_format in
  if String.eqb f "tiff" then ".tiff"
  else if String.eqb f "png" then ".png"
  else if String.eqb f "jpeg" then ".jpg"
  else ".tiff".

(** What is fixed before the loop over the pages starts. *)
Record DocContext := {
  ctx_pdf_path : string;
  ctx_output_dir : string;
  ctx_image_format : string;
  ctx_total_pages : nat;
  ctx_base_filename : string;
  ctx_ext : string;
}.

Definition page_tag (ctx : DocContext) (page_num : nat) : string :=
  ctx_base_filename ctx +:+ "_" +:+ PyStr.of_nat page_num +:+ "_of_"
    +:+ PyStr.of_nat (ctx_total_pages ctx).

Definition output_filename (ctx : DocContext) (page_num : nat) : string :=
  page_tag ctx page_num +:+ ".pdf".

Definition img_filename (ctx : DocContext) (page_num : nat) : string :=
  page_tag ctx page_num +:+ "_largest_image" +:+ ctx_ext ctx.

(** [page_stats["Raster Count"] > 0] *)
Definition raster_count_positive (page_stats : Dict) : Result bool :=
  match page_stats !! "Raster Count" with
  | Some (VInt n) => Ok (0 <? n)
  | Some _ => Raise (Exception "'>' not supported")
  | None => Raise (Exception "'Raster Count'")
  end.

(** [size / 1024]: true division of an integer by 1024. *)
Definition div_1024 (size : Z) : Q := size # 1024.

(** Lines 32-59: the body of the loop over the pages; it returns the row
    appended to [stats_data].  Lines 37-40 are one step: the single-page
    document either yields its bytes, which become the file, or raises. *)
Definition process_page (env : Env) (ctx : DocContext) (page_num : nat)
    (page : Page) : M Dict :=
  let output_path := OsPath.join (ctx_output_dir ctx) (output_filename ctx page_num) in
  data ← lift (page_single_pdf page);
  write_file output_path (Raw data);;
  page_stats ← lift (get_page_statistics env page);
  let page_stats :=
    <["Original File" := VStr (OsPath.basename (ctx_pdf_path ctx))]> page_stats in
  let page_stats :=
    <["Output File" := VStr (output_filename ctx page_num)]> page_stats in
  let page_stats := <["Page Number" := VInt (Z.of_nat page_num)]> page_stats in
  let page_stats :=
    <["Total Pages" := VInt (Z.of_nat (ctx_total_pages ctx))]> page_stats in
  size ← getsize output_path;
  let page_stats := <["File Size (KB)" := VFloat (div_1024 size)]> page_stats in
  has_raster ← lift (raster_count_positive page_stats);
  if (has_raster : bool) then
    let img_path := OsPath.join (ctx_output_dir ctx) (img_filename ctx page_num) in
    extract_largest_image env page img_path (ctx_image_format ctx);;
    ret (<["Largest Image File" := VStr (img_filename ctx page_num)]> page_stats)
  else
    ret (<["Largest Image File" := VStr "N/A"]> page_stats).

(** [for page_num, page in enumerate(pdf_document, 1)] *)
Fixpoint pages_loop (env : Env) (ctx : DocContext) (page_num : nat)
    (pages : list Page) (stats_data : list Dict) : M (list Dict) :=
  match pages with
  | [] => ret stats_data
  | page :: rest =>
      page_stats ← process_page env ctx page_num page;
      pages_loop env ctx (S page_num) rest (stats_data ++ [page_stats])
  end.

Definition doc_context (pdf_path output_dir image_format : string)
    (pdf_document : Document) : DocContext :=
  {| ctx_pdf_path := pdf_path;
     ctx_output_dir := output_dir;
     ctx_image_format := image_format;
     ctx_total_pages := length (doc_pages pdf_document);
     ctx_base_filename := fst (OsPath.splitext (OsPath.basename pdf_path));
     ctx_ext := format_extension image_format |}.

Definition extract_pdf_statistics (env : Env)
    (pdf_path output_dir image_format : string) : M (list Dict) :=
  pdf_document ← lift (fitz_open env pdf_path);
  emit (EvDocOpen pdf_path);;
  let ctx := doc_context pdf_path output_dir image_format pdf_document in
  stats_data ← pages_loop env ctx 1 (doc_pages pdf_document) [];
  emit (EvDocClose pdf_path);;
  ret stats_data.

(** ** [process_all_pdfs] *)

(** Lines 183-188: the body of the loop over the files; the state is
    [all_stats]. *)
Definition process_pdf_file (env : Env) (output_dir image_format : string)
    (all_stats : list Dict) (pdf_file : string) : M (list Dict) :=
  print ("Processing " +:+ pdf_file +:+ "...");;
  try_except
    (stats ← extract_pdf_statistics env pdf_file output_dir image_format;
     ret (all_stats ++ stats))
    (fun e =>
       print ("Error processing " +:+ pdf_file +:+ ": " +:+ str_exn e);;
       ret all_stats).

(** Lines 174-188: [all_stats] when the loop over the files ends. *)
Definition collect_stats (env : Env) (output_dir image_format : string)
    (pdf_files : list string) : M (list Dict) :=
  fold_m (process_pdf_file env output_dir image_format) pdf_files [].

Definition csv_path_of (output_dir : string) : string :=
  OsPath.join output_dir "pdf_statistics.csv".

(** [os.makedirs(output_dir, exist_ok=True)] is taken to succeed; the
    files of the world are keyed by their full path. *)
Definition process_all_pdfs (env : Env)
    (input_dir output_dir image_format : string) : M unit :=
  let pdf_files := glob_glob env (OsPath.join input_dir "*.pdf") in
  match pdf_files with
  | [] => print ("No PDF files found in " +:+ input_dir)
  | _ :: _ =>
      print ("Using image format: " +:+ image_format);;
      all_stats ← collect_stats env output_dir image_format pdf_files;
      match all_stats with
      | _ :: _ =>
          write_file (csv_path_of output_dir) (Table all_stats);;
          print ("Statistics saved to " +:+ csv_path_of output_dir);;
          print ("Processed " +:+ PyStr.of_nat (length pdf_files)
                 +:+ " PDF files with a total of "
                 +:+ PyStr.of_nat (length all_stats) +:+ " pages")
      | [] => print "No statistics were collected. Check for errors above."
      end
  end.

(** ** Notions used in the statements *)

(** The integer stored under [k], if there is one. *)
Definition int_at (k : string) (d : Dict) : option Z :=
  match d !! k with
  | Some (VInt n) => Some n
  | _ => None
  end.

(** The contribution of an instruction of kind [k] to each counter. *)
Definition point_delta (k : string) : Z := if bool_decide (k = "m") then 1 else 0.
Definition line_delta (k : string) : Z := if bool_decide (k = "l") then 1 else 0.
Definition polygon_delta (k : string) : Z :=
  if bool_decide (k ∈ ["re"; "c"; "v"; "y"]) then 1 else 0.

Definition known_kinds : list string := ["m"; "l"; "re"; "c"; "v"; "y"].

(** The instructions of all paths that have an [items] entry, in order. *)
Definition all_items (paths : list DrawPath) : list DrawItem :=
  paths ≫= fun p => default [] (path_items p).

Definition sum_over (f : string -> Z) (items : list DrawItem) : Z :=
  foldr (fun it acc => f (item_kind it) + acc) 0 items.

(** What [add_color] does to the list under ["Vector Colors"]. *)
Definition add_once (l : list string) (c : string) : list string :=
  if bool_decide (c ∈ l) then l else l ++ [c].

(** The list under ["Vector Colors"], if there is one. *)
Definition list_at (k : string) (d : Dict) : option (list string) :=
  match d !! k with
  | Some (VList l) => Some l
  | _ => None
  end.

(** The colour string a path contributes, if any (lines 92-93). *)
Definition path_color_str (env : Env) (path : DrawPath) : option string :=
  match path_color path with
  | Some c => if color_truthy c then Some (str_color env c) else None
  | None => None
  end.

(** The colour strings of a page in the order the loop meets them. *)
Definition encountered (env : Env) (paths : list DrawPath) : list string :=
  omap (path_color_str env) paths.

Definition path_item_list (path : DrawPath) : list DrawItem :=
  default [] (path_items path).

(** The distinct elements of a list in the order of their first
    occurrence: keep the head, drop its later copies. *)
Fixpoint first_seen (l : list string) : list string :=
  match l with
  | [] => []
  | x :: l' => x :: filter (fun y => y <> x) (first_seen l')
  end.

(** ** Sample inputs *)

(** An environment made of a directory listing, the documents behind the
    paths and the two codec functions. *)
Definition make_env (listing : list string)
    (docs : string -> Result Document)
    (decode : bytes -> Result Image)
    (encode : SaveFormat -> Image -> string -> Result bytes) : Env :=
  {| glob_glob := fun _ => listing;
     fitz_open := docs;
     Image_open := decode;
     Image_convert := fun _ img =>
       Ok {| im_mode := "RGB"; im_size := im_size img;
             im_bands := take 3 (im_bands img) |};
     Image_encode := encode;
     float_repr := fun q =>
       if Qeq_bool q 1 then "1.0" else if Qeq_bool q 0 then "0.0" else "0.5" |}.

Definition no_decoder : bytes -> Result Image :=
  fun _ => Raise (Exception "cannot identify image file").

Definition no_encoder : SaveFormat -> Image -> string -> Result bytes :=
  fun _ _ _ => Raise (Exception "encoder error").

Definition no_documents : string -> Result Document :=
  fun _ => Raise (Exception "cannot open file").

Definition plain_env : Env := make_env [] no_documents no_decoder no_encoder.

Definition red : PyColor := ColorTuple [1%Q; 0%Q; 0%Q].
Definition black : PyColor := ColorTuple [0%Q; 0%Q; 0%Q].
Definition grey : PyColor := ColorTuple [0.5%Q].

Definition sample_path (kinds : list string) (color : option PyColor)
  : DrawPath :=
  {| path_items := Some ((fun k => {| item_kind := k |}) <$> kinds);
     path_color := color |}.

(** Four paths with the colours red, black, red, grey, then one path
    without colour and one with the colour [None]. *)
Definition sample_paths : list DrawPath :=
  [ sample_path ["m"; "l"; "l"; "qu"] (Some red);
    sample_path ["re"; "c"] (Some black);
    sample_path ["m"; "v"; "y"; "h"] (Some red);
    sample_path ["l"] (Some grey);
    {| path_items := None; path_color := None |};
    sample_path [] (Some ColorNone) ].

Definition sample_image (xref : Z) : ImageInfo :=
  {| img_xref := xref; img_width := 1; img_height := 1 |}.

(** A page whose image directory is [xrefs] and whose references resolve
    as [resolve] says. *)
Definition sample_page (paths : list DrawPath) (xrefs : list Z)
    (resolve : Z -> Result BaseImage) (pdf : Result bytes) : Page :=
  {| page_xref_object := Ok "<< /Type /Page >>";
     page_get_drawings := Ok paths;
     page_get_images := Ok (sample_image <$> xrefs);
     page_extract_image := resolve;
     page_single_pdf := pdf |}.

Definition no_images : Z -> Result BaseImage :=
  fun _ => Raise (Exception "bad xref").

Definition vector_page : Page :=
  sample_page sample_paths [] no_images (Ok (replicate 2048 Byte.x00)).

(** ** Notions used in the statements about images *)

(** The world after more events happened, with the same files. *)
Definition add_events (w : World) (evs : list Event) : World :=
  {| files := files w; events := events w ++ evs |}.

(** Lines 114-115 for one entry of the image directory. *)
Definition resolve (page : Page) (img : ImageInfo) : Result bytes :=
  base_image ← page_extract_image page (img_xref img);
  base_image_get_image base_image.

(** The payloads of the references that resolve, in directory order. *)
Definition resolved (page : Page) (images : list ImageInfo) : list bytes :=
  omap (fun img => match resolve page img with
                   | Ok d => Some d
                   | Raise _ => None
                   end) images.

(** The warnings printed for the references that do not resolve. *)
Definition scan_warnings (page : Page) (images : list ImageInfo)
  : list Event :=
  omap (fun img =>
          match resolve page img with
          | Ok _ => None
          | Raise e =>
              Some (EvPrint ("Warning: Failed to extract image: "
                             +:+ str_exn e))
          end) images.

(** Lines 118-121 on the state [(largest_img, max_size)]. *)
Definition keep_larger (st : option bytes * Z) (d : bytes)
  : option bytes * Z :=
  if snd st <? Z.of_nat (length d) then (Some d, Z.of_nat (length d)) else st.

(** [d] is the first payload of greatest length in [l]. *)
Definition first_largest (d : bytes) (l : list bytes) : Prop :=
  exists pre post,
    l = pre ++ d :: post /\
    (forall x, x ∈ pre -> (length x < length d)%nat) /\
    (forall x, x ∈ post -> (length x <= length d)%nat).

(** A page with one image reference that resolves to [data]. *)
Definition one_image_page (data : bytes) : Page :=
  sample_page [] [7]
    (fun _ => Ok {| base_image_image := Some data |})
    (Ok (replicate 2048 Byte.x00)).

(** A page with five image references: the first does not resolve, the
    others resolve to payloads of 2, 3, 3 and 1 bytes. *)
Definition tie_page : Page :=
  sample_page [] [5; 7; 8; 9; 10]
    (fun xref =>
       if xref =? 5 then Raise (Exception "bad xref")
       else if xref =? 7 then
         Ok {| base_image_image := Some [Byte.x0a; Byte.x0b] |}
       else if xref =? 8 then
         Ok {| base_image_image := Some [Byte.x01; Byte.x02; Byte.x03] |}
       else if xref =? 9 then
         Ok {| base_image_image := Some [Byte.x04; Byte.x05; Byte.x06] |}
       else Ok {| base_image_image := Some [Byte.x07] |})
    (Ok (replicate 2048 Byte.x00)).

(** White background of [n] pixels composited with band [x] under the
    alpha band [a]: what line 138 leaves in one band of [background]. *)
Definition on_white (n : nat) (a x : list Z) : list Z :=
  Pil.paste_band (Some a) (replicate n 255) x.

Definition pixel_count (img : Image) : nat :=
  (fst (im_size img) * snd (im_size img))%nat.

(** A 1x1 luminance-plus-alpha image, fully transparent. *)
Definition la_image : Image :=
  {| im_mode := "LA"; im_size := (1, 1)%nat; im_bands := [[10]; [0]] |}.

(** A 2x1 RGBA image: a fully transparent and a fully opaque pixel. *)
Definition rgba_image : Image :=
  {| im_mode := "RGBA"; im_size := (2, 1)%nat;
     im_bands := [[10; 20]; [30; 40]; [50; 60]; [0; 255]] |}.

(** A decoder that knows one payload. *)
Definition decode_as (img : Image) : bytes -> Result Image :=
  fun _ => Ok img.

(** An encoder that always succeeds; the encoded bytes are left empty
    except for a format tag. *)
Definition tagging_encoder : SaveFormat -> Image -> string -> Result bytes :=
  fun fmt _ _ =>
    Ok match fmt with
       | SaveJPEG _ => [Byte.x01]
       | SavePNG => [Byte.x02]
       | SaveTIFF _ => [Byte.x03]
       end.

Definition la_env : Env :=
  make_env [] no_documents (decode_as la_image) tagging_encoder.

(** ** Notions used in the statements about saving *)

(** The world after [img.save] wrote [data] at [path]. *)
Definition saved (w : World) (fmt : SaveFormat) (path : string)
    (data : bytes) : World :=
  {| files := <[path := Raw data]> (files w);
     events := events w ++ [EvImageSave fmt path; EvFileWrite path] |}.

(** The encoder arguments lines 131-153 choose for a format string. *)
Definition requested_format (image_format : string) : SaveFormat :=
  if String.eqb (PyStr.lower image_format) "jpeg" then SaveJPEG 90
  else if String.eqb (PyStr.lower image_format) "png" then SavePNG
  else SaveTIFF "tiff_lzw".

(** The image handed to the encoder of the requested format. *)
Definition prepared (env : Env) (image_format : string) (img : Image)
  : Result Image :=
  if String.eqb (PyStr.lower image_format) "jpeg" then jpeg_rgb env img
  else Ok img.

Definition count_events (p : Event -> bool) (evs : list Event) : nat :=
  length (List.filter p evs).

Definition is_image_open (ev : Event) : bool :=
  match ev with EvImageOpen => true | _ => false end.

Definition is_image_save (ev : Event) : bool :=
  match ev with EvImageSave _ _ => true | _ => false end.

Definition is_file_write (ev : Event) : bool :=
  match ev with EvFileWrite _ => true | _ => false end.

Definition is_doc_event (ev : Event) : bool :=
  match ev with EvDocOpen _ | EvDocClose _ => true | _ => false end.

Definition save_warning (image_format : string) (e : Exn) : Event :=
  EvPrint ("Warning: Failed to save image as " +:+ image_format +:+ ": "
           +:+ str_exn e).

Definition save_error (e : Exn) : Event :=
  EvPrint ("Error: Could not save image in any format: " +:+ str_exn e).

(** ** Notions used in the statements about rows *)

(** The world after [write_file]. *)
Definition wrote (w : World) (path : string) (d : FileData) : World :=
  {| files := <[path := d]> (files w);
     events := events w ++ [EvFileWrite path] |}.

Definition output_path_of (ctx : DocContext) (page_num : nat) : string :=
  OsPath.join (ctx_output_dir ctx) (output_filename ctx page_num).

Definition img_path_of (ctx : DocContext) (page_num : nat) : string :=
  OsPath.join (ctx_output_dir ctx) (img_filename ctx page_num).

(** The row of lines 43-48, before the image field is set. *)
Definition base_row (ctx : DocContext) (page_num : nat) (stats : Dict)
    (size : Z) : Dict :=
  <["File Size (KB)" := VFloat (div_1024 size)]>
  (<["Total Pages" := VInt (Z.of_nat (ctx_total_pages ctx))]>
  (<["Page Number" := VInt (Z.of_nat page_num)]>
  (<["Output File" := VStr (output_filename ctx page_num)]>
  (<["Original File" := VStr (OsPath.basename (ctx_pdf_path ctx))]> stats)))).

(** [largest_img] at line 125, from the image directory. *)
Definition selected (page : Page) (images : list ImageInfo) : option bytes :=
  fst (foldl keep_larger (None, 0) (resolved page images)).

(** The extensions the program gives to image files. *)
Definition image_extensions : list string := [".tiff"; ".png"; ".jpg"].

(** What [os.path.join(d, name)] puts in front of a [name] that starts
    like [tag]. *)
Definition dir_prefix (d tag : string) : string :=
  match tag with
  | String c _ => if Ascii.eqb c OsPath.sep then "" else
      if (String.eqb d "" || PyStr.endswith_char OsPath.sep d)%bool then d
      else d +:+ "/"
  | EmptyString =>
      if (String.eqb d "" || PyStr.endswith_char OsPath.sep d)%bool then d
      else d +:+ "/"
  end.

(** The name of the TIFF file of the fallback. *)
Definition tiff_filename (ctx : DocContext) (page_num : nat) : string :=
  page_tag ctx page_num +:+ "_largest_image" +:+ ".tiff".

(** A value holds the number [z]. *)
Definition holds_number (v : option PyVal) (z : Z) : Prop :=
  match v with
  | Some (VInt n) => n = z
  | Some (VFloat q) => q == inject_Z z
  | _ => False
  end.

(** The size field as the specification words it: the size in bytes of
    the single-page PDF that was written. *)
Definition size_field_in_bytes : Prop :=
  forall env ctx page_num page w w' row pdf,
    page_single_pdf page = Ok pdf ->
    process_page env ctx page_num page w = (w', Ok row) ->
    holds_number (row !! "File Size (KB)") (Z.of_nat (length pdf)).

Definition sample_ctx (image_format : string) : DocContext :=
  doc_context "in/report.pdf" "out" image_format
    {| doc_pages := [vector_page] |}.

(** The bytes the requested format yields for a payload: decoding, colour
    conversion and encoding, or the first exception on the way. *)
Definition requested_bytes (env : Env) (data : bytes)
    (path image_format : string) : Result bytes :=
  img ← Image_open env data;
  img' ← prepared env image_format img;
  Image_encode env (requested_format image_format) img' path.

(** The bytes the TIFF fallback yields for a payload. *)
Definition fallback_bytes (env : Env) (data : bytes) (path : string)
  : Result bytes :=
  img ← Image_open env data;
  Image_encode env (SaveTIFF "tiff_lzw") img (tiff_path_of path).

(** The save attempts of a trace, in order. *)
Definition save_attempts (evs : list Event) : list (SaveFormat * string) :=
  omap (fun ev => match ev with
                  | EvImageSave fmt path => Some (fmt, path)
                  | _ => None
                  end) evs.

(** The paths of the writes that were completed, in order; a save that
    raises completes none. *)
Definition completed_writes (evs : list Event) : list string :=
  omap (fun ev => match ev with
                  | EvFileWrite path => Some path
                  | _ => None
                  end) evs.

(** The image files lines 125-166 end up writing for a payload, by the
    outcome of the two attempts. *)
Definition image_writes (env : Env) (data : bytes)
    (path image_format : string) : list string :=
  match requested_bytes env data path image_format with
  | Ok _ => [path]
  | Raise _ =>
      match fallback_bytes env data path with
      | Ok _ => [tiff_path_of path]
      | Raise _ => []
      end
  end.

(** The effect of the failure policy of lines 125-166 on the files [fs]
    and on the trace, by the outcome of the two attempts: [fs'] are the
    files afterwards and [evs] the events that happened. *)
Definition save_outcome (env : Env) (data : bytes)
    (path image_format : string) (fs fs' : gmap string FileData)
    (evs : list Event) : Prop :=
  match requested_bytes env data path image_format with
  | Ok d =>
      fs' = <[path := Raw d]> fs /\
      count_events is_image_open evs = 1%nat /\
      save_attempts evs = [(requested_format image_format, path)]
  | Raise e =>
      save_warning image_format e ∈ evs /\
      count_events is_image_open evs = 2%nat /\
      match fallback_bytes env data path with
      | Ok t =>
          fs' = <[tiff_path_of path := Raw t]> fs /\
          last (save_attempts evs)
            = Some (SaveTIFF "tiff_lzw", tiff_path_of path)
      | Raise e2 =>
          fs' = fs /\ last evs = Some (save_error e2)
      end
  end.

(** The effect of [extract_largest_image] on the files and the trace. *)
Definition extraction_outcome (env : Env) (page : Page)
    (images : list ImageInfo) (path image_format : string)
    (fs fs' : gmap string FileData) (evs : list Event) : Prop :=
  match selected page images with
  | Some (b :: d) => save_outcome env (b :: d) path image_format fs fs' evs
  | _ => fs' = fs /\ evs = []
  end.

(** The image field as the specification words it: when both attempts
    fail the field is absent or marks the failure, so it is not the file
    name that a successful extraction records. *)
Definition failed_extraction_marks_field : Prop :=
  forall env ctx page_num page w w' row images data e e2,
    page_get_images page = Ok images ->
    selected page images = Some data ->
    requested_bytes env data (img_path_of ctx page_num) (ctx_image_format ctx)
      = Raise e ->
    fallback_bytes env data (img_path_of ctx page_num) = Raise e2 ->
    process_page env ctx page_num page w = (w', Ok row) ->
    row !! "Largest Image File" <> Some (VStr (img_filename ctx page_num)).

Definition stat_keys : list string :=
  ["Point Count"; "Line Count"; "Polygon Count"; "Raster Count";
   "Vector Colors"].

(** An environment whose decoder works and whose encoders all fail. *)
Definition la_no_encoder_env : Env :=
  make_env [] no_documents (decode_as la_image) no_encoder.

(** An environment where only the TIFF encoder works. *)
Definition tiff_only_encoder : SaveFormat -> Image -> string -> Result bytes :=
  fun fmt _ _ =>
    match fmt with
    | SaveTIFF _ => Ok [Byte.x03]
    | _ => Raise (Exception "encoder error")
    end.

Definition rgba_tiff_only_env : Env :=
  make_env [] no_documents (decode_as rgba_image) tiff_only_encoder.

Definition image_page : Page := one_image_page [Byte.x01; Byte.x02].

(** ** Notions used in the statements about documents *)

(** Running [m] only appends events to the trace, all of them in [P]. *)
Definition emits {A} (P : Event -> Prop) (m : M A) : Prop :=
  forall w, exists evs,
    events (fst (m w)) = events w ++ evs /\ Forall P evs.

(** Neither the opening nor the closing of a document. *)
Definition page_event (ev : Event) : Prop := is_doc_event ev = false.

(** The row of a page, when splitting and analysing it succeed. *)
Definition page_row (env : Env) (ctx : DocContext) (page_num : nat)
    (page : Page) : Result Dict :=
  pdf ← page_single_pdf page;
  stats ← get_page_statistics env page;
  images ← page_get_images page;
  Ok (<["Largest Image File" :=
         VStr (match images with
               | [] => "N/A"
               | _ :: _ => img_filename ctx page_num
               end)]>
      (base_row ctx page_num stats (Z.of_nat (length pdf)))).

(** The rows of the pages from number [page_num] on, or the exception of
    the first page that fails. *)
Fixpoint page_rows (env : Env) (ctx : DocContext) (page_num : nat)
    (pages : list Page) : Result (list Dict) :=
  match pages with
  | [] => Ok []
  | page :: rest =>
      row ← page_row env ctx page_num page;
      rows ← page_rows env ctx (S page_num) rest;
      Ok (row :: rows)
  end.

(** The rows of a document, or the exception that makes it fail. *)
Definition document_rows (env : Env)
    (pdf_path output_dir image_format : string) : Result (list Dict) :=
  pdf_document ← fitz_open env pdf_path;
  page_rows env (doc_context pdf_path output_dir image_format pdf_document)
    1 (doc_pages pdf_document).

(** What a document contributes to the report. *)
Definition contributed (env : Env) (output_dir image_format : string)
    (pdf_path : string) : list Dict :=
  match document_rows env pdf_path output_dir image_format with
  | Ok rows => rows
  | Raise _ => []
  end.

Definition processing_line (pdf_file : string) : Event :=
  EvPrint ("Processing " +:+ pdf_file +:+ "...").

Definition error_line (pdf_file : string) (e : Exn) : Event :=
  EvPrint ("Error processing " +:+ pdf_file +:+ ": " +:+ str_exn e).

(** A page that cannot be written as a single-page PDF. *)
Definition broken_page : Page :=
  sample_page [] [] no_images (Raise (Exception "cannot save page")).

(** A document that opens but whose second page fails. *)
Definition damaged_doc : Document :=
  {| doc_pages := [vector_page; broken_page] |}.

(** A valid document of two pages. *)
Definition good_doc : Document :=
  {| doc_pages := [vector_page; image_page] |}.

(** A directory with a file that does not open and a valid document. *)
Definition batch_env : Env :=
  make_env ["in/corrupt.pdf"; "in/good.pdf"]
    (fun p => if String.eqb p "in/good.pdf" then Ok good_doc
              else Raise (Exception "cannot open broken document"))
    (decode_as rgba_image) tagging_encoder.

(** A directory with a document that fails on its second page and a
    valid document. *)
Definition damaged_env : Env :=
  make_env ["in/damaged.pdf"; "in/good.pdf"]
    (fun p => if String.eqb p "in/good.pdf" then Ok good_doc
              else Ok damaged_doc)
    (decode_as rgba_image) tagging_encoder.

(** ** Notions used in the statements about names *)

(** A document of [n] pages, for statements that only need the count. *)
Definition doc_of_pages (pages : list Page) : Document :=
  {| doc_pages := pages |}.

(** The path of a PDF called [name] in the directory [dir]. *)
Definition pdf_in (dir name : string) : string :=
  dir +:+ "/" +:+ name +:+ ".pdf".

(** Whether a result is a value. *)
Definition is_ok {A} (r : Result A) : bool :=
  match r with Ok _ => true | Raise _ => false end.

(** An environment whose codecs all work. *)
Definition codec_env : Env :=
  make_env [] no_documents (decode_as rgba_image) tagging_encoder.

(** The openings and closings of input documents in a trace, in order. *)
Definition doc_events (evs : list Event) : list Event :=
  List.filter is_doc_event evs.

(** The openings and closings of its input document that one file of the
    batch causes. *)
Definition doc_trace (env : Env) (output_dir image_format pdf_file : string)
  : list Event :=
  match fitz_open env pdf_file with
  | Raise _ => []
  | Ok _ =>
      match document_rows env pdf_file output_dir image_format with
      | Ok _ => [EvDocOpen pdf_file; EvDocClose pdf_file]
      | Raise _ => [EvDocOpen pdf_file]
      end
  end.

(** The last character of a string. *)
Fixpoint last_char (s : string) : option ascii :=
  match s with
  | EmptyString => None
  | String c EmptyString => Some c
  | String _ s' => last_char s'
  end.

(** A directory whose only PDF does not open. *)
Definition corrupt_env : Env :=
  make_env ["in/corrupt.pdf"] no_documents (decode_as rgba_image)
    tagging_encoder.

(** The four library calls a page must survive to get a row. *)
Definition page_readable (page : Page) : bool :=
  (is_ok (page_single_pdf page) && is_ok (page_xref_object page)
   && is_ok (page_get_drawings page) && is_ok (page_get_images page))%bool.

(** The columns of the report. *)
Definition report_columns : gset string :=
  list_to_set
    ["Point Count"; "Line Count"; "Polygon Count"; "Raster Count";
     "Vector Colors"; "Original File"; "Output File"; "Page Number";
     "Total Pages"; "File Size (KB)"; "Largest Image File"].

(** The batch of [batch_env] with codecs that always fail. *)
Definition batch_env_no_codecs : Env :=
  make_env ["in/corrupt.pdf"; "in/good.pdf"]
    (fun p => if String.eqb p "in/good.pdf" then Ok good_doc
              else Raise (Exception "cannot open broken document"))
    no_decoder no_encoder.

(** * Properties *)

(** ** Path functions on examples *)

Example splitext_ex1 : OsPath.splitext "in/report.pdf" = ("in/report", ".pdf").
Proof. reflexivity. Qed.

Example splitext_ex2 : OsPath.splitext "in.d/.hidden" = ("in.d/.hidden", "").
Proof. reflexivity. Qed.

Example splitext_ex3 : OsPath.splitext "a/..b.c" = ("a/..b", ".c").
Proof. reflexivity. Qed.

Example basename_ex : OsPath.basename "in/report.pdf" = "report.pdf".
Proof. reflexivity. Qed.

Example join_ex : OsPath.join "out" "r_1_of_3.pdf" = "out/r_1_of_3.pdf".
Proof. reflexivity. Qed.

Example of_nat_ex : PyStr.of_nat 12 = "12" /\ PyStr.of_nat 0 = "0".
Proof. split; reflexivity. Qed.


(** ** Running monadic code *)

Lemma run_bind {A B} (m : M A) (k : A -> M B) (w : World) :
  (m ≫= k) w =
  match m w with
  | (w', Ok a) => k a w'
  | (w', Raise e) => (w', Raise e)
  end.
Proof. reflexivity. Qed.

Lemma run_try_except {A} (m : M A) (h : Exn -> M A) (w : World) :
  try_except m h w =
  match m w with
  | (w', Ok a) => (w', Ok a)
  | (w', Raise e) => h e w'
  end.
Proof. reflexivity. Qed.

Lemma run_lift {A} (r : Result A) (w : World) : lift r w = (w, r).
Proof. reflexivity. Qed.

Lemma run_ret {A} (a : A) (w : World) : mret (M := M) a w = (w, Ok a).
Proof. reflexivity. Qed.

Lemma rbind_Ok {A B} (r : Result A) (k : A -> Result B) (b : B) :
  r ≫= k = Ok b -> exists a, r = Ok a /\ k a = Ok b.
Proof. destruct r as [a|e]; [eauto | discriminate]. Qed.

(** ** Dictionaries *)

Lemma int_at_incr_same k d n :
  int_at k d = Some n -> int_at k (dict_incr k d) = Some (n + 1).
Proof.
  unfold int_at, dict_incr. destruct (d !! k) as [[]|] eqn:E; try discriminate.
  intros [= ->]. by rewrite lookup_insert_eq.
Qed.

Lemma lookup_incr_other k k' (d : Dict) :
  k <> k' -> dict_incr k d !! k' = d !! k'.
Proof.
  intros Hne. unfold dict_incr.
  destruct (d !! k) as [[]|]; try done. by rewrite lookup_insert_ne.
Qed.

Lemma int_at_incr_other k k' d :
  k <> k' -> int_at k' (dict_incr k d) = int_at k' d.
Proof. intros Hne. unfold int_at. by rewrite lookup_incr_other. Qed.

(** ** Counting drawing instructions *)

Ltac eval_deltas :=
  repeat match goal with
  | |- context [point_delta ?s] =>
      let v := eval vm_compute in (point_delta s) in
      change (point_delta s) with v
  | |- context [line_delta ?s] =>
      let v := eval vm_compute in (line_delta s) in
      change (line_delta s) with v
  | |- context [polygon_delta ?s] =>
      let v := eval vm_compute in (polygon_delta s) in
      change (polygon_delta s) with v
  end.

Lemma kind_cases (k : string) :
  k = "l" \/ k = "re" \/ k = "c" \/ k = "v" \/ k = "y" \/ k = "m"
  \/ k ∉ known_kinds.
Proof.
  unfold known_kinds.
  destruct (decide (k = "l")); [tauto|].
  destruct (decide (k = "re")); [tauto|].
  destruct (decide (k = "c")); [tauto|].
  destruct (decide (k = "v")); [tauto|].
  destruct (decide (k = "y")); [tauto|].
  destruct (decide (k = "m")); [tauto|].
  do 6 right. rewrite !elem_of_cons, elem_of_nil. tauto.
Qed.

Lemma eqb_false_of_ne (k s : string) : k <> s -> String.eqb k s = false.
Proof. intros H. by apply String.eqb_neq. Qed.

Lemma count_item_other stats item :
  item_kind item ∉ known_kinds -> count_item stats item = stats.
Proof.
  unfold count_item, known_kinds. intros Hk.
  rewrite !elem_of_cons, elem_of_nil in Hk.
  rewrite !eqb_false_of_ne by tauto. reflexivity.
Qed.

Lemma deltas_other (k : string) :
  k ∉ known_kinds ->
  point_delta k = 0 /\ line_delta k = 0 /\ polygon_delta k = 0.
Proof.
  unfold known_kinds, point_delta, line_delta, polygon_delta. intros Hk.
  rewrite !elem_of_cons, elem_of_nil in Hk.
  rewrite !bool_decide_eq_false_2;
    [done | rewrite ?elem_of_cons, ?elem_of_nil; tauto ..].
Qed.

Lemma count_item_counters stats item p l g :
  int_at "Point Count" stats = Some p ->
  int_at "Line Count" stats = Some l ->
  int_at "Polygon Count" stats = Some g ->
  int_at "Point Count" (count_item stats item)
    = Some (p + point_delta (item_kind item)) /\
  int_at "Line Count" (count_item stats item)
    = Some (l + line_delta (item_kind item)) /\
  int_at "Polygon Count" (count_item stats item)
    = Some (g + polygon_delta (item_kind item)).
Proof.
  intros Hp Hl Hg.
  destruct (kind_cases (item_kind item))
    as [E|[E|[E|[E|[E|[E|E]]]]]].
  7: { rewrite (count_item_other _ _ E).
       destruct (deltas_other _ E) as [-> [-> ->]].
       rewrite !Z.add_0_r. done. }
  all: unfold count_item; rewrite E; eval_deltas;
    cbn [String.eqb Ascii.eqb Bool.eqb orb];
    repeat (first [ rewrite int_at_incr_other by done
                  | erewrite int_at_incr_same by eassumption ]);
    rewrite ?Hp, ?Hl, ?Hg, ?Z.add_0_r; done.
Qed.

Lemma count_item_keeps stats item k :
  k ∉ ["Point Count"; "Line Count"; "Polygon Count"] ->
  count_item stats item !! k = stats !! k.
Proof.
  intros Hk. rewrite !elem_of_cons, elem_of_nil in Hk. unfold count_item.
  repeat match goal with |- context [if ?b then _ else _] => destruct b end;
    try done; apply lookup_incr_other; intros E; subst k; tauto.
Qed.

Lemma sum_over_app f (xs ys : list DrawItem) :
  sum_over f (xs ++ ys) = sum_over f xs + sum_over f ys.
Proof. unfold sum_over. induction xs as [|x xs IH]; simpl; lia. Qed.

Lemma count_items_counters items : forall stats p l g,
  int_at "Point Count" stats = Some p ->
  int_at "Line Count" stats = Some l ->
  int_at "Polygon Count" stats = Some g ->
  int_at "Point Count" (foldl count_item stats items)
    = Some (p + sum_over point_delta items) /\
  int_at "Line Count" (foldl count_item stats items)
    = Some (l + sum_over line_delta items) /\
  int_at "Polygon Count" (foldl count_item stats items)
    = Some (g + sum_over polygon_delta items).
Proof.
  induction items as [|it items IH]; intros stats p l g Hp Hl Hg; simpl.
  - rewrite !Z.add_0_r. done.
  - destruct (count_item_counters stats it p l g Hp Hl Hg) as (Hp' & Hl' & Hg').
    destruct (IH _ _ _ _ Hp' Hl' Hg') as (-> & -> & ->).
    repeat split; f_equal; lia.
Qed.

Lemma count_items_keeps items : forall stats k,
  k ∉ ["Point Count"; "Line Count"; "Polygon Count"] ->
  foldl count_item stats items !! k = stats !! k.
Proof.
  induction items as [|it items IH]; intros stats k Hk; simpl; [done|].
  rewrite IH by done. by apply count_item_keeps.
Qed.

(** ** Collecting colours *)

Lemma add_color_list c stats l :
  list_at "Vector Colors" stats = Some l ->
  list_at "Vector Colors" (add_color c stats) = Some (add_once l c).
Proof.
  unfold list_at, add_color, add_once.
  destruct (stats !! "Vector Colors") as [[]|] eqn:E; try discriminate.
  intros [= ->]. case_bool_decide.
  - by rewrite E.
  - by rewrite lookup_insert_eq.
Qed.

Lemma add_color_keeps c stats k :
  k <> "Vector Colors" -> add_color c stats !! k = stats !! k.
Proof.
  intros Hk. unfold add_color.
  destruct (stats !! "Vector Colors") as [[]|]; try done.
  case_bool_decide; [done|]. by rewrite lookup_insert_ne.
Qed.

Lemma visit_path_eq env stats path :
  visit_path env stats path =
  let stats' := foldl count_item stats (path_item_list path) in
  match path_color_str env path with
  | Some c => add_color c stats'
  | None => stats'
  end.
Proof.
  unfold visit_path, path_color_str, path_item_list.
  destruct (path_items path), (path_color path) as [c|]; simpl; try done;
    by destruct (color_truthy c).
Qed.

Lemma int_at_add_color k c stats :
  k <> "Vector Colors" -> int_at k (add_color c stats) = int_at k stats.
Proof. intros Hk. unfold int_at. by rewrite add_color_keeps. Qed.

Lemma list_at_count_items items stats :
  list_at "Vector Colors" (foldl count_item stats items)
  = list_at "Vector Colors" stats.
Proof.
  unfold list_at. rewrite count_items_keeps; [done|].
  rewrite !elem_of_cons, elem_of_nil. intros [?|[?|[?|[]]]]; discriminate.
Qed.

Lemma visit_path_state env stats path p l g cs :
  int_at "Point Count" stats = Some p ->
  int_at "Line Count" stats = Some l ->
  int_at "Polygon Count" stats = Some g ->
  list_at "Vector Colors" stats = Some cs ->
  let stats' := visit_path env stats path in
  int_at "Point Count" stats'
    = Some (p + sum_over point_delta (path_item_list path)) /\
  int_at "Line Count" stats'
    = Some (l + sum_over line_delta (path_item_list path)) /\
  int_at "Polygon Count" stats'
    = Some (g + sum_over polygon_delta (path_item_list path)) /\
  list_at "Vector Colors" stats'
    = Some (foldl add_once cs (option_list (path_color_str env path))).
Proof.
  intros Hp Hl Hg Hc. simpl. rewrite visit_path_eq. simpl.
  destruct (count_items_counters (path_item_list path) stats p l g Hp Hl Hg)
    as (Hp' & Hl' & Hg').
  pose proof (list_at_count_items (path_item_list path) stats) as Hc'.
  rewrite Hc in Hc'.
  destruct (path_color_str env path) as [c|]; simpl.
  - rewrite !int_at_add_color by done.
    rewrite (add_color_list _ _ _ Hc'). done.
  - done.
Qed.

Lemma all_items_cons path paths :
  all_items (path :: paths) = path_item_list path ++ all_items paths.
Proof. reflexivity. Qed.

Lemma encountered_cons env path paths :
  encountered env (path :: paths)
  = option_list (path_color_str env path) ++ encountered env paths.
Proof.
  unfold encountered. simpl. by destruct (path_color_str env path).
Qed.

Lemma visit_paths_state env paths : forall stats p l g cs,
  int_at "Point Count" stats = Some p ->
  int_at "Line Count" stats = Some l ->
  int_at "Polygon Count" stats = Some g ->
  list_at "Vector Colors" stats = Some cs ->
  let stats' := foldl (visit_path env) stats paths in
  int_at "Point Count" stats'
    = Some (p + sum_over point_delta (all_items paths)) /\
  int_at "Line Count" stats'
    = Some (l + sum_over line_delta (all_items paths)) /\
  int_at "Polygon Count" stats'
    = Some (g + sum_over polygon_delta (all_items paths)) /\
  list_at "Vector Colors" stats'
    = Some (foldl add_once cs (encountered env paths)).
Proof.
  induction paths as [|path paths IH]; intros stats p l g cs Hp Hl Hg Hc.
  - simpl. rewrite !Z.add_0_r. done.
  - destruct (visit_path_state env stats path p l g cs Hp Hl Hg Hc)
      as (Hp' & Hl' & Hg' & Hc').
    destruct (IH _ _ _ _ _ Hp' Hl' Hg' Hc') as (Hp2 & Hl2 & Hg2 & Hc2).
    cbn [foldl]. cbv zeta.
    rewrite Hp2, Hl2, Hg2, Hc2, all_items_cons, encountered_cons.
    rewrite !sum_over_app, foldl_app.
    repeat split; f_equal; lia.
Qed.

Lemma add_once_fold xs : forall acc,
  foldl add_once acc xs = acc ++ filter (fun y => y ∉ acc) (first_seen xs).
Proof.
  induction xs as [|x xs IH]; intros acc; simpl.
  - by rewrite app_nil_r.
  - rewrite IH. unfold add_once. case_bool_decide as Hx.
    + rewrite filter_cons_False by tauto. f_equal.
      rewrite list_filter_filter. apply list_filter_iff.
      intros y. split; [|tauto]. intros Hy. split; [done|]. by intros ->.
    + rewrite filter_cons_True by done. rewrite <- app_assoc. simpl.
      do 2 f_equal. rewrite list_filter_filter. apply list_filter_iff.
      intros y. rewrite elem_of_app, list_elem_of_singleton. tauto.
Qed.

Lemma add_once_first_seen xs : foldl add_once [] xs = first_seen xs.
Proof.
  rewrite add_once_fold. simpl. induction (first_seen xs) as [|y l IH].
  - done.
  - rewrite filter_cons_True by apply not_elem_of_nil. by f_equal.
Qed.

Lemma first_seen_elem_of xs s : s ∈ first_seen xs <-> s ∈ xs.
Proof.
  induction xs as [|x xs IH]; simpl; [done|].
  rewrite !elem_of_cons, list_elem_of_filter, IH.
  destruct (decide (s = x)); tauto.
Qed.

Lemma first_seen_NoDup xs : NoDup (first_seen xs).
Proof.
  induction xs as [|x xs IH]; simpl; [constructor|].
  constructor.
  - rewrite list_elem_of_filter. tauto.
  - by apply NoDup_filter.
Qed.

Lemma first_seen_sublist xs : sublist (first_seen xs) xs.
Proof.
  induction xs as [|x xs IH]; simpl; [constructor|].
  apply sublist_skip. etrans; [apply sublist_filter | exact IH].
Qed.

Lemma initial_stats_state :
  int_at "Point Count" initial_stats = Some 0 /\
  int_at "Line Count" initial_stats = Some 0 /\
  int_at "Polygon Count" initial_stats = Some 0 /\
  list_at "Vector Colors" initial_stats = Some [].
Proof. repeat split; reflexivity. Qed.

Lemma visit_paths_result env paths :
  int_at "Point Count" (visit_paths env paths)
    = Some (sum_over point_delta (all_items paths)) /\
  int_at "Line Count" (visit_paths env paths)
    = Some (sum_over line_delta (all_items paths)) /\
  int_at "Polygon Count" (visit_paths env paths)
    = Some (sum_over polygon_delta (all_items paths)) /\
  list_at "Vector Colors" (visit_paths env paths)
    = Some (first_seen (encountered env paths)).
Proof.
  destruct initial_stats_state as (Hp & Hl & Hg & Hc).
  destruct (visit_paths_state env paths _ _ _ _ _ Hp Hl Hg Hc)
    as (Hp' & Hl' & Hg' & Hc').
  unfold visit_paths. rewrite Hp', Hl', Hg', Hc', add_once_first_seen.
  done.
Qed.

Lemma list_at_lookup k (d : Dict) l :
  list_at k d = Some l <-> d !! k = Some (VList l).
Proof.
  unfold list_at. destruct (d !! k) as [[]|]; split; congruence.
Qed.

Lemma int_at_lookup k (d : Dict) n :
  int_at k d = Some n <-> d !! k = Some (VInt n).
Proof.
  unfold int_at. destruct (d !! k) as [[]|]; split; congruence.
Qed.

Lemma get_page_statistics_Ok env page x paths images :
  page_xref_object page = Ok x ->
  page_get_drawings page = Ok paths ->
  page_get_images page = Ok images ->
  get_page_statistics env page =
  Ok (<["Vector Colors" :=
          VStr (colors_to_string
                  (Some (VList (first_seen (encountered env paths)))))]>
      (<["Raster Count" := VInt (Z.of_nat (length images))]>
         (visit_paths env paths))).
Proof.
  intros Hx Hd Hi. unfold get_page_statistics. rewrite Hx, Hd, Hi. simpl.
  rewrite lookup_insert_ne by done.
  destruct (visit_paths_result env paths) as (_ & _ & _ & Hc).
  apply list_at_lookup in Hc. by rewrite Hc.
Qed.

Example encountered_sample :
  encountered plain_env sample_paths
  = ["(1.0, 0.0, 0.0)"; "(0.0, 0.0, 0.0)"; "(1.0, 0.0, 0.0)"; "(0.5,)"].
Proof. reflexivity. Qed.

Lemma first_seen_ABAC (A B C : string) :
  A <> B -> A <> C -> B <> C -> first_seen [A; B; A; C] = [A; B; C].
Proof.
  intros HAB HAC HBC. simpl.
  rewrite !filter_cons_True, filter_nil by done.
  rewrite filter_cons_False by tauto.
  rewrite filter_cons_True by done.
  rewrite filter_cons_True by done.
  rewrite filter_cons_True by done. rewrite filter_nil. done.
Qed.

(** C4: for every page, the list [get_page_statistics] has accumulated
    under ["Vector Colors"] when its loop over the paths of the page ends
    holds every colour string met on the page exactly once, in the order of
    first occurrence, and it is this list that the function joins into the
    colour field of the page; colours met in the order A, B, A, C give the
    list [A; B; C] and the field "A, B, C". *)
Theorem vector_colors_deduplicated env page x paths images :
  page_xref_object page = Ok x ->
  page_get_drawings page = Ok paths ->
  page_get_images page = Ok images ->
  exists cs stats,
    visit_paths env paths !! "Vector Colors" = Some (VList cs) /\
    get_page_statistics env page = Ok stats /\
    stats !! "Vector Colors"
      = Some (VStr (match cs with
                    | [] => "None"
                    | _ :: _ => PyStr.join ", " cs
                    end)) /\
    NoDup cs /\
    (forall s, s ∈ cs <-> s ∈ encountered env paths) /\
    sublist cs (encountered env paths) /\
    cs = first_seen (encountered env paths) /\
    (forall A B C, A <> B -> A <> C -> B <> C ->
       encountered env paths = [A; B; A; C] ->
       cs = [A; B; C] /\
       stats !! "Vector Colors"
         = Some (VStr (A +:+ ", " +:+ B +:+ ", " +:+ C))).
Proof.
  intros Hx Hd Hi.
  destruct (visit_paths_result env paths) as (_ & _ & _ & Hc).
  apply list_at_lookup in Hc.
  assert (Hfield :
    (<["Vector Colors" :=
         VStr (colors_to_string
                 (Some (VList (first_seen (encountered env paths)))))]>
       (<["Raster Count" := VInt (Z.of_nat (length images))]>
          (visit_paths env paths)) : Dict) !! "Vector Colors"
    = Some (VStr (match first_seen (encountered env paths) with
                  | [] => "None"
                  | _ :: _ => PyStr.join ", " (first_seen (encountered env paths))
                  end))).
  { rewrite lookup_insert_eq. unfold colors_to_string.
    by destruct (first_seen (encountered env paths)). }
  exists (first_seen (encountered env paths)). eexists.
  split; [exact Hc|].
  split; [by eapply get_page_statistics_Ok|].
  split; [exact Hfield|].
  split; [apply first_seen_NoDup|].
  split; [apply first_seen_elem_of|]. split; [apply first_seen_sublist|].
  split; [done|].
  intros A B C HAB HAC HBC He. rewrite Hfield, He.
  rewrite (first_seen_ABAC A B C HAB HAC HBC). done.
Qed.

Lemma vector_colors_deduplicated_witness :
  exists cs stats,
    get_page_statistics plain_env vector_page = Ok stats /\
    cs = ["(1.0, 0.0, 0.0)"; "(0.0, 0.0, 0.0)"; "(0.5,)"] /\
    stats !! "Vector Colors"
      = Some (VStr "(1.0, 0.0, 0.0), (0.0, 0.0, 0.0), (0.5,)").
Proof.
  destruct (vector_colors_deduplicated plain_env vector_page
              "<< /Type /Page >>" sample_paths [] eq_refl eq_refl eq_refl)
    as (cs & stats & _ & Hstats & _ & _ & _ & _ & _ & Hex).
  destruct (Hex "(1.0, 0.0, 0.0)" "(0.0, 0.0, 0.0)" "(0.5,)")
    as (Hcs & Hfield);
    [discriminate | discriminate | discriminate | reflexivity |].
  exists cs, stats. split; [exact Hstats|]. split; [exact Hcs|]. exact Hfield.
Defined.

(** C5: every drawing instruction is classified by its kind tag: "m" adds
    one to the point count, "l" one to the line count, "re", "c", "v" and
    "y" one to the polygon count, and any other kind changes nothing; the
    counts of a page are the sums over the instructions of its paths. *)
Theorem drawing_instructions_classified env page x paths images :
  page_xref_object page = Ok x ->
  page_get_drawings page = Ok paths ->
  page_get_images page = Ok images ->
  (forall stats item p l g,
     int_at "Point Count" stats = Some p ->
     int_at "Line Count" stats = Some l ->
     int_at "Polygon Count" stats = Some g ->
     let k := item_kind item in
     int_at "Point Count" (count_item stats item)
       = Some (p + if bool_decide (k = "m") then 1 else 0) /\
     int_at "Line Count" (count_item stats item)
       = Some (l + if bool_decide (k = "l") then 1 else 0) /\
     int_at "Polygon Count" (count_item stats item)
       = Some (g + if bool_decide (k ∈ ["re"; "c"; "v"; "y"]) then 1 else 0) /\
     (k ∉ ["m"; "l"; "re"; "c"; "v"; "y"] -> count_item stats item = stats)) /\
  exists stats,
    get_page_statistics env page = Ok stats /\
    stats !! "Point Count"
      = Some (VInt (sum_over point_delta (all_items paths))) /\
    stats !! "Line Count"
      = Some (VInt (sum_over line_delta (all_items paths))) /\
    stats !! "Polygon Count"
      = Some (VInt (sum_over polygon_delta (all_items paths))).
Proof.
  intros Hx Hd Hi. split.
  - intros stats item p l g Hp Hl Hg k.
    destruct (count_item_counters stats item p l g Hp Hl Hg) as (? & ? & ?).
    repeat split; try done. apply count_item_other.
  - eexists. split; [by eapply get_page_statistics_Ok|].
    destruct (visit_paths_result env paths) as (Hp & Hl & Hg & _).
    apply int_at_lookup in Hp, Hl, Hg.
    rewrite !lookup_insert_ne by done. done.
Qed.

Lemma drawing_instructions_classified_witness :
  exists stats,
    get_page_statistics plain_env vector_page = Ok stats /\
    stats !! "Point Count" = Some (VInt 2) /\
    stats !! "Line Count" = Some (VInt 3) /\
    stats !! "Polygon Count" = Some (VInt 4).
Proof.
  destruct (drawing_instructions_classified plain_env vector_page
              "<< /Type /Page >>" sample_paths [] eq_refl eq_refl eq_refl)
    as (_ & stats & H & Hp & Hl & Hg).
  exists stats. split; [exact H|]. rewrite Hp, Hl, Hg.
  repeat split; reflexivity.
Defined.

(** ** Selecting the largest image *)

Lemma add_events_nil w : add_events w [] = w.
Proof. destruct w. unfold add_events. simpl. by rewrite app_nil_r. Qed.

Lemma add_events_app w evs1 evs2 :
  add_events (add_events w evs1) evs2 = add_events w (evs1 ++ evs2).
Proof. unfold add_events. simpl. by rewrite app_assoc. Qed.

Lemma run_print msg w : print msg w = (add_events w [EvPrint msg], Ok tt).
Proof. reflexivity. Qed.

Lemma run_emit ev w : emit ev w = (add_events w [ev], Ok tt).
Proof. reflexivity. Qed.

Lemma scan_image_run page st img w :
  scan_image page st img w =
  match resolve page img with
  | Ok d => (w, Ok (keep_larger st d))
  | Raise e =>
      (add_events w [EvPrint ("Warning: Failed to extract image: "
                              +:+ str_exn e)], Ok st)
  end.
Proof.
  unfold scan_image, resolve, keep_larger.
  rewrite run_try_except, !run_bind, run_lift.
  destruct (page_extract_image page (img_xref img)) as [b|e]; simpl; [|done].
  rewrite run_bind, run_lift.
  destruct (base_image_get_image b) as [d|e]; simpl; [|done].
  by destruct (snd st <? Z.of_nat (length d)).
Qed.

Lemma scan_loop_run page images : forall st w,
  fold_m (scan_image page) images st w =
  (add_events w (scan_warnings page images),
   Ok (foldl keep_larger st (resolved page images))).
Proof.
  induction images as [|img images IH]; intros st w; simpl.
  - by rewrite add_events_nil.
  - rewrite run_bind, scan_image_run. unfold resolved, scan_warnings. simpl.
    destruct (resolve page img) as [d|e]; simpl.
    + apply IH.
    + rewrite IH, add_events_app. done.
Qed.

Lemma scan_images_run page images w :
  page_get_images page = Ok images ->
  scan_images page w =
  (add_events w (scan_warnings page images),
   Ok (fst (foldl keep_larger (None, 0) (resolved page images)))).
Proof.
  intros Hi. unfold scan_images. rewrite run_bind, run_lift, Hi.
  rewrite run_bind, scan_loop_run. reflexivity.
Qed.

Lemma keep_larger_lt cur m (d : bytes) :
  m < Z.of_nat (length d) ->
  keep_larger (cur, m) d = (Some d, Z.of_nat (length d)).
Proof.
  intros H. unfold keep_larger. simpl.
  by destruct (Z.ltb_spec m (Z.of_nat (length d))); [|lia].
Qed.

Lemma keep_larger_ge cur m (d : bytes) :
  Z.of_nat (length d) <= m -> keep_larger (cur, m) d = (cur, m).
Proof.
  intros H. unfold keep_larger. simpl.
  by destruct (Z.ltb_spec m (Z.of_nat (length d))); [lia|].
Qed.

(** The running maximum either never moves, or ends on the first payload
    that is longer than all before it and at least as long as all after. *)
Lemma keep_larger_fold l : forall cur m,
  (foldl keep_larger (cur, m) l = (cur, m) /\
   forall x, x ∈ l -> Z.of_nat (length x) <= m) \/
  (exists d, foldl keep_larger (cur, m) l = (Some d, Z.of_nat (length d)) /\
             m < Z.of_nat (length d) /\ first_largest d l).
Proof.
  induction l as [|x l IH]; intros cur m.
  - left. split; [done|]. intros x Hx. by apply elem_of_nil in Hx.
  - cbn [foldl].
    destruct (Z.ltb_spec m (Z.of_nat (length x))) as [Hlt|Hge].
    + rewrite keep_larger_lt by done.
      right. destruct (IH (Some x) (Z.of_nat (length x)))
        as [[Heq Hall]|(d & Heq & Hd & pre & post & -> & Hpre & Hpost)].
      * exists x. split; [done|]. split; [done|].
        exists [], l. split; [done|]. split.
        -- intros y Hy. by apply elem_of_nil in Hy.
        -- intros y Hy. specialize (Hall y Hy). lia.
      * exists d. split; [done|]. split; [lia|].
        exists (x :: pre), post. split; [done|]. split; [|done].
        intros y [->|Hy]%elem_of_cons; [lia|by apply Hpre].
    + rewrite keep_larger_ge by done.
      destruct (IH cur m)
        as [[Heq Hall]|(d & Heq & Hd & pre & post & -> & Hpre & Hpost)].
      * left. split; [done|].
        intros y [->|Hy]%elem_of_cons; [lia|by apply Hall].
      * right. exists d. split; [done|]. split; [done|].
        exists (x :: pre), post. split; [done|]. split; [|done].
        intros y [->|Hy]%elem_of_cons; [lia|by apply Hpre].
Qed.

Lemma first_largest_unique (d d' : bytes) l :
  first_largest d l -> first_largest d' l -> d = d'.
Proof.
  intros (pre & post & -> & Hpre & Hpost) (pre' & post' & Heq & Hpre' & Hpost').
  revert pre' Heq Hpre'.
  induction pre as [|x pre IH]; intros [|x' pre'] Heq Hpre'; simpl in Heq.
  - by injection Heq.
  - injection Heq as -> ->.
    assert (Hlt : (length x' < length d')%nat) by (apply Hpre'; by left).
    assert (Hle : (length d' <= length x')%nat).
    { apply Hpost. rewrite elem_of_app, elem_of_cons. auto. }
    lia.
  - injection Heq as <- <-.
    assert (Hlt : (length x < length d)%nat) by (apply Hpre; by left).
    assert (Hle : (length d <= length x)%nat).
    { apply Hpost'. rewrite elem_of_app, elem_of_cons. auto. }
    lia.
  - injection Heq as <- Heq. apply (IH (fun y Hy => Hpre y (list_elem_of_further _ _ _ Hy)) pre' Heq).
    intros y Hy. apply Hpre'. by right.
Qed.

Lemma scan_warnings_resolved_length page images :
  (length (scan_warnings page images) + length (resolved page images)
   = length images)%nat.
Proof.
  unfold scan_warnings, resolved, omap.
  induction images as [|img images IH]; [done|]. simpl in *.
  destruct (resolve page img); simpl; lia.
Qed.

(** The payload line 125 sees: [None] and the empty payload are one. *)
Lemma selected_first_largest page images :
  match resolved page images with
  | [] => selected page images = None
  | _ :: _ =>
      first_largest (default [] (selected page images)) (resolved page images)
  end.
Proof.
  unfold selected.
  destruct (keep_larger_fold (resolved page images) None 0)
    as [[-> Hall]|(d & -> & Hd & Hfirst)]; simpl.
  - destruct (resolved page images) as [|x l]; [done|].
    exists [], l.
    assert (Hx : x = []).
    { specialize (Hall x (list_elem_of_here _ _)).
      destruct x; [done|simpl in Hall; lia]. }
    subst x. split; [done|]. split.
    + intros y Hy. by apply elem_of_nil in Hy.
    + intros y Hy. specialize (Hall y (list_elem_of_further _ _ _ Hy)).
      simpl. lia.
  - destruct (resolved page images) as [|x l]; [|done].
    destruct Hfirst as (pre & post & Heq & _). by destruct pre.
Qed.

(** ** The JPEG branch *)

Lemma blend8_transparent inp : Pil.blend8 0 255 inp = 255.
Proof.
  unfold Pil.blend8. rewrite Z.mul_0_r. reflexivity.
Qed.

Lemma blend8_opaque out inp :
  0 <= inp <= 255 -> Pil.blend8 255 out inp = inp.
Proof.
  intros H. unfold Pil.blend8, Pil.div255.
  replace (out * (255 - 255) + inp * 255 + 128) with (inp * 255 + 128) by lia.
  rewrite !Z.shiftr_div_pow2 by lia. change (2 ^ 8) with 256.
  assert (Hq : (inp * 255 + 128) / 256 = inp - (if 128 <? inp then 1 else 0)).
  { destruct (Z.ltb_spec 128 inp); symmetry; apply Z.div_unique_pos with
      (r := inp * 255 + 128 - 256 * (inp - (if 128 <? inp then 1 else 0)));
      destruct (Z.ltb_spec 128 inp); lia. }
  rewrite Hq. symmetry.
  apply Z.div_unique_pos with
    (r := inp - (if 128 <? inp then 1 else 0) + (inp * 255 + 128) - 256 * inp);
    destruct (Z.ltb_spec 128 inp); lia.
Qed.

Lemma on_white_lookup n a x i m v :
  (i < n)%nat -> a !! i = Some m -> x !! i = Some v ->
  on_white n a x !! i = Some (Pil.blend8 m 255 v).
Proof.
  intros Hi Ha Hx. unfold on_white, Pil.paste_band.
  rewrite lookup_zip_with, Ha. simpl.
  rewrite lookup_zip_with, lookup_replicate_2 by done. simpl.
  rewrite Hx. reflexivity.
Qed.

(** An RGBA source is composited on white under its alpha band. *)
Lemma jpeg_rgb_RGBA env img r g b a :
  im_mode img = "RGBA" ->
  im_bands img = [r; g; b; a] ->
  jpeg_rgb env img =
  Ok {| im_mode := "RGB"; im_size := im_size img;
        im_bands := [on_white (pixel_count img) a r;
                     on_white (pixel_count img) a g;
                     on_white (pixel_count img) a b] |}.
Proof.
  intros Hm Hb. unfold jpeg_rgb. rewrite Hm.
  change (bool_decide ("RGBA" ∈ ["RGBA"; "LA"])) with true.
  cbn [PyStr.contains_char Ascii.eqb Bool.eqb].
  unfold Pil.split. rewrite Hb. simpl.
  unfold Pil.paste. simpl.
  rewrite !bool_decide_eq_true_2 by done. simpl.
  unfold Pil.rgb_storage. rewrite Hm, Hb. reflexivity.
Qed.

(** Where the alpha of an RGBA source is 0 the composited pixel is white,
    where it is 255 the pixel is the source's. *)
Lemma jpeg_rgb_RGBA_pixels env img r g b a :
  im_mode img = "RGBA" ->
  im_bands img = [r; g; b; a] ->
  exists out r' g' b',
    jpeg_rgb env img = Ok out /\
    im_mode out = "RGB" /\
    im_bands out = [r'; g'; b'] /\
    forall i vr vg vb,
      (i < pixel_count img)%nat ->
      r !! i = Some vr -> g !! i = Some vg -> b !! i = Some vb ->
      (a !! i = Some 0 ->
       r' !! i = Some 255 /\ g' !! i = Some 255 /\ b' !! i = Some 255) /\
      (a !! i = Some 255 ->
       0 <= vr <= 255 -> 0 <= vg <= 255 -> 0 <= vb <= 255 ->
       r' !! i = Some vr /\ g' !! i = Some vg /\ b' !! i = Some vb).
Proof.
  intros Hm Hb. eexists _, _, _, _.
  split; [by apply jpeg_rgb_RGBA|]. split; [done|]. split; [done|].
  intros i vr vg vb Hi Hr Hg Hbl. split.
  - intros Ha.
    rewrite !(on_white_lookup _ _ _ _ _ _ Hi Ha) by eassumption.
    by rewrite !blend8_transparent.
  - intros Ha ? ? ?.
    rewrite (on_white_lookup _ _ _ _ _ _ Hi Ha Hr),
            (on_white_lookup _ _ _ _ _ _ Hi Ha Hg),
            (on_white_lookup _ _ _ _ _ _ Hi Ha Hbl).
    by rewrite !blend8_opaque.
Qed.

(** A source that is neither RGBA, LA nor RGB is converted directly. *)
Lemma jpeg_rgb_convert env img :
  im_mode img ∉ ["RGBA"; "LA"; "RGB"] ->
  jpeg_rgb env img = Image_convert env "RGB" img.
Proof.
  rewrite !elem_of_cons, elem_of_nil. intros Hm. unfold jpeg_rgb.
  rewrite bool_decide_eq_false_2
    by (rewrite !elem_of_cons, elem_of_nil; tauto).
  rewrite eqb_false_of_ne by tauto. reflexivity.
Qed.

Lemma jpeg_rgb_RGB env img : im_mode img = "RGB" -> jpeg_rgb env img = Ok img.
Proof. intros Hm. unfold jpeg_rgb. rewrite Hm. reflexivity. Qed.

(** The [else] branch of line 139 is never taken: both modes that reach
    line 137 contain the letter A. *)
Lemma alpha_test_always_true mode :
  mode ∈ ["RGBA"; "LA"] -> PyStr.contains_char "A" mode = true.
Proof.
  rewrite !elem_of_cons, elem_of_nil. intros [->|[->|[]]]; reflexivity.
Qed.

(** An LA source has two bands, so [img.split()[3]] raises. *)
Lemma jpeg_rgb_LA env img :
  im_mode img = "LA" ->
  length (im_bands img) = 2%nat ->
  jpeg_rgb env img = Raise (Exception "tuple index out of range").
Proof.
  intros Hm Hb. unfold jpeg_rgb. rewrite Hm.
  change (bool_decide ("LA" ∈ ["RGBA"; "LA"])) with true.
  cbn [PyStr.contains_char Ascii.eqb Bool.eqb].
  unfold Pil.split, Pil.tuple_get.
  destruct (im_bands img) as [|l [|a [|x bs]]]; try discriminate.
  reflexivity.
Qed.

(** ** Saving the selected image *)

Lemma run_open_image env data w :
  open_image env data w = (add_events w [EvImageOpen], Image_open env data).
Proof. reflexivity. Qed.

Lemma run_save_image env img path fmt w :
  save_image env img path fmt w =
  match Image_encode env fmt img path with
  | Ok data => (saved w fmt path data, Ok tt)
  | Raise e => (add_events w [EvImageSave fmt path], Raise e)
  end.
Proof.
  unfold save_image. rewrite !run_bind, run_emit, run_bind, run_lift.
  destruct (Image_encode env fmt img path); [|done].
  unfold write_file, saved, add_events. simpl. by rewrite <- app_assoc.
Qed.

Lemma save_requested_run env data path image_format w :
  save_requested env data path image_format w =
  match Image_open env data with
  | Raise e => (add_events w [EvImageOpen], Raise e)
  | Ok img =>
      match prepared env image_format img with
      | Raise e => (add_events w [EvImageOpen], Raise e)
      | Ok img' =>
          let fmt := requested_format image_format in
          match Image_encode env fmt img' path with
          | Raise e =>
              (add_events w [EvImageOpen; EvImageSave fmt path], Raise e)
          | Ok d =>
              (add_events (saved (add_events w [EvImageOpen]) fmt path d)
                          [EvPrint ("Saved image to " +:+ path)], Ok tt)
          end
      end
  end.
Proof.
  unfold save_requested, prepared, requested_format.
  rewrite run_bind, run_open_image.
  destruct (Image_open env data) as [img|e]; [|done].
  rewrite run_bind.
  destruct (String.eqb (PyStr.lower image_format) "jpeg").
  - rewrite run_bind, run_lift.
    destruct (jpeg_rgb env img) as [img'|e]; [|done].
    rewrite run_save_image. cbv zeta.
    destruct (Image_encode env (SaveJPEG 90) img' path); [|by rewrite add_events_app].
    by rewrite run_print.
  - destruct (String.eqb (PyStr.lower image_format) "png");
      rewrite run_save_image; cbv zeta;
      (destruct (Image_encode env _ img path); [|by rewrite add_events_app]);
      by rewrite run_print.
Qed.

Lemma save_tiff_fallback_run env data path w :
  save_tiff_fallback env data path w =
  let fmt := SaveTIFF "tiff_lzw" in
  let tiff_path := tiff_path_of path in
  match Image_open env data with
  | Raise e => (add_events w [EvImageOpen], Raise e)
  | Ok img =>
      match Image_encode env fmt img tiff_path with
      | Raise e =>
          (add_events w [EvImageOpen; EvImageSave fmt tiff_path], Raise e)
      | Ok d =>
          (add_events (saved (add_events w [EvImageOpen]) fmt tiff_path d)
             [EvPrint ("Saved image as TIFF instead: " +:+ tiff_path)], Ok tt)
      end
  end.
Proof.
  unfold save_tiff_fallback. cbv zeta.
  rewrite run_bind, run_open_image.
  destruct (Image_open env data) as [img|e]; [|done].
  rewrite run_bind, run_save_image.
  destruct (Image_encode env _ img _); [|by rewrite add_events_app].
  by rewrite run_print.
Qed.

Lemma save_largest_run env data path image_format w :
  save_largest env data path image_format w =
  match save_requested env data path image_format w with
  | (w1, Ok _) => (w1, Ok tt)
  | (w1, Raise e) =>
      match save_tiff_fallback env data path
              (add_events w1 [save_warning image_format e]) with
      | (w2, Ok _) => (w2, Ok tt)
      | (w2, Raise e2) => (add_events w2 [save_error e2], Ok tt)
      end
  end.
Proof.
  unfold save_largest. rewrite run_try_except.
  destruct (save_requested env data path image_format w) as [w1 [[]|e]];
    [done|].
  rewrite run_bind, run_print, run_try_except.
  unfold save_warning.
  destruct (save_tiff_fallback env data path _) as [w2 [[]|e2]]; [done|].
  by rewrite run_print.
Qed.

Lemma save_largest_total env data path image_format w :
  exists w', save_largest env data path image_format w = (w', Ok tt).
Proof.
  rewrite save_largest_run.
  destruct (save_requested env data path image_format w) as [w1 [[]|e]];
    [eauto|].
  destruct (save_tiff_fallback env data path _) as [w2 [[]|e2]]; eauto.
Qed.

Lemma extract_largest_image_run env page path image_format w images :
  page_get_images page = Ok images ->
  extract_largest_image env page path image_format w =
  let w0 := add_events w (scan_warnings page images) in
  match selected page images with
  | Some (b :: d) => save_largest env (b :: d) path image_format w0
  | _ => (w0, Ok tt)
  end.
Proof.
  intros Hi. unfold extract_largest_image.
  rewrite run_bind, (scan_images_run _ _ _ Hi). fold (selected page images).
  by destruct (selected page images) as [[|b d]|].
Qed.

Lemma extract_largest_image_total env page path image_format w images :
  page_get_images page = Ok images ->
  exists w', extract_largest_image env page path image_format w = (w', Ok tt).
Proof.
  intros Hi. rewrite (extract_largest_image_run _ _ _ _ _ _ Hi). cbv zeta.
  destruct (selected page images) as [[|b d]|]; eauto.
  apply save_largest_total.
Qed.

(** ** What the selector returns *)

(** C3: the selector never fails and writes nothing; it skips every
    reference that does not resolve and prints one warning for it; what it
    returns is the first payload of greatest length among the references
    that resolve (the comparison is strict, so of payloads of equal length
    the one met first is kept), and nothing when no reference resolves.
    Line 125 reads the result by its truth value, for which nothing and the
    empty payload are the same: the payload returned is saved when it is
    not empty, and otherwise no image is saved. *)
Theorem selector_returns_first_largest env page images path image_format w :
  page_get_images page = Ok images ->
  let w0 := add_events w (scan_warnings page images) in
  exists r,
    scan_images page w = (w0, Ok r) /\
    (length (scan_warnings page images) + length (resolved page images)
     = length images)%nat /\
    match resolved page images with
    | [] => r = None
    | _ :: _ => first_largest (default [] r) (resolved page images)
    end /\
    (forall d, first_largest d (resolved page images) -> default [] r = d) /\
    extract_largest_image env page path image_format w
    = match default [] r with
      | [] => (w0, Ok tt)
      | b :: d => save_largest env (b :: d) path image_format w0
      end.
Proof.
  intros Hi w0. exists (selected page images).
  split; [by apply scan_images_run|].
  split; [apply scan_warnings_resolved_length|].
  pose proof (selected_first_largest page images) as Hsel.
  split; [exact Hsel|]. split.
  - intros d Hd. destruct (resolved page images) as [|x l] eqn:Hres.
    + destruct Hd as (pre & post & Heq & _). by destruct pre.
    + by apply (first_largest_unique _ _ (x :: l)).
  - rewrite (extract_largest_image_run _ _ _ _ _ _ Hi). cbv zeta.
    fold w0. by destruct (selected page images) as [[|b d]|].
Qed.

Example tie_page_resolved :
  resolved tie_page (sample_image <$> [5; 7; 8; 9; 10])
  = [[Byte.x0a; Byte.x0b]; [Byte.x01; Byte.x02; Byte.x03];
     [Byte.x04; Byte.x05; Byte.x06]; [Byte.x07]].
Proof. reflexivity. Qed.

Lemma selector_returns_first_largest_witness :
  exists r,
    scan_images tie_page empty_world
    = (add_events empty_world
         [EvPrint "Warning: Failed to extract image: bad xref"], Ok r) /\
    r = Some [Byte.x01; Byte.x02; Byte.x03].
Proof.
  destruct (selector_returns_first_largest plain_env tie_page
              (sample_image <$> [5; 7; 8; 9; 10]) "out/p_largest_image.png"
              "png" empty_world eq_refl) as (r & Hrun & _ & _ & Huniq & _).
  exists r. split; [exact Hrun|].
  specialize (Huniq [Byte.x01; Byte.x02; Byte.x03]).
  rewrite tie_page_resolved in Huniq.
  assert (Hd : default [] r = [Byte.x01; Byte.x02; Byte.x03]).
  { apply Huniq.
    exists [[Byte.x0a; Byte.x0b]], [[Byte.x04; Byte.x05; Byte.x06]; [Byte.x07]].
    split; [reflexivity|]. split.
    - intros y Hy. apply list_elem_of_singleton in Hy. subst y. simpl. lia.
    - intros y Hy. rewrite !elem_of_cons, elem_of_nil in Hy.
      destruct Hy as [->|[->|[]]]; simpl; lia. }
  destruct r as [d|]; simpl in Hd; [by rewrite Hd | discriminate Hd].
Defined.

(** ** One page *)

Lemma get_page_statistics_inv env page stats :
  get_page_statistics env page = Ok stats ->
  exists x paths images,
    page_xref_object page = Ok x /\
    page_get_drawings page = Ok paths /\
    page_get_images page = Ok images /\
    stats !! "Raster Count" = Some (VInt (Z.of_nat (length images))).
Proof.
  intros H. unfold get_page_statistics in H.
  apply rbind_Ok in H as (x & Hx & H).
  apply rbind_Ok in H as (paths & Hp & H).
  apply rbind_Ok in H as (images & Hi & H).
  injection H as <-. exists x, paths, images.
  repeat split; try done.
  rewrite lookup_insert_ne by done. by rewrite lookup_insert_eq.
Qed.

Lemma base_row_stats ctx page_num stats size k :
  k ∉ ["Original File"; "Output File"; "Page Number"; "Total Pages";
       "File Size (KB)"] ->
  base_row ctx page_num stats size !! k = stats !! k.
Proof.
  rewrite !elem_of_cons, elem_of_nil. intros Hk. unfold base_row.
  rewrite !lookup_insert_ne by (intros <-; tauto). done.
Qed.

Lemma run_getsize_wrote w path data :
  getsize path (wrote w path (Raw data))
  = (wrote w path (Raw data), Ok (Z.of_nat (length data))).
Proof. unfold getsize, wrote. simpl. by rewrite lookup_insert_eq. Qed.

Lemma process_page_run env ctx page_num page w pdf stats images :
  page_single_pdf page = Ok pdf ->
  get_page_statistics env page = Ok stats ->
  page_get_images page = Ok images ->
  let w1 := wrote w (output_path_of ctx page_num) (Raw pdf) in
  let row := base_row ctx page_num stats (Z.of_nat (length pdf)) in
  process_page env ctx page_num page w =
  match images with
  | [] => (w1, Ok (<["Largest Image File" := VStr "N/A"]> row))
  | _ :: _ =>
      (fst (extract_largest_image env page (img_path_of ctx page_num)
              (ctx_image_format ctx) w1),
       Ok (<["Largest Image File" := VStr (img_filename ctx page_num)]> row))
  end.
Proof.
  intros Hpdf Hstats Hi. cbv zeta.
  destruct (get_page_statistics_inv _ _ _ Hstats)
    as (x & paths & images' & _ & _ & Hi' & Hrc).
  rewrite Hi in Hi'. injection Hi' as <-.
  unfold process_page.
  rewrite run_bind, run_lift, Hpdf. cbv beta iota.
  rewrite run_bind. change (write_file ?p ?d w) with (wrote w p d, Ok tt).
  cbv beta iota.
  rewrite run_bind, run_lift, Hstats. cbv beta iota.
  rewrite run_bind. fold (output_path_of ctx page_num).
  rewrite run_getsize_wrote. cbv beta iota.
  fold (base_row ctx page_num stats (Z.of_nat (length pdf))).
  rewrite run_bind, run_lift. unfold raster_count_positive.
  rewrite base_row_stats, Hrc
    by (rewrite !elem_of_cons, elem_of_nil;
        intros [?|[?|[?|[?|[?|[]]]]]]; discriminate).
  cbv beta iota.
  fold (img_path_of ctx page_num).
  destruct images as [|img images]; [done|].
  change (0 <? Z.of_nat (length (img :: images))) with true. cbv iota.
  rewrite run_bind.
  destruct (extract_largest_image_total env page (img_path_of ctx page_num)
              (ctx_image_format ctx)
              (wrote w (output_path_of ctx page_num) (Raw pdf)) _ Hi)
    as (w2 & ->).
  reflexivity.
Qed.

(** ** Facts about paths *)

Lemma append_nil_l (b : string) : "" +:+ b = b.
Proof. reflexivity. Qed.

Lemma append_cons x (a b : string) : String x a +:+ b = String x (a +:+ b).
Proof. reflexivity. Qed.

Lemma app_assoc_s (a b c : string) : (a +:+ b) +:+ c = a +:+ (b +:+ c).
Proof.
  induction a as [|x a IH]; [done|]. by rewrite !append_cons, IH.
Qed.

Lemma rfind_app c (a b : string) :
  PyStr.rfind c (a +:+ b) =
  match PyStr.rfind c b with
  | Some i => Some (String.length a + i)%nat
  | None => PyStr.rfind c a
  end.
Proof.
  induction a as [|x a IH].
  - rewrite append_nil_l. by destruct (PyStr.rfind c b).
  - rewrite append_cons. simpl. rewrite IH. by destruct (PyStr.rfind c b).
Qed.

Lemma rfind_lt c (s : string) i :
  PyStr.rfind c s = Some i -> (i < String.length s)%nat.
Proof.
  revert i. induction s as [|x s IH]; intros i; simpl; [done|].
  destruct (PyStr.rfind c s) as [j|].
  - intros [= <-]. specialize (IH j eq_refl). lia.
  - destruct (Ascii.eqb x c); [|done]. intros [= <-]. lia.
Qed.

Lemma take_app_s (a b : string) n :
  PyStr.take (String.length a + n) (a +:+ b) = a +:+ PyStr.take n b.
Proof.
  induction a as [|x a IH]; [done|]. rewrite append_cons. simpl. by rewrite IH.
Qed.

Lemma drop_app_s (a b : string) n :
  PyStr.drop (String.length a + n) (a +:+ b) = PyStr.drop n b.
Proof.
  induction a as [|x a IH]; [done|]. rewrite append_cons. simpl. by rewrite IH.
Qed.

(** The loop stops at the first character that is not a dot. *)
Lemma skip_dots_found fuel : forall p fi di j x rest,
  (fi <= j)%nat -> (j - fi < fuel)%nat ->
  PyStr.drop j p = String x rest -> x <> OsPath.extsep ->
  OsPath.skip_dots fuel p fi di = (PyStr.take di p, PyStr.drop di p).
Proof.
  induction fuel as [|fuel IH]; intros p fi di j x rest Hle Hlt Hj Hx; [lia|].
  simpl. destruct (PyStr.drop fi p) as [|y tl] eqn:Hfi; [done|].
  destruct (Ascii.eqb_spec y OsPath.extsep) as [->|Hy]; [|done].
  assert (fi <> j) by (intros ->; congruence).
  apply (IH p (S fi) di j x rest); [lia | lia | done | done].
Qed.

Lemma splitext_largest_image pre ext :
  ext ∈ image_extensions ->
  OsPath.splitext (pre +:+ "_largest_image" +:+ ext)
  = (pre +:+ "_largest_image", ext).
Proof.
  intros Hext. unfold OsPath.splitext.
  assert (Hdot : PyStr.rfind OsPath.extsep (pre +:+ "_largest_image" +:+ ext)
                 = Some (String.length pre + 14)%nat).
  { rewrite rfind_app. unfold image_extensions in Hext.
    rewrite !elem_of_cons, elem_of_nil in Hext.
    destruct Hext as [->|[->|[->|[]]]]; reflexivity. }
  assert (Hsep : PyStr.rfind OsPath.sep (pre +:+ "_largest_image" +:+ ext)
                 = PyStr.rfind OsPath.sep pre).
  { rewrite rfind_app. unfold image_extensions in Hext.
    rewrite !elem_of_cons, elem_of_nil in Hext.
    destruct Hext as [->|[->|[->|[]]]]; reflexivity. }
  rewrite Hdot, Hsep. cbv zeta.
  assert (Hlt : PyStr.index_Z (PyStr.rfind OsPath.sep pre)
                < Z.of_nat (String.length pre)).
  { destruct (PyStr.rfind OsPath.sep pre) as [i|] eqn:E; simpl; [|lia].
    apply rfind_lt in E. lia. }
  assert (Hge : -1 <= PyStr.index_Z (PyStr.rfind OsPath.sep pre)).
  { destruct (PyStr.rfind OsPath.sep pre); simpl; lia. }
  cbn [PyStr.index_Z].
  destruct (Z.ltb_spec (PyStr.index_Z (PyStr.rfind OsPath.sep pre))
              (Z.of_nat (String.length pre + 14))) as [_|?]; [|lia].
  rewrite Nat2Z.id.
  erewrite (skip_dots_found _ _ _ _ (String.length pre) "_"%char).
  - pose proof (take_app_s pre ("_largest_image" +:+ ext) 14) as Ht.
    pose proof (drop_app_s pre ("_largest_image" +:+ ext) 14) as Hd.
    rewrite Ht, Hd. reflexivity.
  - lia.
  - lia.
  - pose proof (drop_app_s pre ("_largest_image" +:+ ext) 0) as Hd.
    rewrite Nat.add_0_r in Hd. rewrite Hd. reflexivity.
  - discriminate.
Qed.

Lemma join_tagged d tag c rest :
  c <> OsPath.sep ->
  OsPath.join d (tag +:+ String c rest)
  = dir_prefix d tag +:+ tag +:+ String c rest.
Proof.
  intros Hc. destruct tag as [|x tag].
  - rewrite append_nil_l. unfold OsPath.join, dir_prefix.
    rewrite (proj2 (Ascii.eqb_neq c OsPath.sep) Hc).
    destruct (String.eqb d "" || PyStr.endswith_char OsPath.sep d)%bool;
      [done|]. by rewrite app_assoc_s.
  - rewrite append_cons. unfold OsPath.join, dir_prefix.
    destruct (Ascii.eqb x OsPath.sep); [done|].
    destruct (String.eqb d "" || PyStr.endswith_char OsPath.sep d)%bool;
      [done|]. by rewrite app_assoc_s.
Qed.

Lemma output_path_eq ctx page_num :
  output_path_of ctx page_num
  = (dir_prefix (ctx_output_dir ctx) (page_tag ctx page_num)
     +:+ page_tag ctx page_num) +:+ ".pdf".
Proof.
  unfold output_path_of, output_filename.
  rewrite (join_tagged _ _ "."%char "pdf") by discriminate.
  by rewrite app_assoc_s.
Qed.

Lemma img_path_eq ctx page_num :
  ctx_ext ctx ∈ image_extensions ->
  img_path_of ctx page_num
  = (dir_prefix (ctx_output_dir ctx) (page_tag ctx page_num)
     +:+ page_tag ctx page_num) +:+ "_largest_image" +:+ ctx_ext ctx.
Proof.
  intros _. unfold img_path_of, img_filename.
  change ("_largest_image" +:+ ctx_ext ctx)
    with (String "_" ("largest_image" +:+ ctx_ext ctx)).
  rewrite join_tagged by discriminate. by rewrite app_assoc_s.
Qed.

Lemma tiff_path_eq ctx page_num :
  ctx_ext ctx ∈ image_extensions ->
  tiff_path_of (img_path_of ctx page_num)
  = (dir_prefix (ctx_output_dir ctx) (page_tag ctx page_num)
     +:+ page_tag ctx page_num) +:+ "_largest_image" +:+ ".tiff".
Proof.
  intros Hext. unfold tiff_path_of.
  rewrite img_path_eq, splitext_largest_image by done. simpl.
  by rewrite app_assoc_s.
Qed.

(** The fallback file is the image file with its extension replaced. *)
Lemma tiff_path_join ctx page_num :
  ctx_ext ctx ∈ image_extensions ->
  tiff_path_of (img_path_of ctx page_num)
  = OsPath.join (ctx_output_dir ctx) (tiff_filename ctx page_num).
Proof.
  intros Hext. rewrite tiff_path_eq by done. unfold tiff_filename.
  change ("_largest_image" +:+ ".tiff") with (String "_" "largest_image.tiff").
  rewrite join_tagged by discriminate. by rewrite app_assoc_s.
Qed.

Lemma img_path_not_output ctx page_num :
  ctx_ext ctx ∈ image_extensions ->
  img_path_of ctx page_num <> output_path_of ctx page_num.
Proof.
  intros Hext. rewrite img_path_eq, output_path_eq by done.
  intros H%String.app_inj. discriminate H.
Qed.

Lemma tiff_path_not_output ctx page_num :
  ctx_ext ctx ∈ image_extensions ->
  tiff_path_of (img_path_of ctx page_num) <> output_path_of ctx page_num.
Proof.
  intros Hext. rewrite tiff_path_eq, output_path_eq by done.
  intros H%String.app_inj. discriminate H.
Qed.

Lemma format_extension_known image_format :
  format_extension image_format ∈ image_extensions.
Proof.
  unfold format_extension, image_extensions.
  repeat match goal with |- context [if ?b then _ else _] => destruct b end;
    rewrite !elem_of_cons; tauto.
Qed.

Lemma tiff_path_differs ctx page_num :
  ctx_ext ctx ∈ [".png"; ".jpg"] ->
  tiff_path_of (img_path_of ctx page_num) <> img_path_of ctx page_num /\
  tiff_filename ctx page_num <> img_filename ctx page_num.
Proof.
  intros Hext.
  assert (Hk : ctx_ext ctx ∈ image_extensions).
  { unfold image_extensions. rewrite !elem_of_cons in *. tauto. }
  rewrite tiff_path_eq, img_path_eq by done.
  unfold tiff_filename, img_filename.
  rewrite !elem_of_cons, elem_of_nil in Hext.
  split; intros H%String.app_inj; destruct Hext as [E|[E|[]]];
    rewrite E in H; discriminate H.
Qed.

(** ** The row of a page *)

(** C9: for a page whose raster count is 0 the image field is the
    sentinel "N/A" and the only thing the page writes is its single-page
    PDF: no image is decoded, encoded or written. *)
Theorem no_raster_sentinel env ctx page_num page w pdf stats :
  page_single_pdf page = Ok pdf ->
  get_page_statistics env page = Ok stats ->
  stats !! "Raster Count" = Some (VInt 0) ->
  exists w' row,
    process_page env ctx page_num page w = (w', Ok row) /\
    row !! "Largest Image File" = Some (VStr "N/A") /\
    files w' = <[output_path_of ctx page_num := Raw pdf]> (files w) /\
    events w' = events w ++ [EvFileWrite (output_path_of ctx page_num)].
Proof.
  intros Hpdf Hstats Hrc.
  destruct (get_page_statistics_inv _ _ _ Hstats)
    as (x & paths & images & _ & _ & Hi & Hrc').
  rewrite Hrc in Hrc'. injection Hrc' as Hlen.
  destruct images as [|img images]; [|simpl in Hlen; lia].
  rewrite (process_page_run _ _ _ _ _ _ _ _ Hpdf Hstats Hi).
  eexists _, _. split; [reflexivity|].
  split; [by rewrite lookup_insert_eq|]. done.
Qed.

Lemma no_raster_sentinel_witness :
  exists w' row,
    process_page plain_env (sample_ctx "png") 1 vector_page empty_world
    = (w', Ok row) /\
    row !! "Largest Image File" = Some (VStr "N/A") /\
    events w' = [EvFileWrite "out/report_1_of_1.pdf"].
Proof.
  destruct (no_raster_sentinel plain_env (sample_ctx "png") 1%nat vector_page
              empty_world (replicate 2048 Byte.x00)
              (<["Vector Colors" :=
                   VStr "(1.0, 0.0, 0.0), (0.0, 0.0, 0.0), (0.5,)"]>
                 (<["Raster Count" := VInt 0]>
                    (visit_paths plain_env sample_paths))))
    as (w' & row & Hrun & Hrow & _ & Hev).
  - reflexivity.
  - reflexivity.
  - reflexivity.
  - exists w', row. split; [exact Hrun|]. split; [exact Hrow|]. exact Hev.
Defined.


(** What [save_largest] does, by the outcome of the two attempts. *)
Lemma save_largest_outcome env data path image_format w :
  exists w' evs,
    save_largest env data path image_format w = (w', Ok tt) /\
    events w' = events w ++ evs /\
    save_outcome env data path image_format (files w) (files w') evs.
Proof.
  unfold save_outcome.
  rewrite save_largest_run, save_requested_run.
  unfold requested_bytes, fallback_bytes.
  destruct (Image_open env data) as [img|e] eqn:Hopen; simpl.
  2: { rewrite save_tiff_fallback_run, Hopen. cbv zeta.
       eexists _, _. split; [reflexivity|]. simpl.
       rewrite <- !app_assoc. split; [reflexivity|].
       split; [set_solver|]. done. }
  destruct (prepared env image_format img) as [img'|e] eqn:Hprep; simpl.
  2: { rewrite save_tiff_fallback_run, Hopen. cbv zeta.
       destruct (Image_encode env _ img (tiff_path_of path)) as [t|e2];
         eexists _, _; (split; [reflexivity|]); simpl;
         rewrite <- !app_assoc; (split; [reflexivity|]);
         (split; [set_solver|]); done. }
  destruct (Image_encode env _ img' path) as [d|e] eqn:Henc; simpl.
  - eexists _, _. split; [reflexivity|]. simpl.
    rewrite <- !app_assoc. split; [reflexivity|]. done.
  - rewrite save_tiff_fallback_run, Hopen. cbv zeta.
    destruct (Image_encode env _ img (tiff_path_of path)) as [t|e2];
      eexists _, _; (split; [reflexivity|]); simpl;
      rewrite <- !app_assoc; (split; [reflexivity|]);
      (split; [set_solver|]); done.
Qed.

Lemma save_outcome_files env data path image_format fs fs' evs p :
  save_outcome env data path image_format fs fs' evs ->
  p <> path -> p <> tiff_path_of path -> fs' !! p = fs !! p.
Proof.
  unfold save_outcome. intros H Hp Ht.
  destruct (requested_bytes env data path image_format).
  - destruct H as (-> & _). by rewrite lookup_insert_ne.
  - destruct H as (_ & _ & H). destruct (fallback_bytes env data path).
    + destruct H as (-> & _). by rewrite lookup_insert_ne.
    + by destruct H as (-> & _).
Qed.

Lemma extract_largest_image_outcome env page path image_format w images :
  page_get_images page = Ok images ->
  exists w' evs,
    extract_largest_image env page path image_format w = (w', Ok tt) /\
    events w' = events w ++ scan_warnings page images ++ evs /\
    extraction_outcome env page images path image_format
      (files w) (files w') evs.
Proof.
  intros Hi. rewrite (extract_largest_image_run _ _ _ _ _ _ Hi). cbv zeta.
  unfold extraction_outcome.
  destruct (selected page images) as [[|b d]|].
  - eexists _, []. simpl. by rewrite app_nil_r.
  - destruct (save_largest_outcome env (b :: d) path image_format
                (add_events w (scan_warnings page images)))
      as (w' & evs & -> & Hev & Hout).
    exists w', evs. split; [done|]. simpl in Hev.
    rewrite <- app_assoc in Hev. done.
  - eexists _, []. simpl. by rewrite app_nil_r.
Qed.

Lemma extraction_outcome_files env page images path image_format fs fs' evs p :
  extraction_outcome env page images path image_format fs fs' evs ->
  p <> path -> p <> tiff_path_of path -> fs' !! p = fs !! p.
Proof.
  unfold extraction_outcome. intros H Hp Ht.
  destruct (selected page images) as [[|b d]|];
    [by destruct H as (-> & _) | | by destruct H as (-> & _)].
  by eapply save_outcome_files.
Qed.

(** The row and the world of a page that has images. *)
Lemma process_page_with_images env ctx page_num page w pdf stats images :
  page_single_pdf page = Ok pdf ->
  get_page_statistics env page = Ok stats ->
  page_get_images page = Ok images ->
  images <> [] ->
  exists w' evs,
    process_page env ctx page_num page w
    = (w', Ok (<["Largest Image File" := VStr (img_filename ctx page_num)]>
                 (base_row ctx page_num stats (Z.of_nat (length pdf))))) /\
    events w' = events w ++ EvFileWrite (output_path_of ctx page_num)
                  :: scan_warnings page images ++ evs /\
    extraction_outcome env page images (img_path_of ctx page_num)
      (ctx_image_format ctx)
      (<[output_path_of ctx page_num := Raw pdf]> (files w)) (files w') evs.
Proof.
  intros Hpdf Hstats Hi Hne.
  rewrite (process_page_run _ _ _ _ _ _ _ _ Hpdf Hstats Hi). cbv zeta.
  destruct images as [|img images]; [done|].
  destruct (extract_largest_image_outcome env page (img_path_of ctx page_num)
              (ctx_image_format ctx)
              (wrote w (output_path_of ctx page_num) (Raw pdf)) _ Hi)
    as (w' & evs & -> & Hev & Hout).
  exists w', evs. split; [done|]. split; [|done].
  rewrite Hev. simpl. by rewrite <- app_assoc.
Qed.

(** C6, amended: the size field holds the size of the written single-page
    PDF divided by 1024; that PDF is still in place, unchanged, when the
    page is done. *)
Theorem size_field_in_kilobytes env pdf_path output_dir image_format doc
    page_num page w pdf stats :
  let ctx := doc_context pdf_path output_dir image_format doc in
  page_single_pdf page = Ok pdf ->
  get_page_statistics env page = Ok stats ->
  exists w' row q,
    process_page env ctx page_num page w = (w', Ok row) /\
    row !! "File Size (KB)" = Some (VFloat q) /\
    q * 1024 == inject_Z (Z.of_nat (length pdf)) /\
    files w' !! output_path_of ctx page_num = Some (Raw pdf).
Proof.
  intros ctx Hpdf Hstats.
  destruct (get_page_statistics_inv _ _ _ Hstats)
    as (x & paths & images & _ & _ & Hi & _).
  assert (Hq : div_1024 (Z.of_nat (length pdf)) * 1024
               == inject_Z (Z.of_nat (length pdf))).
  { unfold div_1024, Qeq. simpl. lia. }
  assert (Hext : ctx_ext ctx ∈ image_extensions)
    by apply format_extension_known.
  destruct images as [|img images].
  - rewrite (process_page_run _ _ _ _ _ _ _ _ Hpdf Hstats Hi).
    eexists _, _, _. split; [reflexivity|].
    split; [by rewrite lookup_insert_ne by done; apply lookup_insert_eq|].
    split; [exact Hq|]. simpl. apply lookup_insert_eq.
  - destruct (process_page_with_images env ctx page_num page w pdf stats
                (img :: images) Hpdf Hstats Hi) as (w' & evs & -> & _ & Hout);
      [done|].
    eexists _, _, _. split; [reflexivity|].
    split; [by rewrite lookup_insert_ne by done; apply lookup_insert_eq|].
    split; [exact Hq|].
    rewrite (extraction_outcome_files _ _ _ _ _ _ _ _ _ Hout).
    + apply lookup_insert_eq.
    + intros E. by apply (img_path_not_output ctx page_num).
    + intros E. by apply (tiff_path_not_output ctx page_num).
Qed.

Lemma size_field_in_kilobytes_witness :
  exists w' row q,
    process_page plain_env (sample_ctx "png") 1 vector_page empty_world
    = (w', Ok row) /\
    row !! "File Size (KB)" = Some (VFloat q) /\
    q * 1024 == 2048 /\
    files w' !! "out/report_1_of_1.pdf" = Some (Raw (replicate 2048 Byte.x00)).
Proof.
  apply (size_field_in_kilobytes plain_env "in/report.pdf" "out" "png"
           {| doc_pages := [vector_page] |} 1%nat vector_page empty_world
           (replicate 2048 Byte.x00)
           (<["Vector Colors" :=
                VStr "(1.0, 0.0, 0.0), (0.0, 0.0, 0.0), (0.5,)"]>
              (<["Raster Count" := VInt 0]>
                 (visit_paths plain_env sample_paths)))).
  - reflexivity.
  - reflexivity.
Defined.

(** C6 as stated fails: the single-page PDF of the sample page has 2048
    bytes and the field holds 2. *)
Lemma size_field_counterexample : ~ size_field_in_bytes.
Proof.
  intros H.
  specialize (H plain_env (sample_ctx "png") 1%nat vector_page empty_world
                _ _ _ eq_refl eq_refl).
  vm_compute in H. discriminate H.
Qed.

Lemma selected_nonempty page images d :
  selected page images = Some d -> d <> [].
Proof.
  unfold selected.
  destruct (keep_larger_fold (resolved page images) None 0)
    as [[-> _]|(d' & -> & Hd & _)]; simpl; [done|].
  intros [= ->] ->. simpl in Hd. lia.
Qed.

Lemma extraction_outcome_selected env page images path image_format
    fs fs' evs data :
  selected page images = Some data ->
  extraction_outcome env page images path image_format fs fs' evs ->
  save_outcome env data path image_format fs fs' evs.
Proof.
  intros Hsel. unfold extraction_outcome. rewrite Hsel.
  destruct data; [|done]. by apply selected_nonempty in Hsel.
Qed.

(** ** The writes that complete *)

Lemma save_largest_completed env data path image_format w :
  exists evs,
    events (fst (save_largest env data path image_format w))
    = events w ++ evs /\
    (length (save_attempts evs) <= 2)%nat /\
    completed_writes evs = image_writes env data path image_format.
Proof.
  unfold image_writes.
  rewrite save_largest_run, save_requested_run.
  unfold requested_bytes, fallback_bytes.
  destruct (Image_open env data) as [img|e] eqn:Hopen; simpl.
  2: { rewrite save_tiff_fallback_run, Hopen. cbv zeta.
       eexists. simpl. rewrite <- !app_assoc. split; [reflexivity|].
       simpl. split; [lia|done]. }
  destruct (prepared env image_format img) as [img'|e] eqn:Hprep; simpl.
  2: { rewrite save_tiff_fallback_run, Hopen. cbv zeta.
       destruct (Image_encode env _ img (tiff_path_of path)) as [t|e2];
         eexists; simpl; rewrite <- !app_assoc; (split; [reflexivity|]);
         simpl; (split; [lia|done]). }
  destruct (Image_encode env _ img' path) as [d|e] eqn:Henc; simpl.
  - eexists. simpl. rewrite <- !app_assoc. split; [reflexivity|].
    simpl. split; [lia|done].
  - rewrite save_tiff_fallback_run, Hopen. cbv zeta.
    destruct (Image_encode env _ img (tiff_path_of path)) as [t|e2];
      eexists; simpl; rewrite <- !app_assoc; (split; [reflexivity|]);
      simpl; (split; [lia|done]).
Qed.

Lemma extract_largest_image_completed env page path image_format w images :
  page_get_images page = Ok images ->
  exists evs,
    events (fst (extract_largest_image env page path image_format w))
    = events w ++ scan_warnings page images ++ evs /\
    (length (save_attempts evs) <= 2)%nat /\
    completed_writes evs
    = match selected page images with
      | Some (b :: d) => image_writes env (b :: d) path image_format
      | _ => []
      end.
Proof.
  intros Hi. rewrite (extract_largest_image_run _ _ _ _ _ _ Hi). cbv zeta.
  destruct (selected page images) as [[|b d]|].
  - exists []. simpl. rewrite app_nil_r. split; [done|]. split; [lia|done].
  - destruct (save_largest_completed env (b :: d) path image_format
                (add_events w (scan_warnings page images)))
      as (evs & Hev & Hlen & Hcw).
    exists evs. rewrite Hev. simpl. by rewrite <- app_assoc.
  - exists []. simpl. rewrite app_nil_r. split; [done|]. split; [lia|done].
Qed.

(** The image events of a page that has images: at most two save
    attempts, and the writes that complete. *)
Lemma process_page_completed env ctx page_num page w pdf stats images :
  page_single_pdf page = Ok pdf ->
  get_page_statistics env page = Ok stats ->
  page_get_images page = Ok images ->
  images <> [] ->
  exists evs,
    events (fst (process_page env ctx page_num page w))
    = events w ++ EvFileWrite (output_path_of ctx page_num)
        :: scan_warnings page images ++ evs /\
    (length (save_attempts evs) <= 2)%nat /\
    completed_writes evs
    = match selected page images with
      | Some (b :: d) =>
          image_writes env (b :: d) (img_path_of ctx page_num)
            (ctx_image_format ctx)
      | _ => []
      end.
Proof.
  intros Hpdf Hstats Hi Hne.
  rewrite (process_page_run _ _ _ _ _ _ _ _ Hpdf Hstats Hi). cbv zeta.
  destruct images as [|img images]; [done|].
  destruct (extract_largest_image_completed env page (img_path_of ctx page_num)
              (ctx_image_format ctx)
              (wrote w (output_path_of ctx page_num) (Raw pdf)) _ Hi)
    as (evs & Hev & Hlen & Hcw).
  exists evs. split; [|done]. cbn [fst]. rewrite Hev. simpl.
  by rewrite <- app_assoc.
Qed.

(** The row, the trace and the files of a page that has images. *)
Lemma process_page_image_trace env ctx page_num page w pdf stats images :
  page_single_pdf page = Ok pdf ->
  get_page_statistics env page = Ok stats ->
  page_get_images page = Ok images ->
  images <> [] ->
  exists w' evs,
    process_page env ctx page_num page w
    = (w', Ok (<["Largest Image File" := VStr (img_filename ctx page_num)]>
                 (base_row ctx page_num stats (Z.of_nat (length pdf))))) /\
    events w' = events w ++ EvFileWrite (output_path_of ctx page_num)
                  :: scan_warnings page images ++ evs /\
    extraction_outcome env page images (img_path_of ctx page_num)
      (ctx_image_format ctx)
      (<[output_path_of ctx page_num := Raw pdf]> (files w)) (files w') evs /\
    (length (save_attempts evs) <= 2)%nat /\
    completed_writes evs
    = match selected page images with
      | Some (b :: d) =>
          image_writes env (b :: d) (img_path_of ctx page_num)
            (ctx_image_format ctx)
      | _ => []
      end.
Proof.
  intros Hpdf Hstats Hi Hne.
  destruct (process_page_with_images env ctx page_num page w pdf stats images
              Hpdf Hstats Hi Hne) as (w' & evs & Hrun & Hev & Hout).
  destruct (process_page_completed env ctx page_num page w pdf stats images
              Hpdf Hstats Hi Hne) as (evs2 & Hev2 & Hlen & Hcw).
  rewrite Hrun in Hev2. cbn [fst] in Hev2. rewrite Hev in Hev2.
  apply app_inv_head in Hev2. injection Hev2 as Hev2.
  apply app_inv_head in Hev2. subst evs2.
  exists w', evs. done.
Qed.

Lemma image_writes_selected env page images path image_format data :
  selected page images = Some data ->
  match selected page images with
  | Some (b :: d) => image_writes env (b :: d) path image_format
  | _ => []
  end = image_writes env data path image_format.
Proof.
  intros Hsel. rewrite Hsel. destruct data; [|done].
  by apply selected_nonempty in Hsel.
Qed.

(** ** The failure policy *)

(** C1 fails on the code for LA sources: the JPEG branch raises at
    [img.split()[3]], no JPEG is encoded, and the only save attempt is the
    TIFF fallback on the image as decoded. *)
Theorem jpeg_LA_source_falls_back env data img path image_format w :
  Image_open env data = Ok img ->
  im_mode img = "LA" ->
  length (im_bands img) = 2%nat ->
  PyStr.lower image_format = "jpeg" ->
  requested_bytes env data path image_format
    = Raise (Exception "tuple index out of range") /\
  exists w' evs,
    save_largest env data path image_format w = (w', Ok tt) /\
    events w' = events w ++ evs /\
    save_attempts evs = [(SaveTIFF "tiff_lzw", tiff_path_of path)] /\
    match Image_encode env (SaveTIFF "tiff_lzw") img (tiff_path_of path) with
    | Ok t => files w' = <[tiff_path_of path := Raw t]> (files w)
    | Raise _ => files w' = files w
    end.
Proof.
  intros Hopen Hm Hb Hfmt.
  assert (Hprep : prepared env image_format img
                  = Raise (Exception "tuple index out of range")).
  { unfold prepared. rewrite Hfmt. simpl. by apply jpeg_rgb_LA. }
  split.
  { unfold requested_bytes. rewrite Hopen. simpl. by rewrite Hprep. }
  rewrite save_largest_run, save_requested_run, Hopen, Hprep.
  rewrite save_tiff_fallback_run, Hopen. cbv zeta.
  destruct (Image_encode env _ img (tiff_path_of path)) as [t|e2];
    eexists _, _; (split; [reflexivity|]); simpl;
    rewrite <- !app_assoc; (split; [reflexivity|]); done.
Qed.

Lemma jpeg_LA_source_falls_back_witness :
  requested_bytes la_env [Byte.x01] "out/p_largest_image.jpg" "jpeg"
    = Raise (Exception "tuple index out of range") /\
  exists w' evs,
    save_largest la_env [Byte.x01] "out/p_largest_image.jpg" "jpeg"
      empty_world = (w', Ok tt) /\
    events w' = evs /\
    save_attempts evs = [(SaveTIFF "tiff_lzw", "out/p_largest_image.tiff")] /\
    files w' = {["out/p_largest_image.tiff" := Raw [Byte.x03]]}.
Proof.
  apply (jpeg_LA_source_falls_back la_env [Byte.x01] la_image
           "out/p_largest_image.jpg" "jpeg" empty_world);
    reflexivity.
Defined.

(** For an RGBA source the JPEG branch does what C1 says. *)
Example jpeg_rgba_sample :
  jpeg_rgb plain_env rgba_image
  = Ok {| im_mode := "RGB"; im_size := (2, 1)%nat;
          im_bands := [[255; 20]; [255; 40]; [255; 60]] |}.
Proof. reflexivity. Qed.

(** For an RGBA source the JPEG encoder, at quality 90, is handed the
    source composited on white. *)
Lemma jpeg_RGBA_source_composited env data img path image_format r g b a :
  Image_open env data = Ok img ->
  im_mode img = "RGBA" ->
  im_bands img = [r; g; b; a] ->
  PyStr.lower image_format = "jpeg" ->
  requested_bytes env data path image_format =
  Image_encode env (SaveJPEG 90)
    {| im_mode := "RGB"; im_size := im_size img;
       im_bands := [on_white (pixel_count img) a r;
                    on_white (pixel_count img) a g;
                    on_white (pixel_count img) a b] |} path.
Proof.
  intros Hopen Hm Hb Hfmt. unfold requested_bytes, prepared, requested_format.
  rewrite Hopen, Hfmt. simpl. by rewrite (jpeg_rgb_RGBA _ _ _ _ _ _ Hm Hb).
Qed.

(** C2, amended: a page with images always yields its row, whatever
    happens to the image: the row keeps the statistics, its image field
    holds the file name computed for the requested format, and the
    single-page PDF stays in place.  When the requested format fails, the
    payload is decoded once more and saved as TIFF, once: two decodings, at
    most two save attempts, the last of them the TIFF one, whose bytes are
    the file of the fallback; when that fails too the last thing the page
    does is to print the error, and no save has completed. *)
Theorem fallback_once_row_emitted env pdf_path output_dir image_format doc
    page_num page w pdf stats images :
  let ctx := doc_context pdf_path output_dir image_format doc in
  page_single_pdf page = Ok pdf ->
  get_page_statistics env page = Ok stats ->
  page_get_images page = Ok images ->
  images <> [] ->
  exists w' row evs,
    process_page env ctx page_num page w = (w', Ok row) /\
    events w' = events w ++ EvFileWrite (output_path_of ctx page_num)
                  :: scan_warnings page images ++ evs /\
    row !! "Largest Image File" = Some (VStr (img_filename ctx page_num)) /\
    (forall k, k ∈ stat_keys -> row !! k = stats !! k) /\
    files w' !! output_path_of ctx page_num = Some (Raw pdf) /\
    (length (save_attempts evs) <= 2)%nat /\
    forall data e,
      selected page images = Some data ->
      requested_bytes env data (img_path_of ctx page_num) image_format
        = Raise e ->
      save_warning image_format e ∈ evs /\
      count_events is_image_open evs = 2%nat /\
      match fallback_bytes env data (img_path_of ctx page_num) with
      | Ok t =>
          last (save_attempts evs)
            = Some (SaveTIFF "tiff_lzw",
                    tiff_path_of (img_path_of ctx page_num)) /\
          completed_writes evs = [tiff_path_of (img_path_of ctx page_num)] /\
          files w' !! tiff_path_of (img_path_of ctx page_num) = Some (Raw t)
      | Raise e2 =>
          last evs = Some (save_error e2) /\
          completed_writes evs = []
      end.
Proof.
  intros ctx Hpdf Hstats Hi Hne.
  assert (Hext : ctx_ext ctx ∈ image_extensions)
    by apply format_extension_known.
  destruct (process_page_image_trace env ctx page_num page w pdf stats images
              Hpdf Hstats Hi Hne) as (w' & evs & -> & Hev & Hout & Hlen & Hcw).
  eexists _, _, evs. split; [reflexivity|]. split; [exact Hev|].
  split; [apply lookup_insert_eq|]. split.
  { intros k Hk. unfold stat_keys in Hk.
    rewrite !elem_of_cons, elem_of_nil in Hk.
    rewrite lookup_insert_ne by (intros <-; intuition discriminate).
    apply base_row_stats. rewrite !elem_of_cons, elem_of_nil.
    intros Hk'. intuition (subst; discriminate). }
  split.
  { rewrite (extraction_outcome_files _ _ _ _ _ _ _ _ _ Hout).
    - apply lookup_insert_eq.
    - intros E. by apply (img_path_not_output ctx page_num).
    - intros E. by apply (tiff_path_not_output ctx page_num). }
  split; [exact Hlen|].
  intros data e Hsel Hreq.
  apply (extraction_outcome_selected _ _ _ _ _ _ _ _ _ Hsel) in Hout.
  rewrite (image_writes_selected _ _ _ _ _ _ Hsel) in Hcw.
  unfold save_outcome in Hout. unfold image_writes in Hcw.
  change (ctx_image_format ctx) with image_format in Hout, Hcw.
  rewrite Hreq in Hout, Hcw.
  destruct Hout as (Hwarn & Hopen & Hout).
  split; [exact Hwarn|]. split; [exact Hopen|].
  destruct (fallback_bytes env data (img_path_of ctx page_num)) as [t|e2].
  - destruct Hout as (Hfiles & Hlast).
    split; [exact Hlast|]. split; [exact Hcw|].
    rewrite Hfiles. apply lookup_insert_eq.
  - destruct Hout as (_ & Hlast). split; [exact Hlast|exact Hcw].
Qed.

Lemma fallback_once_row_emitted_witness :
  exists w' row evs,
    process_page plain_env (sample_ctx "jpeg") 1 image_page empty_world
    = (w', Ok row) /\
    events w' = EvFileWrite "out/report_1_of_1.pdf" :: evs /\
    row !! "Largest Image File"
      = Some (VStr "report_1_of_1_largest_image.jpg") /\
    files w' !! "out/report_1_of_1.pdf"
      = Some (Raw (replicate 2048 Byte.x00)) /\
    count_events is_image_open evs = 2%nat /\
    last evs = Some (save_error (Exception "cannot identify image file")) /\
    completed_writes evs = [].
Proof.
  destruct (fallback_once_row_emitted plain_env "in/report.pdf" "out" "jpeg"
              {| doc_pages := [vector_page] |} 1%nat
              image_page empty_world (replicate 2048 Byte.x00)
              (<["Vector Colors" := VStr "None"]>
                 (<["Raster Count" := VInt 1]> initial_stats))
              [sample_image 7] eq_refl eq_refl eq_refl)
    as (w' & row & evs & Hrun & Hev & Hrow & _ & Hpdf & _ & Hfail); [done|].
  destruct (Hfail [Byte.x01; Byte.x02]
              (Exception "cannot identify image file") eq_refl eq_refl)
    as (_ & Hopen & Hlast & Hnone).
  exists w', row, evs. repeat split; assumption.
Defined.

(** C2 as stated fails in its last part: with a decoder that rejects the
    payload both attempts fail, and the row still records the file name
    of the requested format. *)
Lemma failed_extraction_counterexample : ~ failed_extraction_marks_field.
Proof.
  intros H.
  apply (H plain_env (sample_ctx "jpeg") 1%nat image_page empty_world _ _
           [sample_image 7] [Byte.x01; Byte.x02]
           (Exception "cannot identify image file")
           (Exception "cannot identify image file")
           eq_refl eq_refl eq_refl eq_refl eq_refl).
  reflexivity.
Qed.

Lemma format_extension_lossy image_format :
  PyStr.lower image_format ∈ ["png"; "jpeg"] ->
  format_extension image_format ∈ [".png"; ".jpg"].
Proof.
  rewrite !elem_of_cons, elem_of_nil. unfold format_extension.
  intros [->|[->|[]]]; simpl; tauto.
Qed.

(** C10: for a page with images the image field is the file name built
    from the extension of the requested format, whatever the extraction
    does.  When the requested format fails and the TIFF fallback succeeds,
    the one save that completes is that of the fallback: its file is the
    recorded name with the extension replaced by ".tiff", which for a png
    or jpeg request is neither the recorded name nor the recorded path.
    When nothing is selected or both attempts fail no save completes, and
    the field holds the computed name all the same. *)
Theorem image_field_keeps_requested_name env pdf_path output_dir image_format
    doc page_num page w pdf stats images :
  let ctx := doc_context pdf_path output_dir image_format doc in
  page_single_pdf page = Ok pdf ->
  get_page_statistics env page = Ok stats ->
  page_get_images page = Ok images ->
  images <> [] ->
  exists w' row evs,
    process_page env ctx page_num page w = (w', Ok row) /\
    events w' = events w ++ EvFileWrite (output_path_of ctx page_num)
                  :: scan_warnings page images ++ evs /\
    row !! "Largest Image File"
      = Some (VStr (page_tag ctx page_num +:+ "_largest_image"
                    +:+ format_extension image_format)) /\
    (forall data e t,
       selected page images = Some data ->
       requested_bytes env data (img_path_of ctx page_num) image_format
         = Raise e ->
       fallback_bytes env data (img_path_of ctx page_num) = Ok t ->
       completed_writes evs
         = [OsPath.join output_dir (tiff_filename ctx page_num)] /\
       files w' !! OsPath.join output_dir (tiff_filename ctx page_num)
         = Some (Raw t) /\
       (PyStr.lower image_format ∈ ["png"; "jpeg"] ->
        tiff_filename ctx page_num <> img_filename ctx page_num /\
        OsPath.join output_dir (tiff_filename ctx page_num)
          <> img_path_of ctx page_num)) /\
    (selected page images = None \/
     (exists data e e2,
        selected page images = Some data /\
        requested_bytes env data (img_path_of ctx page_num) image_format
          = Raise e /\
        fallback_bytes env data (img_path_of ctx page_num) = Raise e2) ->
     completed_writes evs = []).
Proof.
  intros ctx Hpdf Hstats Hi Hne.
  assert (Hext : ctx_ext ctx ∈ image_extensions)
    by apply format_extension_known.
  destruct (process_page_image_trace env ctx page_num page w pdf stats images
              Hpdf Hstats Hi Hne) as (w' & evs & -> & Hev & Hout & _ & Hcw).
  eexists _, _, evs. split; [reflexivity|]. split; [exact Hev|].
  split; [apply lookup_insert_eq|]. split.
  - intros data e t Hsel Hreq Hfb.
    apply (extraction_outcome_selected _ _ _ _ _ _ _ _ _ Hsel) in Hout.
    rewrite (image_writes_selected _ _ _ _ _ _ Hsel) in Hcw.
    unfold save_outcome in Hout. unfold image_writes in Hcw.
    change (ctx_image_format ctx) with image_format in Hout, Hcw.
    rewrite Hreq, Hfb in Hout, Hcw. destruct Hout as (_ & _ & Hfiles & _).
    rewrite (tiff_path_join ctx page_num Hext) in Hfiles, Hcw.
    split; [exact Hcw|].
    split; [rewrite Hfiles; apply lookup_insert_eq|].
    intros Hlossy. apply format_extension_lossy in Hlossy.
    destruct (tiff_path_differs ctx page_num Hlossy) as (Hpath & Hname).
    split; [exact Hname|].
    change output_dir with (ctx_output_dir ctx).
    by rewrite <- (tiff_path_join ctx page_num Hext).
  - intros [Hsel|(data & e & e2 & Hsel & Hreq & Hfb)].
    + by rewrite Hsel in Hcw.
    + rewrite (image_writes_selected _ _ _ _ _ _ Hsel) in Hcw.
      unfold image_writes in Hcw.
      change (ctx_image_format ctx) with image_format in Hcw.
      by rewrite Hreq, Hfb in Hcw.
Qed.

Lemma image_field_keeps_requested_name_witness :
  exists w' row evs,
    process_page rgba_tiff_only_env (sample_ctx "jpeg") 1 image_page
      empty_world = (w', Ok row) /\
    events w' = EvFileWrite "out/report_1_of_1.pdf" :: evs /\
    row !! "Largest Image File"
      = Some (VStr "report_1_of_1_largest_image.jpg") /\
    completed_writes evs = ["out/report_1_of_1_largest_image.tiff"] /\
    files w' !! "out/report_1_of_1_largest_image.tiff"
      = Some (Raw [Byte.x03]).
Proof.
  destruct (image_field_keeps_requested_name rgba_tiff_only_env
              "in/report.pdf" "out" "jpeg" {| doc_pages := [vector_page] |}
              1%nat image_page empty_world (replicate 2048 Byte.x00)
              (<["Vector Colors" := VStr "None"]>
                 (<["Raster Count" := VInt 1]> initial_stats))
              [sample_image 7] eq_refl eq_refl eq_refl)
    as (w' & row & evs & Hrun & Hev & Hrow & Hfb & _); [done|].
  destruct (Hfb [Byte.x01; Byte.x02] (Exception "encoder error") [Byte.x03]
              eq_refl eq_refl eq_refl) as (Hcw & Hfiles & _).
  exists w', row, evs. repeat split; assumption.
Defined.

(** ** Traces only grow *)

Create HintDb emits.

Lemma emits_ret {A} P (a : A) : emits P (mret a).
Proof. intros w. exists []. simpl. by rewrite app_nil_r. Qed.

Lemma emits_lift {A} P (r : Result A) : emits P (lift r).
Proof. intros w. exists []. simpl. by rewrite app_nil_r. Qed.

Lemma emits_emit P ev : P ev -> emits P (emit ev).
Proof. intros H w. exists [ev]. simpl. auto. Qed.

Lemma emits_print P msg : P (EvPrint msg) -> emits P (print msg).
Proof. apply emits_emit. Qed.

Lemma emits_write_file P path d :
  P (EvFileWrite path) -> emits P (write_file path d).
Proof. intros H w. exists [EvFileWrite path]. simpl. auto. Qed.

Lemma emits_getsize P path : emits P (getsize path).
Proof.
  intros w. exists []. unfold getsize.
  destruct (files w !! path) as [[]|]; simpl; by rewrite app_nil_r.
Qed.

Lemma emits_bind {A B} P (m : M A) (k : A -> M B) :
  emits P m -> (forall a, emits P (k a)) -> emits P (m ≫= k).
Proof.
  intros Hm Hk w. rewrite run_bind.
  destruct (Hm w) as (evs1 & E1 & F1).
  destruct (m w) as [w1 [a|e]]; simpl in E1.
  - destruct (Hk a w1) as (evs2 & E2 & F2).
    exists (evs1 ++ evs2). rewrite E2, E1, app_assoc.
    split; [done|]. by apply Forall_app.
  - by exists evs1.
Qed.

Lemma emits_try_except {A} P (m : M A) (h : Exn -> M A) :
  emits P m -> (forall e, emits P (h e)) -> emits P (try_except m h).
Proof.
  intros Hm Hh w. rewrite run_try_except.
  destruct (Hm w) as (evs1 & E1 & F1).
  destruct (m w) as [w1 [a|e]]; simpl in E1.
  - by exists evs1.
  - destruct (Hh e w1) as (evs2 & E2 & F2).
    exists (evs1 ++ evs2). rewrite E2, E1, app_assoc.
    split; [done|]. by apply Forall_app.
Qed.

Lemma emits_fold_m {A S} P (body : S -> A -> M S) l :
  (forall s a, emits P (body s a)) -> forall s, emits P (fold_m body l s).
Proof.
  intros Hb. induction l as [|x l IH]; intros s; simpl.
  - apply emits_ret.
  - apply emits_bind; [apply Hb | apply IH].
Qed.

#[local] Hint Resolve emits_ret emits_lift emits_emit emits_print
  emits_write_file emits_getsize : emits.

Lemma page_event_print msg : page_event (EvPrint msg).
Proof. reflexivity. Qed.

Lemma page_event_write path : page_event (EvFileWrite path).
Proof. reflexivity. Qed.

Lemma page_event_image_open : page_event EvImageOpen.
Proof. reflexivity. Qed.

Lemma page_event_image_save fmt path : page_event (EvImageSave fmt path).
Proof. reflexivity. Qed.

#[local] Hint Resolve page_event_print page_event_write page_event_image_open
  page_event_image_save : emits.

Ltac emits_step :=
  first [ solve [auto with emits]
        | apply emits_bind | apply emits_try_except | apply emits_fold_m ];
  intros.

Lemma emits_scan_images page : emits page_event (scan_images page).
Proof.
  unfold scan_images. repeat emits_step.
  unfold scan_image. repeat emits_step.
  match goal with |- emits _ (if ?b then _ else _) => destruct b end;
    emits_step.
Qed.

Lemma emits_save_image env img path fmt :
  emits page_event (save_image env img path fmt).
Proof. unfold save_image. repeat emits_step. Qed.

Lemma emits_open_image env data : emits page_event (open_image env data).
Proof. unfold open_image. repeat emits_step. Qed.

#[local] Hint Resolve emits_scan_images emits_save_image emits_open_image
  : emits.

Lemma emits_save_largest env data path image_format :
  emits page_event (save_largest env data path image_format).
Proof.
  unfold save_largest, save_requested, save_tiff_fallback.
  repeat emits_step.
  repeat match goal with |- emits _ (if ?b then _ else _) => destruct b end;
    repeat emits_step.
Qed.

Lemma emits_extract_largest_image env page path image_format :
  emits page_event (extract_largest_image env page path image_format).
Proof.
  unfold extract_largest_image. apply emits_bind; [auto with emits|].
  intros [[|b d]|]; auto using emits_save_largest with emits.
Qed.

#[local] Hint Resolve emits_extract_largest_image : emits.

Lemma emits_process_page env ctx page_num page :
  emits page_event (process_page env ctx page_num page).
Proof.
  unfold process_page. repeat emits_step.
  match goal with |- emits _ (if ?b then _ else _) => destruct b end;
    repeat emits_step.
Qed.

Lemma emits_pages_loop env ctx pages : forall page_num stats_data,
  emits page_event (pages_loop env ctx page_num pages stats_data).
Proof.
  induction pages as [|page pages IH]; intros page_num stats_data; simpl.
  - apply emits_ret.
  - apply emits_bind; [apply emits_process_page | intros; apply IH].
Qed.

(** ** Results do not depend on the world *)

Lemma process_page_result env ctx page_num page w :
  snd (process_page env ctx page_num page w) = page_row env ctx page_num page.
Proof.
  unfold page_row.
  destruct (page_single_pdf page) as [pdf|e] eqn:Hpdf.
  2: { unfold process_page. by rewrite run_bind, run_lift, Hpdf. }
  destruct (get_page_statistics env page) as [stats|e] eqn:Hstats.
  2: { unfold process_page. rewrite run_bind, run_lift, Hpdf. cbv beta iota.
       rewrite run_bind.
       change (write_file ?p ?d w) with (wrote w p d, Ok tt). cbv beta iota.
       by rewrite run_bind, run_lift, Hstats. }
  destruct (get_page_statistics_inv _ _ _ Hstats)
    as (x & paths & images & _ & _ & Hi & _).
  rewrite (process_page_run _ _ _ _ _ _ _ _ Hpdf Hstats Hi). simpl.
  rewrite Hi. simpl. by destruct images.
Qed.

Lemma pages_loop_result env ctx pages : forall page_num stats_data w,
  snd (pages_loop env ctx page_num pages stats_data w) =
  (rows ← page_rows env ctx page_num pages; Ok (stats_data ++ rows)).
Proof.
  induction pages as [|page pages IH]; intros page_num stats_data w.
  - simpl. by rewrite app_nil_r.
  - cbn [pages_loop page_rows]. rewrite run_bind.
    pose proof (process_page_result env ctx page_num page w) as Hrow.
    destruct (process_page env ctx page_num page w) as [w1 [row|e]];
      simpl in Hrow; rewrite <- Hrow; simpl; [|done].
    rewrite IH.
    destruct (page_rows env ctx (S page_num) pages); simpl; [|done].
    by rewrite <- app_assoc.
Qed.

Lemma extract_pdf_statistics_result env pdf_path output_dir image_format w :
  snd (extract_pdf_statistics env pdf_path output_dir image_format w)
  = document_rows env pdf_path output_dir image_format.
Proof.
  unfold extract_pdf_statistics, document_rows.
  rewrite run_bind, run_lift.
  destruct (fitz_open env pdf_path) as [doc|e]; simpl; [|done].
  rewrite run_bind, run_emit. cbv beta iota. rewrite run_bind.
  pose proof (pages_loop_result env
                (doc_context pdf_path output_dir image_format doc)
                (doc_pages doc) 1 [] (add_events w [EvDocOpen pdf_path]))
    as Hrows.
  destruct (pages_loop _ _ _ _ _ _) as [w1 [rows|e]];
    simpl in Hrows; destruct (page_rows _ _ _ _); simpl in Hrows;
    try discriminate; by injection Hrows as ->.
Qed.

(** ** The trace of a document *)

Lemma extract_pdf_statistics_unopened env pdf_path output_dir image_format
    w e :
  fitz_open env pdf_path = Raise e ->
  extract_pdf_statistics env pdf_path output_dir image_format w
  = (w, Raise e).
Proof.
  intros H. unfold extract_pdf_statistics. by rewrite run_bind, run_lift, H.
Qed.

Lemma extract_pdf_statistics_trace env pdf_path output_dir image_format
    doc w :
  fitz_open env pdf_path = Ok doc ->
  exists evs,
    Forall page_event evs /\
    match extract_pdf_statistics env pdf_path output_dir image_format w with
    | (w', Ok _) =>
        events w' = events w ++ EvDocOpen pdf_path :: evs
                      ++ [EvDocClose pdf_path]
    | (w', Raise _) => events w' = events w ++ EvDocOpen pdf_path :: evs
    end.
Proof.
  intros Hopen. unfold extract_pdf_statistics.
  rewrite run_bind, run_lift, Hopen. cbv beta iota.
  rewrite run_bind, run_emit. cbv beta iota. rewrite run_bind.
  destruct (emits_pages_loop env
              (doc_context pdf_path output_dir image_format doc)
              (doc_pages doc) 1%nat [] (add_events w [EvDocOpen pdf_path]))
    as (evs & Hev & Hall).
  exists evs. split; [done|].
  destruct (pages_loop _ _ _ _ _ _) as [w1 [rows|e]]; simpl in Hev.
  - rewrite run_bind, run_emit. cbv beta iota. rewrite run_ret. simpl.
    rewrite Hev, <- !app_assoc. done.
  - rewrite Hev, <- app_assoc. done.
Qed.

Lemma extract_pdf_statistics_grows env pdf_path output_dir image_format w :
  exists evs,
    events (fst (extract_pdf_statistics env pdf_path output_dir
                   image_format w)) = events w ++ evs.
Proof.
  destruct (fitz_open env pdf_path) as [doc|e] eqn:Hopen.
  - destruct (extract_pdf_statistics_trace env pdf_path output_dir
                image_format doc w Hopen) as (evs & _ & H).
    destruct (extract_pdf_statistics _ _ _ _ _) as [w' [rows|e]];
      simpl; rewrite H; eauto.
  - rewrite (extract_pdf_statistics_unopened _ _ _ _ _ _ Hopen).
    exists []. simpl. by rewrite app_nil_r.
Qed.

(** C7 fails on the code for a document that fails after it was opened:
    its trace has the opening and, after it, no closing; line 61 is
    reached on success only. *)
Theorem failed_document_never_closed env pdf_path output_dir image_format
    doc w w' e :
  fitz_open env pdf_path = Ok doc ->
  extract_pdf_statistics env pdf_path output_dir image_format w
    = (w', Raise e) ->
  exists evs,
    events w' = events w ++ EvDocOpen pdf_path :: evs /\
    Forall page_event evs /\
    EvDocClose pdf_path ∉ evs.
Proof.
  intros Hopen Hrun.
  destruct (extract_pdf_statistics_trace env pdf_path output_dir image_format
              doc w Hopen) as (evs & Hall & H).
  rewrite Hrun in H. exists evs. split; [done|]. split; [done|].
  intros Hin. rewrite Forall_forall in Hall. by specialize (Hall _ Hin).
Qed.

(** On success the closing is the last event of the document. *)
Lemma processed_document_closed env pdf_path output_dir image_format
    doc w w' rows :
  fitz_open env pdf_path = Ok doc ->
  extract_pdf_statistics env pdf_path output_dir image_format w
    = (w', Ok rows) ->
  exists evs,
    events w' = events w ++ EvDocOpen pdf_path :: evs
                  ++ [EvDocClose pdf_path] /\
    Forall page_event evs.
Proof.
  intros Hopen Hrun.
  destruct (extract_pdf_statistics_trace env pdf_path output_dir image_format
              doc w Hopen) as (evs & Hall & H).
  rewrite Hrun in H. by exists evs.
Qed.

Lemma failed_document_never_closed_witness :
  exists evs,
    events (fst (extract_pdf_statistics damaged_env "in/damaged.pdf" "out"
                   "png" empty_world))
      = EvDocOpen "in/damaged.pdf" :: evs /\
    Forall page_event evs /\
    EvDocClose "in/damaged.pdf" ∉ evs.
Proof.
  apply (failed_document_never_closed damaged_env "in/damaged.pdf" "out" "png"
           damaged_doc empty_world _ (Exception "cannot save page")).
  - reflexivity.
  - reflexivity.
Defined.

(** The batch over a damaged and a valid document: the valid document is
    opened while the damaged one was never closed. *)
Example damaged_batch_trace :
  events (fst (process_all_pdfs damaged_env "in" "out" "png" empty_world)) =
  [EvPrint "Using image format: png";
   EvPrint "Processing in/damaged.pdf..."; EvDocOpen "in/damaged.pdf";
   EvFileWrite "out/damaged_1_of_2.pdf";
   EvPrint "Error processing in/damaged.pdf: cannot save page";
   EvPrint "Processing in/good.pdf..."; EvDocOpen "in/good.pdf";
   EvFileWrite "out/good_1_of_2.pdf";
   EvFileWrite "out/good_2_of_2.pdf"; EvImageOpen;
   EvImageSave SavePNG "out/good_2_of_2_largest_image.png";
   EvFileWrite "out/good_2_of_2_largest_image.png";
   EvPrint "Saved image to out/good_2_of_2_largest_image.png";
   EvDocClose "in/good.pdf"; EvFileWrite "out/pdf_statistics.csv";
   EvPrint "Statistics saved to out/pdf_statistics.csv";
   EvPrint "Processed 2 PDF files with a total of 2 pages"].
Proof. vm_compute. reflexivity. Qed.

(** ** The batch *)

Lemma process_pdf_file_run env output_dir image_format all_stats pdf_file w :
  exists w' evs,
    process_pdf_file env output_dir image_format all_stats pdf_file w
    = (w', Ok (all_stats ++ contributed env output_dir image_format pdf_file))
    /\ events w' = events w ++ processing_line pdf_file :: evs
    /\ forall e,
         document_rows env pdf_file output_dir image_format = Raise e ->
         error_line pdf_file e ∈ evs.
Proof.
  unfold process_pdf_file, contributed.
  rewrite run_bind, run_print. cbv beta iota.
  rewrite run_try_except, run_bind.
  set (w0 := add_events w [EvPrint ("Processing " +:+ pdf_file +:+ "...")]).
  pose proof (extract_pdf_statistics_result env pdf_file output_dir
                image_format w0) as Hres.
  destruct (extract_pdf_statistics_grows env pdf_file output_dir
              image_format w0) as (evs & Hev).
  destruct (extract_pdf_statistics env pdf_file output_dir image_format w0)
    as [w1 [rows|e]]; simpl in Hres, Hev; rewrite <- Hres.
  - rewrite run_ret. exists w1, evs. split; [done|]. split; [|done].
    rewrite Hev. unfold w0. simpl. by rewrite <- app_assoc.
  - rewrite run_bind, run_print. cbv beta iota. rewrite run_ret.
    eexists _, (evs ++ [error_line pdf_file e]). rewrite app_nil_r.
    split; [done|]. split.
    + simpl. rewrite Hev. unfold w0. simpl. by rewrite <- !app_assoc.
    + intros e' [= <-]. set_solver.
Qed.

Lemma collect_loop_run env output_dir image_format pdf_files :
  forall all_stats w,
  exists w' evs,
    fold_m (process_pdf_file env output_dir image_format) pdf_files
      all_stats w
    = (w', Ok (all_stats
               ++ (pdf_files ≫= contributed env output_dir image_format)))
    /\ events w' = events w ++ evs
    /\ (forall f, f ∈ pdf_files -> processing_line f ∈ evs)
    /\ (forall f e, f ∈ pdf_files ->
          document_rows env f output_dir image_format = Raise e ->
          error_line f e ∈ evs).
Proof.
  induction pdf_files as [|f fs IH]; intros all_stats w.
  - exists w, []. simpl. rewrite !app_nil_r.
    split; [done|]. split; [done|]. split; intros ? ?; set_solver.
  - cbn [fold_m]. rewrite run_bind.
    destruct (process_pdf_file_run env output_dir image_format all_stats f w)
      as (w1 & evs1 & -> & Hev1 & Herr1).
    destruct (IH (all_stats ++ contributed env output_dir image_format f) w1)
      as (w' & evs2 & -> & Hev2 & Hproc2 & Herr2).
    exists w', ((processing_line f :: evs1) ++ evs2).
    split; [by rewrite <- app_assoc|].
    split; [by rewrite Hev2, Hev1, <- app_assoc|]. split.
    + intros g [->|Hg]%elem_of_cons; [set_solver|].
      specialize (Hproc2 g Hg). set_solver.
    + intros g e [->|Hg]%elem_of_cons Hrows.
      * specialize (Herr1 e Hrows). set_solver.
      * specialize (Herr2 g e Hg Hrows). set_solver.
Qed.

(** C8: the loop over the files never fails; every file is processed; a
    file whose processing raises contributes no row and its error is
    printed; the rows collected are those of the documents that were
    processed completely, in the order of the files, and they are what
    the report holds. *)
Theorem document_failure_isolated env input_dir output_dir image_format w :
  let pdf_files := glob_glob env (OsPath.join input_dir "*.pdf") in
  let rows := pdf_files ≫= contributed env output_dir image_format in
  (exists w' evs,
     collect_stats env output_dir image_format pdf_files w = (w', Ok rows) /\
     events w' = events w ++ evs /\
     (forall f, f ∈ pdf_files -> processing_line f ∈ evs) /\
     (forall f e, f ∈ pdf_files ->
        document_rows env f output_dir image_format = Raise e ->
        contributed env output_dir image_format f = [] /\
        error_line f e ∈ evs)) /\
  (exists w' evs,
     process_all_pdfs env input_dir output_dir image_format w = (w', Ok tt) /\
     events w' = events w ++ evs /\
     (forall f e, f ∈ pdf_files ->
        document_rows env f output_dir image_format = Raise e ->
        error_line f e ∈ evs) /\
     (rows <> [] ->
      files w' !! csv_path_of output_dir = Some (Table rows))).
Proof.
  intros pdf_files rows.
  destruct (collect_loop_run env output_dir image_format pdf_files [] w)
    as (w1 & evs & Hrun & Hev & Hproc & Herr).
  simpl in Hrun. fold rows in Hrun. split.
  - exists w1, evs. split; [exact Hrun|]. split; [exact Hev|].
    split; [exact Hproc|]. intros f e Hf Hrows. split; [|by eapply Herr].
    unfold contributed. by rewrite Hrows.
  - unfold process_all_pdfs. fold pdf_files.
    destruct pdf_files as [|f fs] eqn:Hfiles.
    + eexists _, _. split; [reflexivity|]. split; [reflexivity|].
      split; [intros ? ? ?; set_solver|]. intros Hne. by elim Hne.
    + rewrite run_bind, run_print. cbv beta iota. rewrite run_bind.
      pose proof (collect_loop_run env output_dir image_format (f :: fs) []
                    (add_events w [EvPrint ("Using image format: "
                                            +:+ image_format)]))
        as (w2 & evs2 & Hrun2 & Hev2 & _ & Herr2).
      change ([] ++ _) with rows in Hrun2.
      unfold collect_stats. rewrite Hrun2. cbv beta iota.
      simpl in Hev2. rewrite <- app_assoc in Hev2.
      destruct rows as [|row rows'] eqn:Hrows.
      * rewrite run_print. eexists _, _. split; [reflexivity|]. simpl.
        rewrite Hev2, <- app_assoc. split; [reflexivity|].
        split; [|intros Hne; by elim Hne].
        intros g e Hg Hr. specialize (Herr2 g e Hg Hr).
        rewrite ?elem_of_cons, ?elem_of_app. tauto.
      * cbv beta iota. rewrite run_bind.
        change (write_file ?p ?d w2) with (wrote w2 p d, Ok tt).
        cbv beta iota. rewrite run_bind, run_print. cbv beta iota.
        rewrite run_print. eexists _, _. split; [reflexivity|]. simpl.
        rewrite Hev2, <- !app_assoc. split; [reflexivity|].
        split; [|intros _; apply lookup_insert_eq].
        intros g e Hg Hr. specialize (Herr2 g e Hg Hr).
        rewrite ?elem_of_cons, ?elem_of_app. tauto.
Qed.

Lemma document_failure_isolated_witness :
  exists w' evs rows,
    process_all_pdfs batch_env "in" "out" "png" empty_world = (w', Ok tt) /\
    events w' = evs /\
    error_line "in/corrupt.pdf" (Exception "cannot open broken document")
      ∈ evs /\
    files w' !! "out/pdf_statistics.csv" = Some (Table rows) /\
    length rows = 2%nat.
Proof.
  pose proof (document_failure_isolated batch_env "in" "out" "png"
                empty_world) as H.
  cbv zeta in H. destruct H as (_ & w' & evs & Hrun & Hev & Herr & Hcsv).
  assert (Hlen : length (glob_glob batch_env (OsPath.join "in" "*.pdf")
                         ≫= contributed batch_env "out" "png") = 2%nat)
    by (vm_compute; reflexivity).
  exists w', evs, (glob_glob batch_env (OsPath.join "in" "*.pdf")
                   ≫= contributed batch_env "out" "png").
  split; [exact Hrun|]. split; [exact Hev|]. split.
  - apply Herr; [apply list_elem_of_here | vm_compute; reflexivity].
  - split; [|exact Hlen]. apply Hcsv. intros E. rewrite E in Hlen.
    discriminate Hlen.
Defined.

(** * Further properties *)

(** ** File names *)

Lemma append_nil_r (s : string) : s +:+ "" = s.
Proof. induction s as [|x s IH]; [done|]. by rewrite append_cons, IH. Qed.

Lemma rfind_absent c (s : string) :
  PyStr.contains_char c s = false -> PyStr.rfind c s = None.
Proof.
  induction s as [|x s IH]; simpl; [done|].
  destruct (Ascii.eqb x c); [done|]. intros H. by rewrite IH.
Qed.

Lemma basename_in_dir dir (name : string) :
  PyStr.contains_char OsPath.sep name = false ->
  OsPath.basename (dir +:+ "/" +:+ name) = name.
Proof.
  intros Hname. unfold OsPath.basename.
  rewrite rfind_app.
  change ("/" +:+ name) with (String "/" name). simpl PyStr.rfind.
  rewrite (rfind_absent _ _ Hname). simpl PyStr.index_Z.
  replace (Z.to_nat (Z.of_nat (String.length dir + 0) + 1))
    with (String.length dir + 1)%nat by lia.
  by rewrite drop_app_s.
Qed.

Lemma contains_char_app c (a b : string) :
  PyStr.contains_char c (a +:+ b)
  = (PyStr.contains_char c a || PyStr.contains_char c b)%bool.
Proof.
  induction a as [|x a IH]; [done|]. rewrite append_cons. simpl.
  by destruct (Ascii.eqb x c).
Qed.

Lemma splitext_pdf c (rest : string) :
  c <> OsPath.extsep ->
  PyStr.contains_char OsPath.sep (String c rest) = false ->
  OsPath.splitext (String c rest +:+ ".pdf") = (String c rest, ".pdf").
Proof.
  intros Hc Hsep. set (name := String c rest) in *.
  unfold OsPath.splitext.
  assert (Hdot : PyStr.rfind OsPath.extsep (name +:+ ".pdf")
                 = Some (String.length name + 0)%nat)
    by (by rewrite rfind_app).
  assert (Hs : PyStr.rfind OsPath.sep (name +:+ ".pdf") = None).
  { apply rfind_absent. rewrite contains_char_app, Hsep. reflexivity. }
  rewrite Hdot, Hs. cbv zeta. cbn [PyStr.index_Z].
  destruct (Z.ltb_spec (-1) (Z.of_nat (String.length name + 0))) as [_|?];
    [|lia].
  rewrite Nat2Z.id. change (Z.to_nat (-1 + 1)) with 0%nat.
  erewrite (skip_dots_found _ _ _ _ 0%nat c).
  - by rewrite take_app_s, drop_app_s, append_nil_r.
  - lia.
  - unfold name. simpl. lia.
  - unfold name. rewrite append_cons. reflexivity.
  - exact Hc.
Qed.

(** X1: for a PDF [dir/name.pdf] whose name has no separator and does not
    start with a dot, page [n] of [k] is written as [name_n_of_k.pdf], its
    image is named [name_n_of_k_largest_image] with the extension of the
    format, and the row names the original file [name.pdf]. *)
Theorem artifact_names dir c rest output_dir image_format pages page_num :
  let name := String c rest in
  let ctx := doc_context (pdf_in dir name) output_dir image_format
               (doc_of_pages pages) in
  c <> OsPath.extsep ->
  PyStr.contains_char OsPath.sep name = false ->
  OsPath.basename (ctx_pdf_path ctx) = name +:+ ".pdf" /\
  output_filename ctx page_num
    = name +:+ "_" +:+ PyStr.of_nat page_num +:+ "_of_"
      +:+ PyStr.of_nat (length pages) +:+ ".pdf" /\
  img_filename ctx page_num
    = name +:+ "_" +:+ PyStr.of_nat page_num +:+ "_of_"
      +:+ PyStr.of_nat (length pages) +:+ "_largest_image"
      +:+ format_extension image_format.
Proof.
  intros name ctx Hc Hsep.
  assert (Hbase : OsPath.basename (pdf_in dir name) = name +:+ ".pdf").
  { unfold pdf_in. apply basename_in_dir.
    rewrite contains_char_app, Hsep. reflexivity. }
  assert (Hstem : ctx_base_filename ctx = name).
  { unfold ctx, doc_context. cbn [ctx_base_filename].
    rewrite Hbase. unfold name. by rewrite splitext_pdf. }
  split; [exact Hbase|].
  unfold output_filename, img_filename, page_tag. rewrite Hstem.
  cbn [ctx_total_pages ctx doc_context doc_of_pages doc_pages ctx_ext].
  by rewrite !app_assoc_s.
Qed.

Lemma artifact_names_witness :
  let ctx := doc_context "in/report.pdf" "out" "tiff"
               (doc_of_pages [vector_page; vector_page; vector_page]) in
  OsPath.basename (ctx_pdf_path ctx) = "report.pdf" /\
  output_filename ctx 2 = "report_2_of_3.pdf" /\
  img_filename ctx 2 = "report_2_of_3_largest_image.tiff".
Proof.
  apply (artifact_names "in" "r"%char "eport" "out" "tiff"
           [vector_page; vector_page; vector_page] 2%nat).
  - discriminate.
  - reflexivity.
Defined.

(** ** The rows of a document *)

Lemma page_row_inv env ctx page_num page row :
  page_row env ctx page_num page = Ok row ->
  exists pdf stats images,
    page_single_pdf page = Ok pdf /\
    get_page_statistics env page = Ok stats /\
    page_get_images page = Ok images /\
    row = <["Largest Image File" :=
              VStr (match images with
                    | [] => "N/A"
                    | _ :: _ => img_filename ctx page_num
                    end)]>
            (base_row ctx page_num stats (Z.of_nat (length pdf))).
Proof.
  unfold page_row. intros H.
  apply rbind_Ok in H as (pdf & Hpdf & H).
  apply rbind_Ok in H as (stats & Hstats & H).
  apply rbind_Ok in H as (images & Hi & H).
  injection H as <-. by exists pdf, stats, images.
Qed.

Lemma page_row_fields env ctx page_num page row :
  page_row env ctx page_num page = Ok row ->
  row !! "Page Number" = Some (VInt (Z.of_nat page_num)) /\
  row !! "Total Pages" = Some (VInt (Z.of_nat (ctx_total_pages ctx))) /\
  row !! "Output File" = Some (VStr (output_filename ctx page_num)) /\
  row !! "Original File" = Some (VStr (OsPath.basename (ctx_pdf_path ctx))).
Proof.
  intros H. destruct (page_row_inv _ _ _ _ _ H)
    as (pdf & stats & images & _ & _ & _ & ->).
  unfold base_row. repeat split;
    repeat (first [ rewrite lookup_insert_eq; reflexivity
                  | rewrite lookup_insert_ne by done ]).
Qed.

Lemma page_rows_numbered env ctx pages : forall page_num rows,
  page_rows env ctx page_num pages = Ok rows ->
  length rows = length pages /\
  forall i row, rows !! i = Some row ->
    exists page,
      pages !! i = Some page /\
      page_row env ctx (page_num + i) page = Ok row.
Proof.
  induction pages as [|page pages IH]; intros page_num rows H.
  - injection H as <-. split; [done|]. intros i row Hi. done.
  - cbn [page_rows] in H.
    apply rbind_Ok in H as (row0 & Hrow & H).
    apply rbind_Ok in H as (rows' & Hrows & H). injection H as <-.
    destruct (IH _ _ Hrows) as (Hlen & Hnth).
    split; [simpl; by rewrite Hlen|].
    intros [|i] row Hi; simpl in Hi.
    + injection Hi as <-. exists page. rewrite Nat.add_0_r. done.
    + destruct (Hnth i row Hi) as (pg & Hpg & Hr).
      exists pg. split; [done|].
      by replace (page_num + S i)%nat with (S page_num + i)%nat by lia.
Qed.

(** X2: a document that is processed completely yields one row per page,
    in page order; the row at position [i] carries page number [i + 1],
    the page count of the document, the name of the single-page PDF of
    that page and the name of the original file. *)
Theorem rows_numbered_in_page_order env pdf_path output_dir image_format
    doc w w' rows :
  fitz_open env pdf_path = Ok doc ->
  extract_pdf_statistics env pdf_path output_dir image_format w
    = (w', Ok rows) ->
  let ctx := doc_context pdf_path output_dir image_format doc in
  length rows = length (doc_pages doc) /\
  forall i row, rows !! i = Some row ->
    row !! "Page Number" = Some (VInt (Z.of_nat i + 1)) /\
    row !! "Total Pages" = Some (VInt (Z.of_nat (length (doc_pages doc)))) /\
    row !! "Output File" = Some (VStr (output_filename ctx (S i))) /\
    row !! "Original File" = Some (VStr (OsPath.basename pdf_path)).
Proof.
  intros Hopen Hrun ctx.
  pose proof (extract_pdf_statistics_result env pdf_path output_dir
                image_format w) as Hres.
  rewrite Hrun in Hres. simpl in Hres. symmetry in Hres.
  unfold document_rows in Hres. rewrite Hopen in Hres. simpl in Hres.
  destruct (page_rows_numbered _ _ _ _ _ Hres) as (Hlen & Hnth).
  split; [exact Hlen|]. intros i row Hi.
  destruct (Hnth i row Hi) as (page & _ & Hrow).
  destruct (page_row_fields _ _ _ _ _ Hrow) as (Hn & Ht & Ho & Hf).
  change (1 + i)%nat with (S i) in *.
  rewrite Hn, Ht, Ho, Hf. repeat split. do 2 f_equal. lia.
Qed.

Example good_document_processed :
  is_ok (snd (extract_pdf_statistics batch_env "in/good.pdf" "out" "png"
                empty_world)) = true.
Proof. vm_compute. reflexivity. Qed.

Lemma rows_numbered_in_page_order_witness :
  exists rows,
    snd (extract_pdf_statistics batch_env "in/good.pdf" "out" "png"
           empty_world) = Ok rows /\
    length rows = 2%nat /\
    forall row, rows !! 1%nat = Some row ->
      row !! "Page Number" = Some (VInt 2) /\
      row !! "Output File" = Some (VStr "good_2_of_2.pdf").
Proof.
  pose proof good_document_processed as Hok.
  destruct (extract_pdf_statistics batch_env "in/good.pdf" "out" "png"
              empty_world) as [w' [rows|e]] eqn:Hrun; [|discriminate Hok].
  exists rows. split; [reflexivity|].
  destruct (rows_numbered_in_page_order batch_env "in/good.pdf" "out" "png"
              good_doc empty_world w' rows eq_refl Hrun) as (Hlen & Hnth).
  split; [exact Hlen|]. intros row Hrow.
  destruct (Hnth 1%nat row Hrow) as (Hn & _ & Ho & _).
  split; [exact Hn|]. rewrite Ho. vm_compute. reflexivity.
Defined.

Lemma length_append_s (a b : string) :
  String.length (a +:+ b) = (String.length a + String.length b)%nat.
Proof.
  induction a as [|x a IH]; [done|]. rewrite append_cons. simpl. by rewrite IH.
Qed.

Lemma img_filename_not_sentinel ctx page_num :
  img_filename ctx page_num <> "N/A".
Proof.
  intros H. apply (f_equal String.length) in H.
  unfold img_filename in H. rewrite !length_append_s in H. simpl in H. lia.
Qed.

(** X3: the raster count of a row is the number of entries of the image
    directory of the page, whether or not any of them resolves or any
    image gets saved, and the image field is the sentinel "N/A" exactly
    when the directory is empty. *)
Theorem raster_count_is_directory_size env ctx page_num page w w' row images :
  process_page env ctx page_num page w = (w', Ok row) ->
  page_get_images page = Ok images ->
  row !! "Raster Count" = Some (VInt (Z.of_nat (length images))) /\
  (row !! "Largest Image File" = Some (VStr "N/A") <-> images = []).
Proof.
  intros Hrun Hi.
  pose proof (process_page_result env ctx page_num page w) as Hres.
  rewrite Hrun in Hres. simpl in Hres. symmetry in Hres.
  destruct (page_row_inv _ _ _ _ _ Hres)
    as (pdf & stats & images' & _ & Hstats & Hi' & ->).
  rewrite Hi in Hi'. injection Hi' as <-.
  destruct (get_page_statistics_inv _ _ _ Hstats)
    as (x & paths & images' & _ & _ & Hi' & Hrc).
  rewrite Hi in Hi'. injection Hi' as <-. split.
  - rewrite lookup_insert_ne by done. rewrite base_row_stats; [done|].
    rewrite !elem_of_cons, elem_of_nil.
    intros [?|[?|[?|[?|[?|[]]]]]]; discriminate.
  - rewrite lookup_insert_eq. destruct images as [|img images].
    + done.
    + split; [|done]. intros [= H].
      by apply img_filename_not_sentinel in H.
Qed.

Example image_page_processed :
  is_ok (snd (process_page plain_env (sample_ctx "jpeg") 1 image_page
                empty_world)) = true.
Proof. vm_compute. reflexivity. Qed.

Lemma raster_count_is_directory_size_witness :
  exists w' row,
    process_page plain_env (sample_ctx "jpeg") 1 image_page empty_world
    = (w', Ok row) /\
    row !! "Raster Count" = Some (VInt 1) /\
    row !! "Largest Image File" <> Some (VStr "N/A").
Proof.
  pose proof image_page_processed as Hok.
  destruct (process_page plain_env (sample_ctx "jpeg") 1 image_page
              empty_world) as [w' [row|e]] eqn:Hrun; [|discriminate Hok].
  exists w', row. split; [reflexivity|].
  destruct (raster_count_is_directory_size plain_env (sample_ctx "jpeg")
              1%nat image_page empty_world w' row [sample_image 7]
              Hrun eq_refl) as (Hrc & Hna).
  split; [exact Hrc|]. intros H. apply Hna in H. discriminate H.
Defined.

(** ** The colour field *)

Lemma str_color_paren env c :
  color_truthy c = true -> exists r, str_color env c = String "(" r.
Proof.
  destruct c as [|[|x [|y l]]]; simpl; try discriminate; intros _;
    rewrite append_cons; eauto.
Qed.

Lemma encountered_paren env paths s :
  s ∈ encountered env paths -> exists r, s = String "(" r.
Proof.
  unfold encountered. rewrite list_elem_of_omap.
  intros (path & _ & H). unfold path_color_str in H.
  destruct (path_color path) as [c|]; [|done].
  destruct (color_truthy c) eqn:Ht; [|done]. injection H as <-.
  by apply str_color_paren.
Qed.

(** X4: the colour field of the statistics is the distinct colour strings
    of the page joined by ", " in first-seen order; it is the word "None"
    exactly when no path of the page carries a colour. *)
Theorem colour_field_joined env page stats paths :
  get_page_statistics env page = Ok stats ->
  page_get_drawings page = Ok paths ->
  stats !! "Vector Colors"
    = Some (VStr (match first_seen (encountered env paths) with
                  | [] => "None"
                  | c :: cs => PyStr.join ", " (c :: cs)
                  end)) /\
  (stats !! "Vector Colors" = Some (VStr "None")
   <-> encountered env paths = []).
Proof.
  intros Hstats Hd.
  destruct (get_page_statistics_inv _ _ _ Hstats)
    as (x & paths' & images & Hx & Hd' & Hi & _).
  rewrite Hd in Hd'. injection Hd' as <-.
  rewrite (get_page_statistics_Ok env page x paths images Hx Hd Hi) in Hstats.
  injection Hstats as <-. rewrite lookup_insert_eq.
  unfold colors_to_string.
  destruct (encountered env paths) as [|s l] eqn:He; cbn [first_seen].
  - done.
  - split; [done|]. split; [|done]. intros [= H].
    destruct (encountered_paren env paths s) as (r & ->);
      [rewrite He; by left|].
    destruct (filter (fun y => y <> String "(" r) (first_seen l));
      [discriminate H | rewrite append_cons in H; discriminate H].
Qed.

Example vector_page_analysed :
  is_ok (get_page_statistics plain_env vector_page) = true.
Proof. vm_compute. reflexivity. Qed.

Lemma colour_field_joined_witness :
  exists stats,
    get_page_statistics plain_env vector_page = Ok stats /\
    stats !! "Vector Colors"
      = Some (VStr "(1.0, 0.0, 0.0), (0.0, 0.0, 0.0), (0.5,)").
Proof.
  pose proof vector_page_analysed as Hok.
  destruct (get_page_statistics plain_env vector_page) as [stats|e] eqn:Hs;
    [|discriminate Hok].
  exists stats. split; [reflexivity|].
  destruct (colour_field_joined plain_env vector_page stats sample_paths
              Hs eq_refl) as (Hc & _).
  rewrite Hc. vm_compute. reflexivity.
Defined.

(** ** The image handed to the encoder *)

Lemma paste_mode background src mask out :
  Pil.paste background src mask = Ok out -> im_mode out = im_mode background.
Proof.
  unfold Pil.paste.
  destruct (negb (bool_decide (im_size src = im_size background)));
    [discriminate|].
  destruct mask as [m|].
  - destruct (negb (bool_decide (im_size m = im_size src))); [discriminate|].
    by intros [= <-].
  - by intros [= <-].
Qed.

(** X5: whatever the mode of the source, an image that reaches the JPEG
    encoder has mode RGB, given that Pillow's conversion to RGB yields
    RGB; for the other formats the decoded image is encoded as it is. *)
Theorem jpeg_encoder_gets_rgb env image_format img out :
  (forall i o, Image_convert env "RGB" i = Ok o -> im_mode o = "RGB") ->
  prepared env image_format img = Ok out ->
  (PyStr.lower image_format = "jpeg" -> im_mode out = "RGB") /\
  (PyStr.lower image_format <> "jpeg" -> out = img).
Proof.
  intros Hconv Hprep. unfold prepared in Hprep.
  destruct (String.eqb_spec (PyStr.lower image_format) "jpeg") as [E|E].
  2: { split; [done|]. intros _. by injection Hprep. }
  split; [|done]. intros _. unfold jpeg_rgb in Hprep.
  destruct (bool_decide (im_mode img ∈ ["RGBA"; "LA"])).
  - destruct (PyStr.contains_char "A" (im_mode img)).
    + apply rbind_Ok in Hprep as (alpha & _ & Hpaste).
      by apply paste_mode in Hpaste.
    + by apply paste_mode in Hprep.
  - destruct (String.eqb_spec (im_mode img) "RGB") as [Hm|Hm]; simpl in Hprep.
    + by injection Hprep as <-.
    + by apply Hconv in Hprep.
Qed.

Lemma jpeg_encoder_gets_rgb_witness :
  exists out,
    prepared plain_env "JPEG" rgba_image = Ok out /\ im_mode out = "RGB".
Proof.
  exists {| im_mode := "RGB"; im_size := (2, 1)%nat;
            im_bands := [[255; 20]; [255; 40]; [255; 60]] |}.
  split; [reflexivity|].
  apply (jpeg_encoder_gets_rgb plain_env "JPEG" rgba_image).
  - intros i o [= <-]. reflexivity.
  - reflexivity.
  - reflexivity.
Defined.

(** X15: for an RGBA source the JPEG branch yields an RGB image of the
    same size with three bands; a pixel whose alpha is 0 comes out white
    (255, 255, 255) and a pixel whose alpha is 255 keeps the colour of the
    source. *)
Theorem rgba_composited_on_white env img r g b a :
  im_mode img = "RGBA" ->
  im_bands img = [r; g; b; a] ->
  exists out r' g' b',
    jpeg_rgb env img = Ok out /\
    im_mode out = "RGB" /\
    im_size out = im_size img /\
    im_bands out = [r'; g'; b'] /\
    forall i vr vg vb,
      (i < pixel_count img)%nat ->
      r !! i = Some vr -> g !! i = Some vg -> b !! i = Some vb ->
      (a !! i = Some 0 ->
       r' !! i = Some 255 /\ g' !! i = Some 255 /\ b' !! i = Some 255) /\
      (a !! i = Some 255 ->
       0 <= vr <= 255 -> 0 <= vg <= 255 -> 0 <= vb <= 255 ->
       r' !! i = Some vr /\ g' !! i = Some vg /\ b' !! i = Some vb).
Proof.
  intros Hm Hb. eexists _, _, _, _.
  split; [by apply jpeg_rgb_RGBA|]. do 3 (split; [done|]).
  intros i vr vg vb Hi Hr Hg Hbl. split.
  - intros Ha.
    rewrite !(on_white_lookup _ _ _ _ _ _ Hi Ha) by eassumption.
    by rewrite !blend8_transparent.
  - intros Ha ? ? ?.
    rewrite (on_white_lookup _ _ _ _ _ _ Hi Ha Hr),
            (on_white_lookup _ _ _ _ _ _ Hi Ha Hg),
            (on_white_lookup _ _ _ _ _ _ Hi Ha Hbl).
    by rewrite !blend8_opaque.
Qed.

Lemma rgba_composited_on_white_witness :
  exists out r' g' b',
    jpeg_rgb plain_env rgba_image = Ok out /\
    im_mode out = "RGB" /\
    im_size out = (2, 1)%nat /\
    im_bands out = [r'; g'; b'] /\
    forall i vr vg vb,
      (i < 2)%nat ->
      [10; 20] !! i = Some vr -> [30; 40] !! i = Some vg ->
      [50; 60] !! i = Some vb ->
      ([0; 255] !! i = Some 0 ->
       r' !! i = Some 255 /\ g' !! i = Some 255 /\ b' !! i = Some 255) /\
      ([0; 255] !! i = Some 255 ->
       0 <= vr <= 255 -> 0 <= vg <= 255 -> 0 <= vb <= 255 ->
       r' !! i = Some vr /\ g' !! i = Some vg /\ b' !! i = Some vb).
Proof.
  apply (rgba_composited_on_white plain_env rgba_image [10; 20] [30; 40]
           [50; 60] [0; 255]); reflexivity.
Defined.

(** ** The requested format *)

Lemma selected_none_of_empty page : selected page [] = None.
Proof. reflexivity. Qed.

Lemma format_pair_known image_format :
  (format_extension image_format, requested_format image_format)
  ∈ [(".jpg", SaveJPEG 90); (".png", SavePNG);
     (".tiff", SaveTIFF "tiff_lzw")].
Proof.
  unfold format_extension, requested_format.
  destruct (String.eqb_spec (PyStr.lower image_format) "jpeg") as [->|Hj].
  { simpl. rewrite !elem_of_cons. tauto. }
  destruct (String.eqb_spec (PyStr.lower image_format) "png") as [->|Hp].
  { simpl. rewrite !elem_of_cons. tauto. }
  destruct (String.eqb (PyStr.lower image_format) "tiff");
    rewrite !elem_of_cons; tauto.
Qed.

(** X6: when the requested format succeeds for the selected payload, the
    payload is decoded once and encoded once, by the encoder that goes
    with the extension of the recorded name; the file under the recorded
    name holds the encoder's bytes and the single-page PDF is in place. *)
Theorem requested_format_saved env pdf_path output_dir image_format doc
    page_num page w pdf stats images data d :
  let ctx := doc_context pdf_path output_dir image_format doc in
  page_single_pdf page = Ok pdf ->
  get_page_statistics env page = Ok stats ->
  page_get_images page = Ok images ->
  selected page images = Some data ->
  requested_bytes env data (img_path_of ctx page_num) image_format = Ok d ->
  exists w' row evs,
    process_page env ctx page_num page w = (w', Ok row) /\
    row !! "Largest Image File" = Some (VStr (img_filename ctx page_num)) /\
    files w' !! img_path_of ctx page_num = Some (Raw d) /\
    files w' !! output_path_of ctx page_num = Some (Raw pdf) /\
    events w' = events w ++ EvFileWrite (output_path_of ctx page_num)
                  :: scan_warnings page images ++ evs /\
    count_events is_image_open evs = 1%nat /\
    save_attempts evs
      = [(requested_format image_format, img_path_of ctx page_num)] /\
    (format_extension image_format, requested_format image_format)
    ∈ [(".jpg", SaveJPEG 90); (".png", SavePNG);
       (".tiff", SaveTIFF "tiff_lzw")].
Proof.
  intros ctx Hpdf Hstats Hi Hsel Hreq.
  assert (Hne : images <> []).
  { intros ->. by rewrite selected_none_of_empty in Hsel. }
  assert (Hext : ctx_ext ctx ∈ image_extensions)
    by apply format_extension_known.
  destruct (process_page_with_images env ctx page_num page w pdf stats images
              Hpdf Hstats Hi Hne) as (w' & evs & -> & Hev & Hout).
  apply (extraction_outcome_selected _ _ _ _ _ _ _ _ _ Hsel) in Hout.
  unfold save_outcome in Hout.
  change (ctx_image_format ctx) with image_format in Hout.
  rewrite Hreq in Hout. destruct Hout as (Hfiles & Hopen & Hsave).
  eexists _, _, evs. split; [reflexivity|].
  split; [apply lookup_insert_eq|].
  split; [rewrite Hfiles; apply lookup_insert_eq|].
  split.
  { rewrite Hfiles, lookup_insert_ne; [apply lookup_insert_eq|].
    by apply img_path_not_output. }
  split; [exact Hev|]. split; [exact Hopen|]. split; [exact Hsave|].
  apply format_pair_known.
Qed.

Lemma requested_format_saved_witness :
  exists w' row evs,
    process_page codec_env (sample_ctx "png") 1 image_page empty_world
    = (w', Ok row) /\
    row !! "Largest Image File"
      = Some (VStr (img_filename (sample_ctx "png") 1)) /\
    files w' !! img_path_of (sample_ctx "png") 1 = Some (Raw [Byte.x02]) /\
    files w' !! output_path_of (sample_ctx "png") 1
      = Some (Raw (replicate 2048 Byte.x00)) /\
    events w' = EvFileWrite (output_path_of (sample_ctx "png") 1) :: evs /\
    count_events is_image_open evs = 1%nat /\
    save_attempts evs = [(SavePNG, img_path_of (sample_ctx "png") 1)] /\
    (".png", SavePNG)
    ∈ [(".jpg", SaveJPEG 90); (".png", SavePNG);
       (".tiff", SaveTIFF "tiff_lzw")].
Proof.
  apply (requested_format_saved codec_env "in/report.pdf" "out" "png"
           {| doc_pages := [vector_page] |} 1%nat image_page empty_world
           (replicate 2048 Byte.x00)
           (<["Vector Colors" := VStr "None"]>
              (<["Raster Count" := VInt 1]> initial_stats))
           [sample_image 7] [Byte.x01; Byte.x02] [Byte.x02]);
    reflexivity.
Defined.

(** X7: for a request that is neither jpeg nor png the fallback goes to
    the same file with the same encoder: the TIFF path that line 161
    computes is the path of the request, and every save attempt, of which
    there are at most two, is a TIFF save with LZW compression at that
    path. *)
Theorem tiff_fallback_repeats_request env pdf_path output_dir image_format
    doc page_num data w :
  let ctx := doc_context pdf_path output_dir image_format doc in
  PyStr.lower image_format ∉ ["jpeg"; "png"] ->
  tiff_path_of (img_path_of ctx page_num) = img_path_of ctx page_num /\
  exists w' evs,
    save_largest env data (img_path_of ctx page_num) image_format w
      = (w', Ok tt) /\
    events w' = events w ++ evs /\
    (length (save_attempts evs) <= 2)%nat /\
    Forall (fun a => a = (SaveTIFF "tiff_lzw", img_path_of ctx page_num))
      (save_attempts evs).
Proof.
  intros ctx Hfmt. rewrite !elem_of_cons, elem_of_nil in Hfmt.
  assert (Hj : String.eqb (PyStr.lower image_format) "jpeg" = false)
    by (apply eqb_false_of_ne; tauto).
  assert (Hp : String.eqb (PyStr.lower image_format) "png" = false)
    by (apply eqb_false_of_ne; tauto).
  assert (Hext : ctx_ext ctx = ".tiff").
  { unfold ctx, doc_context, format_extension. cbn [ctx_ext].
    rewrite Hj, Hp. by destruct (String.eqb _ "tiff"). }
  assert (Hknown : ctx_ext ctx ∈ image_extensions)
    by apply format_extension_known.
  assert (Hpath : tiff_path_of (img_path_of ctx page_num)
                  = img_path_of ctx page_num).
  { rewrite tiff_path_eq, img_path_eq by done. by rewrite Hext. }
  split; [exact Hpath|].
  rewrite save_largest_run, save_requested_run.
  unfold prepared, requested_format. rewrite Hj, Hp. cbv zeta.
  destruct (Image_open env data) as [img|e] eqn:Hopen.
  2: { rewrite save_tiff_fallback_run, Hopen. cbv zeta.
       eexists _, _. split; [reflexivity|]. simpl. rewrite <- !app_assoc.
       split; [reflexivity|]. simpl. split; [lia|constructor]. }
  destruct (Image_encode env (SaveTIFF "tiff_lzw") img
              (img_path_of ctx page_num)) as [d|e] eqn:Henc.
  - eexists _, _. split; [reflexivity|]. simpl. rewrite <- !app_assoc.
    split; [reflexivity|]. simpl. split; [lia|]. by repeat constructor.
  - rewrite save_tiff_fallback_run, Hopen. cbv zeta. rewrite Hpath, Henc.
    eexists _, _. split; [reflexivity|]. simpl. rewrite <- !app_assoc.
    split; [reflexivity|]. simpl. split; [lia|]. by repeat constructor.
Qed.

Lemma tiff_fallback_repeats_request_witness :
  tiff_path_of (img_path_of (sample_ctx "tiff") 1)
    = img_path_of (sample_ctx "tiff") 1 /\
  exists w' evs,
    save_largest la_no_encoder_env [Byte.x01]
      (img_path_of (sample_ctx "tiff") 1) "tiff" empty_world
      = (w', Ok tt) /\
    events w' = events empty_world ++ evs /\
    (length (save_attempts evs) <= 2)%nat /\
    Forall (fun a => a = (SaveTIFF "tiff_lzw",
                          img_path_of (sample_ctx "tiff") 1))
      (save_attempts evs).
Proof.
  apply (tiff_fallback_repeats_request la_no_encoder_env "in/report.pdf"
           "out" "tiff" {| doc_pages := [vector_page] |} 1%nat [Byte.x01]
           empty_world).
  rewrite !elem_of_cons, elem_of_nil. intros [H|[H|[]]]; discriminate H.
Defined.

(** ** Files *)

(** A page changes no file but its own three. *)
Lemma process_page_confined env ctx page_num page w p :
  p <> output_path_of ctx page_num ->
  p <> img_path_of ctx page_num ->
  p <> tiff_path_of (img_path_of ctx page_num) ->
  files (fst (process_page env ctx page_num page w)) !! p = files w !! p.
Proof.
  intros Hout Himg Htiff.
  destruct (page_single_pdf page) as [pdf|e] eqn:Hpdf.
  2: { unfold process_page. by rewrite run_bind, run_lift, Hpdf. }
  destruct (get_page_statistics env page) as [stats|e] eqn:Hstats.
  2: { unfold process_page. rewrite run_bind, run_lift, Hpdf. cbv beta iota.
       rewrite run_bind.
       change (write_file ?q ?d w) with (wrote w q d, Ok tt). cbv beta iota.
       rewrite run_bind, run_lift, Hstats. simpl.
       by rewrite lookup_insert_ne. }
  destruct (get_page_statistics_inv _ _ _ Hstats)
    as (x & paths & images & _ & _ & Hi & _).
  destruct images as [|img images].
  - rewrite (process_page_run _ _ _ _ _ _ _ _ Hpdf Hstats Hi). simpl.
    by rewrite lookup_insert_ne.
  - destruct (process_page_with_images env ctx page_num page w pdf stats
                (img :: images) Hpdf Hstats Hi) as (w' & evs & -> & _ & Ho);
      [done|].
    simpl. rewrite (extraction_outcome_files _ _ _ _ _ _ _ _ _ Ho) by done.
    by rewrite lookup_insert_ne.
Qed.

Lemma last_char_app (a b : string) :
  b <> "" -> last_char (a +:+ b) = last_char b.
Proof.
  intros Hb. destruct b as [|c rest]; [done|].
  induction a as [|x a IH]; [done|].
  rewrite append_cons. cbn [last_char]. rewrite IH.
  destruct a; reflexivity.
Qed.

Lemma output_path_last ctx page_num :
  last_char (output_path_of ctx page_num) = Some "f"%char.
Proof.
  rewrite output_path_eq. by rewrite last_char_app.
Qed.

Lemma img_path_last ctx page_num :
  ctx_ext ctx ∈ image_extensions ->
  last_char (img_path_of ctx page_num) = Some "f"%char \/
  last_char (img_path_of ctx page_num) = Some "g"%char.
Proof.
  intros Hext. rewrite img_path_eq by done.
  unfold image_extensions in Hext. rewrite !elem_of_cons, elem_of_nil in Hext.
  destruct Hext as [->|[->|[->|[]]]];
    rewrite last_char_app by discriminate; auto.
Qed.

Lemma tiff_path_last ctx page_num :
  ctx_ext ctx ∈ image_extensions ->
  last_char (tiff_path_of (img_path_of ctx page_num)) = Some "f"%char.
Proof.
  intros Hext. rewrite tiff_path_eq by done.
  by rewrite last_char_app by discriminate.
Qed.

Lemma csv_path_last output_dir :
  last_char (csv_path_of output_dir) = Some "v"%char.
Proof.
  unfold csv_path_of.
  change "pdf_statistics.csv" with ("" +:+ String "p" "df_statistics.csv").
  rewrite join_tagged by discriminate.
  by rewrite last_char_app by discriminate.
Qed.

(** A page never touches the report file. *)
Lemma page_keeps_report env ctx page_num page w dir :
  ctx_ext ctx ∈ image_extensions ->
  files (fst (process_page env ctx page_num page w)) !! csv_path_of dir
  = files w !! csv_path_of dir.
Proof.
  intros Hext. pose proof (csv_path_last dir) as Hv.
  apply process_page_confined; intros E; rewrite E in Hv.
  - rewrite output_path_last in Hv. discriminate Hv.
  - destruct (img_path_last ctx page_num Hext) as [H|H];
      rewrite H in Hv; discriminate Hv.
  - rewrite (tiff_path_last ctx page_num Hext) in Hv. discriminate Hv.
Qed.

(** X8: whatever happens to a page, also when it fails, the only files it
    creates or changes are its single-page PDF, the image file of the
    requested format and the TIFF fallback of that name; every other file
    is left as it was, and the report file of any directory in
    particular. *)
Theorem page_touches_own_files env pdf_path output_dir image_format doc
    page_num page w :
  let ctx := doc_context pdf_path output_dir image_format doc in
  let w' := fst (process_page env ctx page_num page w) in
  (forall p,
     p <> output_path_of ctx page_num ->
     p <> img_path_of ctx page_num ->
     p <> tiff_path_of (img_path_of ctx page_num) ->
     files w' !! p = files w !! p) /\
  (forall dir, files w' !! csv_path_of dir = files w !! csv_path_of dir).
Proof.
  intros ctx w'. split.
  - intros p Hout Himg Htiff. by apply process_page_confined.
  - intros dir. apply page_keeps_report. apply format_extension_known.
Qed.

Lemma pages_loop_keeps_report env ctx dir pages :
  ctx_ext ctx ∈ image_extensions ->
  forall page_num stats_data w,
    files (fst (pages_loop env ctx page_num pages stats_data w))
      !! csv_path_of dir
    = files w !! csv_path_of dir.
Proof.
  intros Hext. induction pages as [|page pages IH];
    intros page_num stats_data w; [done|].
  cbn [pages_loop]. rewrite run_bind.
  pose proof (page_keeps_report env ctx page_num page w dir Hext) as Hp.
  destruct (process_page env ctx page_num page w) as [w1 [row|e]];
    simpl in Hp; [|done].
  by rewrite IH.
Qed.

Lemma document_keeps_report env pdf_path output_dir image_format w dir :
  files (fst (extract_pdf_statistics env pdf_path output_dir image_format w))
    !! csv_path_of dir
  = files w !! csv_path_of dir.
Proof.
  unfold extract_pdf_statistics. rewrite run_bind, run_lift.
  destruct (fitz_open env pdf_path) as [doc|e]; [|done]. cbv beta iota.
  rewrite run_bind, run_emit. cbv beta iota. rewrite run_bind.
  pose proof (pages_loop_keeps_report env
                (doc_context pdf_path output_dir image_format doc) dir
                (doc_pages doc) (format_extension_known image_format)
                1%nat [] (add_events w [EvDocOpen pdf_path])) as Hp.
  destruct (pages_loop _ _ _ _ _ _) as [w1 [rows|e]]; simpl in Hp; [|done].
  rewrite run_bind, run_emit. cbv beta iota. rewrite run_ret. done.
Qed.

Lemma collect_keeps_report env output_dir image_format dir pdf_files :
  forall all_stats w,
    files (fst (fold_m (process_pdf_file env output_dir image_format)
                  pdf_files all_stats w)) !! csv_path_of dir
    = files w !! csv_path_of dir.
Proof.
  induction pdf_files as [|f fs IH]; intros all_stats w; [done|].
  cbn [fold_m]. rewrite run_bind.
  assert (Hf : files (fst (process_pdf_file env output_dir image_format
                             all_stats f w)) !! csv_path_of dir
               = files w !! csv_path_of dir).
  { unfold process_pdf_file. rewrite run_bind, run_print. cbv beta iota.
    rewrite run_try_except, run_bind.
    pose proof (document_keeps_report env f output_dir image_format
                  (add_events w [EvPrint ("Processing " +:+ f +:+ "...")])
                  dir) as Hd.
    destruct (extract_pdf_statistics _ _ _ _ _) as [w1 [rows|e]];
      simpl in Hd; [done|].
    rewrite run_bind, run_print. done. }
  destruct (process_pdf_file_run env output_dir image_format all_stats f w)
    as (w1 & evs & Hrun & _).
  rewrite Hrun in Hf |- *. simpl in Hf. cbv beta iota. by rewrite IH.
Qed.

(** ** The batch as a whole *)

Lemma process_all_pdfs_cases env input_dir output_dir image_format w :
  let pdf_files := glob_glob env (OsPath.join input_dir "*.pdf") in
  let rows := pdf_files ≫= contributed env output_dir image_format in
  match pdf_files with
  | [] =>
      process_all_pdfs env input_dir output_dir image_format w
      = (add_events w [EvPrint ("No PDF files found in " +:+ input_dir)],
         Ok tt)
  | _ :: _ =>
      exists w1,
        collect_stats env output_dir image_format pdf_files
          (add_events w [EvPrint ("Using image format: " +:+ image_format)])
        = (w1, Ok rows) /\
        process_all_pdfs env input_dir output_dir image_format w
        = (match rows with
           | [] =>
               add_events w1
                 [EvPrint "No statistics were collected. Check for errors above."]
           | _ :: _ =>
               add_events (wrote w1 (csv_path_of output_dir) (Table rows))
                 [EvPrint ("Statistics saved to " +:+ csv_path_of output_dir);
                  EvPrint ("Processed " +:+ PyStr.of_nat (length pdf_files)
                           +:+ " PDF files with a total of "
                           +:+ PyStr.of_nat (length rows) +:+ " pages")]
           end, Ok tt)
  end.
Proof.
  intros pdf_files rows. unfold process_all_pdfs. fold pdf_files.
  destruct pdf_files as [|f fs] eqn:Hfiles; [reflexivity|].
  destruct (collect_loop_run env output_dir image_format (f :: fs) []
              (add_events w [EvPrint ("Using image format: "
                                      +:+ image_format)]))
    as (w1 & evs & Hrun & _).
  change ([] ++ _) with rows in Hrun.
  exists w1. split; [exact Hrun|].
  rewrite run_bind, run_print. cbv beta iota. rewrite run_bind.
  unfold collect_stats in Hrun |- *. rewrite Hrun. cbv beta iota.
  destruct rows as [|row rows']; [reflexivity|].
  rewrite run_bind.
  change (write_file ?p ?d w1) with (wrote w1 p d, Ok tt). cbv beta iota.
  rewrite run_bind, run_print. cbv beta iota. rewrite run_print.
  unfold add_events. simpl. by rewrite <- app_assoc.
Qed.

(** X9: when no row was collected, because the directory has no PDF or
    because every document failed, the report file is left as it was. *)
Theorem no_report_without_rows env input_dir output_dir image_format w :
  let pdf_files := glob_glob env (OsPath.join input_dir "*.pdf") in
  pdf_files ≫= contributed env output_dir image_format = [] ->
  files (fst (process_all_pdfs env input_dir output_dir image_format w))
    !! csv_path_of output_dir
  = files w !! csv_path_of output_dir.
Proof.
  intros pdf_files Hrows.
  pose proof (process_all_pdfs_cases env input_dir output_dir image_format w)
    as H. cbv zeta in H. fold pdf_files in H.
  destruct pdf_files as [|f fs] eqn:Hfiles.
  - by rewrite H.
  - destruct H as (w1 & Hcollect & Hrun). rewrite Hrows in Hrun, Hcollect.
    rewrite Hrun. simpl.
    pose proof (collect_keeps_report env output_dir image_format output_dir
                  (f :: fs) []
                  (add_events w [EvPrint ("Using image format: "
                                          +:+ image_format)])) as Hk.
    unfold collect_stats in Hcollect. rewrite Hcollect in Hk. exact Hk.
Qed.

Lemma no_report_without_rows_witness :
  files (fst (process_all_pdfs corrupt_env "in" "out" "png" empty_world))
    !! csv_path_of "out"
  = files empty_world !! csv_path_of "out".
Proof.
  apply (no_report_without_rows corrupt_env "in" "out" "png" empty_world).
  reflexivity.
Defined.

Lemma doc_events_app evs1 evs2 :
  doc_events (evs1 ++ evs2) = doc_events evs1 ++ doc_events evs2.
Proof. apply List.filter_app. Qed.

Lemma doc_events_cons ev evs :
  doc_events (ev :: evs)
  = (if is_doc_event ev then [ev] else []) ++ doc_events evs.
Proof. unfold doc_events. simpl. by destruct (is_doc_event ev). Qed.

Ltac doc_events_norm H :=
  repeat (rewrite doc_events_app || rewrite doc_events_cons);
  rewrite ?H; simpl; rewrite ?app_nil_r; try reflexivity.

Lemma doc_events_page evs : Forall page_event evs -> doc_events evs = [].
Proof.
  induction 1 as [|ev evs Hev _ IH]; [done|].
  unfold doc_events in *. simpl. unfold page_event in Hev. by rewrite Hev.
Qed.

Lemma process_pdf_file_doc_events env output_dir image_format all_stats
    pdf_file w :
  exists evs,
    events (fst (process_pdf_file env output_dir image_format all_stats
                   pdf_file w)) = events w ++ evs /\
    doc_events evs = doc_trace env output_dir image_format pdf_file.
Proof.
  unfold process_pdf_file, doc_trace.
  rewrite run_bind, run_print. cbv beta iota.
  rewrite run_try_except, run_bind.
  set (w0 := add_events w [EvPrint ("Processing " +:+ pdf_file +:+ "...")]).
  pose proof (extract_pdf_statistics_result env pdf_file output_dir
                image_format w0) as Hres.
  destruct (fitz_open env pdf_file) as [doc|e] eqn:Hopen.
  - destruct (extract_pdf_statistics_trace env pdf_file output_dir
                image_format doc w0 Hopen) as (evs & Hall & Hev).
    pose proof (doc_events_page evs Hall) as Hnone.
    destruct (extract_pdf_statistics _ _ _ _ _) as [w1 [rows|e]];
      simpl in Hres; rewrite <- Hres.
    + rewrite run_ret. eexists. simpl. rewrite Hev. unfold w0. simpl.
      rewrite <- app_assoc. split; [reflexivity|].
      doc_events_norm Hnone.
    + rewrite run_bind, run_print. cbv beta iota. rewrite run_ret.
      eexists. simpl. rewrite Hev. unfold w0. simpl.
      rewrite <- !app_assoc. split; [reflexivity|].
      doc_events_norm Hnone.
  - rewrite (extract_pdf_statistics_unopened _ _ _ _ _ _ Hopen).
    rewrite run_bind, run_print. cbv beta iota. rewrite run_ret.
    eexists. simpl. rewrite <- app_assoc. split; [reflexivity|].
    reflexivity.
Qed.

Lemma collect_doc_events env output_dir image_format pdf_files :
  forall all_stats w,
  exists evs,
    events (fst (fold_m (process_pdf_file env output_dir image_format)
                   pdf_files all_stats w)) = events w ++ evs /\
    doc_events evs = pdf_files ≫= doc_trace env output_dir image_format.
Proof.
  induction pdf_files as [|f fs IH]; intros all_stats w.
  - exists []. simpl. by rewrite app_nil_r.
  - cbn [fold_m]. rewrite run_bind.
    destruct (process_pdf_file_doc_events env output_dir image_format
                all_stats f w) as (evs1 & Hev1 & Hd1).
    destruct (process_pdf_file_run env output_dir image_format all_stats f w)
      as (w1 & evs & Hrun & _).
    rewrite Hrun in Hev1 |- *. simpl in Hev1. cbv beta iota.
    destruct (IH (all_stats ++ contributed env output_dir image_format f) w1)
      as (evs2 & Hev2 & Hd2).
    exists (evs1 ++ evs2). rewrite Hev2, Hev1, <- app_assoc.
    split; [done|]. rewrite doc_events_app, Hd1, Hd2. reflexivity.
Qed.

(** X10: the loop over the files opens and closes the input documents in
    the order of the files: a file that does not open leaves no trace, a
    document processed completely is opened and then closed, a document
    that fails after it was opened is opened and not closed.  So input
    documents are open one at a time as long as none fails once open. *)
Theorem batch_document_events env output_dir image_format pdf_files w :
  exists w' rows evs,
    collect_stats env output_dir image_format pdf_files w = (w', Ok rows) /\
    events w' = events w ++ evs /\
    doc_events evs = pdf_files ≫= doc_trace env output_dir image_format.
Proof.
  destruct (collect_loop_run env output_dir image_format pdf_files [] w)
    as (w' & evs & Hrun & Hev & _).
  destruct (collect_doc_events env output_dir image_format pdf_files [] w)
    as (evs2 & Hev2 & Hd).
  rewrite Hrun in Hev2. cbn [fst] in Hev2. rewrite Hev in Hev2.
  apply app_inv_head in Hev2. subst evs2.
  eexists _, _, evs. split; [exact Hrun|]. done.
Qed.

Example batch_document_events_sample :
  glob_glob damaged_env (OsPath.join "in" "*.pdf")
    ≫= doc_trace damaged_env "out" "png"
  = [EvDocOpen "in/damaged.pdf"; EvDocOpen "in/good.pdf";
     EvDocClose "in/good.pdf"].
Proof. vm_compute. reflexivity. Qed.

(** ** Which pages and documents get rows *)

Lemma get_page_statistics_ok_iff env page :
  is_ok (get_page_statistics env page)
  = (is_ok (page_xref_object page) && is_ok (page_get_drawings page)
     && is_ok (page_get_images page))%bool.
Proof.
  unfold get_page_statistics.
  destruct (page_xref_object page); [|done].
  destruct (page_get_drawings page); [|done].
  by destruct (page_get_images page).
Qed.

Lemma page_row_ok_iff env ctx page_num page :
  is_ok (page_row env ctx page_num page) = page_readable page.
Proof.
  unfold page_row, page_readable.
  pose proof (get_page_statistics_ok_iff env page) as H.
  destruct (page_single_pdf page) as [pdf|]; [|done]. simpl.
  destruct (get_page_statistics env page) as [stats|] eqn:Hs; simpl in *.
  - destruct (get_page_statistics_inv _ _ _ Hs)
      as (x & paths & images & -> & -> & -> & _). done.
  - exact H.
Qed.

Lemma page_rows_ok_iff env ctx pages : forall page_num,
  is_ok (page_rows env ctx page_num pages) = forallb page_readable pages.
Proof.
  induction pages as [|page pages IH]; intros page_num; [done|].
  cbn [page_rows forallb]. rewrite <- (page_row_ok_iff env ctx page_num).
  rewrite <- (IH (S page_num)).
  destruct (page_row env ctx page_num page); [|done]. simpl.
  by destruct (page_rows env ctx (S page_num) pages).
Qed.

(** X12: a document gets rows exactly when it opens and each of its pages
    can be written as a single-page PDF and queried for its object, its
    drawings and its image directory; whether an image can be resolved,
    decoded or encoded plays no part. *)
Theorem document_gets_rows_iff env pdf_path output_dir image_format w :
  is_ok (snd (extract_pdf_statistics env pdf_path output_dir image_format w))
  = match fitz_open env pdf_path with
    | Ok doc => forallb page_readable (doc_pages doc)
    | Raise _ => false
    end.
Proof.
  rewrite extract_pdf_statistics_result. unfold document_rows.
  destruct (fitz_open env pdf_path) as [doc|e]; [|done]. simpl.
  apply page_rows_ok_iff.
Qed.

Example document_gets_rows_sample :
  is_ok (snd (extract_pdf_statistics damaged_env "in/damaged.pdf" "out" "png"
                empty_world)) = false /\
  is_ok (snd (extract_pdf_statistics damaged_env "in/good.pdf" "out" "png"
                empty_world)) = true.
Proof. split; vm_compute; reflexivity. Qed.

(** ** The columns of a row *)

Lemma dom_dict_incr k (stats : Dict) : dom (dict_incr k stats) = dom stats.
Proof.
  unfold dict_incr. destruct (stats !! k) as [[]|] eqn:E; try done.
  apply dom_insert_lookup_L. by rewrite E.
Qed.

Lemma dom_count_item stats item : dom (count_item stats item) = dom stats.
Proof.
  unfold count_item.
  repeat match goal with |- context [if ?b then _ else _] => destruct b end;
    try done; apply dom_dict_incr.
Qed.

Lemma dom_add_color c (stats : Dict) : dom (add_color c stats) = dom stats.
Proof.
  unfold add_color. destruct (stats !! "Vector Colors") as [[]|] eqn:E;
    try done.
  case_bool_decide; [done|]. apply dom_insert_lookup_L. by rewrite E.
Qed.

Lemma dom_visit_path env stats path :
  dom (visit_path env stats path) = dom stats.
Proof.
  rewrite visit_path_eq. cbv zeta.
  assert (H : forall items s, dom (foldl count_item s items) = dom s).
  { induction items as [|it items IH]; intros s; [done|].
    simpl. by rewrite IH, dom_count_item. }
  destruct (path_color_str env path); by rewrite ?dom_add_color, H.
Qed.

Lemma dom_visit_paths env paths :
  dom (visit_paths env paths) = dom initial_stats.
Proof.
  unfold visit_paths. generalize initial_stats.
  induction paths as [|path paths IH]; intros s; [done|].
  simpl. by rewrite IH, dom_visit_path.
Qed.

Lemma dom_initial_stats :
  dom initial_stats
  = list_to_set ["Point Count"; "Line Count"; "Polygon Count";
                 "Raster Count"; "Vector Colors"].
Proof.
  unfold initial_stats. rewrite !dom_insert_L, dom_empty_L. simpl.
  set_solver.
Qed.

(** X13: every row of the report has exactly the eleven columns, whatever
    the page contains: the loop over the drawings only updates entries
    that exist, and the six other fields are always set. *)
Theorem row_has_report_columns env ctx page_num page w w' row :
  process_page env ctx page_num page w = (w', Ok row) ->
  dom row = report_columns.
Proof.
  intros Hrun.
  pose proof (process_page_result env ctx page_num page w) as Hres.
  rewrite Hrun in Hres. simpl in Hres. symmetry in Hres.
  destruct (page_row_inv _ _ _ _ _ Hres)
    as (pdf & stats & images & _ & Hstats & _ & ->).
  destruct (get_page_statistics_inv _ _ _ Hstats)
    as (x & paths & images' & Hx & Hd & Hi & _).
  rewrite (get_page_statistics_Ok env page x paths images' Hx Hd Hi)
    in Hstats. injection Hstats as <-.
  unfold base_row, report_columns.
  rewrite !dom_insert_L, dom_visit_paths, dom_initial_stats. simpl.
  set_solver.
Qed.

Example image_page_saved :
  is_ok (snd (process_page codec_env (sample_ctx "png") 1 image_page
                empty_world)) = true.
Proof. vm_compute. reflexivity. Qed.

Lemma row_has_report_columns_witness :
  exists w' row,
    process_page codec_env (sample_ctx "png") 1 image_page empty_world
    = (w', Ok row) /\
    dom row = report_columns.
Proof.
  pose proof image_page_saved as Hok.
  destruct (process_page codec_env (sample_ctx "png") 1 image_page
              empty_world) as [w' [row|e]] eqn:Hrun; [|discriminate Hok].
  exists w', row. split; [reflexivity|].
  exact (row_has_report_columns codec_env (sample_ctx "png") 1%nat image_page
           empty_world w' row Hrun).
Defined.

(** ** The report and the codecs *)

Lemma str_color_ext env1 env2 c :
  (forall q, float_repr env1 q = float_repr env2 q) ->
  str_color env1 c = str_color env2 c.
Proof.
  intros H. destruct c as [|l]; [done|]. unfold str_color.
  assert (Hl : float_repr env1 <$> l = float_repr env2 <$> l)
    by (apply list_fmap_ext; intros; apply H).
  destruct l as [|x [|y l]]; [done | by rewrite H | by rewrite Hl].
Qed.

Lemma visit_path_ext env1 env2 stats path :
  (forall q, float_repr env1 q = float_repr env2 q) ->
  visit_path env1 stats path = visit_path env2 stats path.
Proof.
  intros H. unfold visit_path.
  destruct (path_color path) as [c|]; [|done].
  by rewrite (str_color_ext env1 env2 c H).
Qed.

Lemma get_page_statistics_ext env1 env2 page :
  (forall q, float_repr env1 q = float_repr env2 q) ->
  get_page_statistics env1 page = get_page_statistics env2 page.
Proof.
  intros H. unfold get_page_statistics.
  assert (Hv : forall paths, visit_paths env1 paths = visit_paths env2 paths).
  { intros paths. unfold visit_paths. generalize initial_stats.
    induction paths as [|path paths IH]; intros s; [done|].
    simpl. by rewrite IH, (visit_path_ext env1 env2 s path H). }
  destruct (page_xref_object page); [|done].
  destruct (page_get_drawings page) as [paths|]; [|done].
  simpl. by rewrite Hv.
Qed.

Lemma page_rows_ext env1 env2 ctx pages :
  (forall q, float_repr env1 q = float_repr env2 q) ->
  forall page_num,
    page_rows env1 ctx page_num pages = page_rows env2 ctx page_num pages.
Proof.
  intros H. induction pages as [|page pages IH]; intros page_num; [done|].
  cbn [page_rows]. unfold page_row.
  by rewrite (get_page_statistics_ext env1 env2 page H), IH.
Qed.

(** X14: the rows of a document do not depend on the image codecs: two
    environments that open the same document and print floats alike give
    the same rows, or fail alike, however their decoders, converters and
    encoders behave and whatever files exist. *)
Theorem rows_independent_of_codecs env1 env2 pdf_path output_dir image_format
    w1 w2 :
  fitz_open env1 pdf_path = fitz_open env2 pdf_path ->
  (forall q, float_repr env1 q = float_repr env2 q) ->
  snd (extract_pdf_statistics env1 pdf_path output_dir image_format w1)
  = snd (extract_pdf_statistics env2 pdf_path output_dir image_format w2).
Proof.
  intros Hopen Hrepr. rewrite !extract_pdf_statistics_result.
  unfold document_rows. rewrite Hopen.
  destruct (fitz_open env2 pdf_path) as [doc|e]; [|done]. simpl.
  by apply page_rows_ext.
Qed.

Lemma rows_independent_of_codecs_witness :
  snd (extract_pdf_statistics batch_env "in/good.pdf" "out" "jpeg"
         empty_world)
  = snd (extract_pdf_statistics batch_env_no_codecs "in/good.pdf" "out"
           "jpeg" empty_world).
Proof.
  apply (rows_independent_of_codecs batch_env batch_env_no_codecs
           "in/good.pdf" "out" "jpeg" empty_world empty_world).
  - reflexivity.
  - intros q. reflexivity.
Defined.

(** ** What a failing document leaves behind *)





